(** * reader/dev-server.py: a static file server that decorates every
      header block with CORS / COEP / COOP headers

    The script defines [CORSRequestHandler], a subclass of CPython's
    [http.server.SimpleHTTPRequestHandler] that overrides [end_headers] and
    adds [do_OPTIONS], and a main block that runs it under
    [socketserver.TCPServer] on port 8080.

    The two overrides and the main block are embedded from
    reader/dev-server.py.  Every other method is inherited; the inherited
    methods are embedded from CPython 3.11 (Lib/http/server.py,
    Lib/socketserver.py, Lib/posixpath.py), on a POSIX host.

    Conventions.
    - A Python [str] and a Python [bytes] are both a [string]: a sequence of
      8-bit characters.  This is exact for the request line, which CPython
      decodes as ISO-8859-1.
    - [wfile] is the byte stream sent to the client so far; the peer keeps
      the connection open, so writing to it succeeds.
    - The file system, the clock and the library functions that are not
      embedded line by line are fields of a [World].
    - [sys.stdout] accepts every string printed, the working directory
      exists, and the clock shows a time within the years 1 to 9999, where
      [email.utils.formatdate] returns.
    - Methods that mutate [self] are computations in the monad [M]: they
      take the handler and return an outcome (a value or a raised exception)
      together with the mutated handler. *)

From Stdlib Require Import String Ascii List ZArith Lia Bool.
From Stdlib Require Import DecimalString.
Import ListNotations.

Open Scope string_scope.
Open Scope Z_scope.

(** ** Python string operations *)

Module Py.

Definition CR : ascii := "013"%char.
Definition LF : ascii := "010"%char.
Definition CRLF : string := String CR (String LF "").

(** [str(n)] for an integer. *)
Definition str (n : Z) : string := NilZero.string_of_int (Z.to_int n).

(** [len(s)]. *)
Definition len (s : string) : Z := Z.of_nat (String.length s).

(** [s.startswith(p)]. *)
Definition startswith (s p : string) : bool := String.prefix p s.

(** [s.endswith(p)]. *)
Fixpoint endswith (s p : string) : bool :=
  (s =? p)%string ||
  match s with
  | "" => false
  | String _ s' => endswith s' p
  end.

(** [c in s] for a one-character [c]. *)
Fixpoint contains (c : ascii) (s : string) : bool :=
  match s with
  | "" => false
  | String a s' => (a =? c)%char || contains c s'
  end.

(** [sub in s]. *)
Definition infix (sub s : string) : bool :=
  match String.index 0 sub s with
  | Some _ => true
  | None => false
  end.

(** [s.split(c)] for a one-character separator. *)
Fixpoint split (c : ascii) (s : string) : list string :=
  match s with
  | "" => [""]
  | String a s' =>
      if (a =? c)%char then "" :: split c s'
      else match split c s' with
           | w :: ws => String a w :: ws
           | [] => [String a ""]
           end
  end.

(** [s.split(c, 1)[0]]. *)
Fixpoint split1_head (c : ascii) (s : string) : string :=
  match s with
  | "" => ""
  | String a s' => if (a =? c)%char then "" else String a (split1_head c s')
  end.

(** [s.split(c, 1)[1]]; [None] when the list has one element. *)
Fixpoint split1_tail (c : ascii) (s : string) : option string :=
  match s with
  | "" => None
  | String a s' => if (a =? c)%char then Some s' else split1_tail c s'
  end.

(** [str.isspace] on the characters below U+0100. *)
Definition isspace (a : ascii) : bool :=
  let n := N_of_ascii a in
  (((9 <=? n) && (n <=? 13)) || ((28 <=? n) && (n <=? 32))
   || (n =? 133) || (n =? 160))%N.

(** [s.split()]: the maximal runs of characters that are not white space.
    [cur] is the run being read. *)
Fixpoint split_ws_from (cur s : string) : list string :=
  match s with
  | "" => if (cur =? "")%string then [] else [cur]
  | String a s' =>
      if isspace a
      then (if (cur =? "")%string then split_ws_from "" s'
            else cur :: split_ws_from "" s')
      else split_ws_from (cur ++ String a "") s'
  end.

Definition split_ws (s : string) : list string := split_ws_from "" s.

(** [s.rstrip(chars)], the characters to strip given as a predicate. *)
Fixpoint rstrip (p : ascii -> bool) (s : string) : string :=
  match s with
  | "" => ""
  | String a s' =>
      let r := rstrip p s' in
      if (r =? "")%string && p a then "" else String a r
  end.

(** [s.lstrip(chars)]. *)
Fixpoint lstrip (p : ascii -> bool) (s : string) : string :=
  match s with
  | "" => ""
  | String a s' => if p a then lstrip p s' else s
  end.

Definition is_crlf (a : ascii) : bool := ((a =? CR) || (a =? LF))%char.

(** [s.lower()], compared below with ASCII literals only. *)
Definition lower_char (a : ascii) : ascii :=
  let n := N_of_ascii a in
  if ((65 <=? n) && (n <=? 90))%N then ascii_of_N (n + 32) else a.

Fixpoint lower (s : string) : string :=
  match s with
  | "" => ""
  | String a s' => String (lower_char a) (lower s')
  end.

(** [sep.join(l)]. *)
Definition join (sep : string) (l : list string) : string := String.concat sep l.

(** [b"".join(l)]. *)
Definition cat (l : list string) : string := String.concat "" l.

(** [s.rfind(c)]: the index of the last [c], or -1. *)
Fixpoint rfind_from (i : Z) (c : ascii) (s : string) : Z :=
  match s with
  | "" => -1
  | String a s' =>
      let r := rfind_from (i + 1) c s' in
      if (0 <=? r) then r else if (a =? c)%char then i else -1
  end.

Definition rfind (c : ascii) (s : string) : Z := rfind_from 0 c s.

(** [s[:i]] and [s[i:]] for [0 <= i]. *)
Definition take (i : Z) (s : string) : string := String.substring 0 (Z.to_nat i) s.
Definition drop (i : Z) (s : string) : string :=
  String.substring (Z.to_nat i) (String.length s - Z.to_nat i) s.

(** [html.escape(s, quote=False)]. *)
Fixpoint html_escape (s : string) : string :=
  match s with
  | "" => ""
  | String a s' =>
      (if (a =? "&")%char then "&amp;"
       else if (a =? "<")%char then "&lt;"
       else if (a =? ">")%char then "&gt;"
       else String a "") ++ html_escape s'
  end.

End Py.

Import Py.

(** ** The world outside the handler *)

(** Exceptions a handler method raises; all derive from [Exception].
    [ValueError] stands for its subclasses too, [UnicodeEncodeError] among
    them. *)
Inductive exn := AttributeError | ValueError | OSError.

(** An aware or naive [datetime] as [send_head] uses it: its wall-clock
    time in whole seconds since the epoch, read as UTC, and its [tzinfo]. *)
Inductive tzinfo := TzNone | TzUTC | TzOther.

Record datetime := mkDatetime { dt_seconds : Z; dt_tzinfo : tzinfo }.

(** [urllib.parse.SplitResult]. *)
Record SplitResult := mkSplit {
  scheme : string; netloc : string; sp_path : string;
  query : string; fragment : string }.

(** The header section of a request as [http.client.parse_headers] returns
    it, or the exception it raises. *)
Inductive header_section :=
| Parsed (hs : list (string * string))
| LineTooLong (err : string)
| HTTPException (err : string).

(** What [open(path, 'rb')] followed by [os.fstat] gives: a regular file's
    bytes, whose number is its [st_size], and its [st_mtime] in whole
    seconds, or the exception raised
    ([OSError] for a missing or unreadable file, [ValueError] for a name
    the operating system cannot take, such as one with a NUL byte). *)
Inductive open_result :=
| Opened (content : string) (st_mtime : Z)
| OpenOSError
| OpenValueError.

(** What [list_directory] makes of a directory: the encoded page, or the
    exception in its way. *)
Inductive listing_result :=
| Listed (encoded : string)
| ListdirOSError   (** [os.listdir(path)] raises [OSError] *)
| EncodeError.     (** the page does not encode: [UnicodeEncodeError] *)

Record World := mkWorld {
  (** [sys.version.split()[0]] *)
  sys_version_number : string;
  (** [time.time()], in whole seconds *)
  time_time : Z;
  (** [datetime.datetime.fromtimestamp(t, datetime.timezone.utc)]: the
      exception it raises, [None] where it returns.  It raises
      [ValueError] for a time outside the years 1 to 9999, and [OSError]
      where [gmtime] fails. *)
  fromtimestamp_raises : Z -> option exn;
  (** [email.utils.formatdate(timestamp, usegmt=True)], which starts with
      that [fromtimestamp]; its value where [fromtimestamp] returns *)
  formatdate : Z -> string;
  (** [email.utils.parsedate_to_datetime]; [None] when it raises *)
  parsedate_to_datetime : string -> option datetime;
  (** [int(s)]; [None] when it raises [ValueError] *)
  int : string -> option Z;
  (** ['%r' % s] *)
  repr : string -> string;
  (** [s.encode('UTF-8', 'replace')] *)
  encode_utf8 : string -> string;
  (** [http.client.parse_headers(rfile)]: the header section read from the
      bytes that follow the request line, and the bytes left *)
  parse_headers : string -> header_section * string;
  (** [urllib.parse.unquote(path, errors='surrogatepass')], falling back to
      [urllib.parse.unquote(path)] on [UnicodeDecodeError] *)
  unquote : string -> string;
  (** [urllib.parse.urlsplit(url)]; [None] when it raises [ValueError] *)
  urlsplit : string -> option SplitResult;
  urlunsplit : SplitResult -> string;
  (** first component of [mimetypes.guess_type(path)] *)
  mimetypes_guess_type : string -> option string;
  (** [sys.getfilesystemencoding()] *)
  getfilesystemencoding : string;
  (** [os.getcwd()] *)
  os_getcwd : string;
  os_path_isdir : string -> bool;
  os_path_isfile : string -> bool;
  open_rb : string -> open_result;
  (** the HTML page that [list_directory] builds for directory [path]
      requested as [self.path], from [os.listdir(path)] and the kind of
      each entry of [path], encoded in the file system encoding *)
  listing : string -> string -> listing_result
}.

(** ** The handler object and the monad of its methods *)

Record Handler := mkHandler {
  directory : string;            (** [os.getcwd()] at construction *)
  rfile : string;                (** bytes received and not yet read *)
  wfile : string;                (** bytes sent *)
  raw_requestline : string;
  requestline : string;
  command : option string;
  path : string;
  request_version : string;
  headers : list (string * string);
  close_connection : bool;
  _headers_buffer : option (list string);   (** [None]: attribute not set *)
  stderr : list string;          (** messages passed to [log_message] *)
  fs_log : list string           (** paths handed to the file system *)
}.

Inductive outcome (A : Type) :=
| Ret (a : A)
| Raise (e : exn).
Arguments Ret {A} a.
Arguments Raise {A} e.

Definition M (A : Type) : Type := Handler -> outcome A * Handler.

Definition ret {A} (a : A) : M A := fun h => (Ret a, h).
Definition raise {A} (e : exn) : M A := fun h => (Raise e, h).
Definition bind {A B} (m : M A) (k : A -> M B) : M B :=
  fun h => match m h with
           | (Ret a, h') => k a h'
           | (Raise e, h') => (Raise e, h')
           end.
Definition get {A} (f : Handler -> A) : M A := fun h => (Ret (f h), h).
(** A call that does not touch the handler: its value, or its exception. *)
Definition lift {A} (o : outcome A) : M A := fun h => (o, h).
Definition modify (f : Handler -> Handler) : M unit := fun h => (Ret tt, f h).

(** Reading [self.path]. *)
Definition self_path : M string := get path.

Declare Scope py_scope.
Delimit Scope py_scope with py.
Notation "x <- m ;; k" := (bind m (fun x => k))
  (at level 61, m at next level, right associativity) : py_scope.
Notation "m ;; k" := (bind m (fun _ => k))
  (at level 61, right associativity) : py_scope.
Open Scope py_scope.

(** Attribute assignment, one setter per attribute that is assigned. *)
Definition set_rfile v h := mkHandler (directory h) v (wfile h) (raw_requestline h) (requestline h) (command h) (path h) (request_version h) (headers h) (close_connection h) (_headers_buffer h) (stderr h) (fs_log h).
Definition set_wfile v h := mkHandler (directory h) (rfile h) v (raw_requestline h) (requestline h) (command h) (path h) (request_version h) (headers h) (close_connection h) (_headers_buffer h) (stderr h) (fs_log h).
Definition set_raw_requestline v h := mkHandler (directory h) (rfile h) (wfile h) v (requestline h) (command h) (path h) (request_version h) (headers h) (close_connection h) (_headers_buffer h) (stderr h) (fs_log h).
Definition set_requestline v h := mkHandler (directory h) (rfile h) (wfile h) (raw_requestline h) v (command h) (path h) (request_version h) (headers h) (close_connection h) (_headers_buffer h) (stderr h) (fs_log h).
Definition set_command v h := mkHandler (directory h) (rfile h) (wfile h) (raw_requestline h) (requestline h) v (path h) (request_version h) (headers h) (close_connection h) (_headers_buffer h) (stderr h) (fs_log h).
Definition set_path v h := mkHandler (directory h) (rfile h) (wfile h) (raw_requestline h) (requestline h) (command h) v (request_version h) (headers h) (close_connection h) (_headers_buffer h) (stderr h) (fs_log h).
Definition set_request_version v h := mkHandler (directory h) (rfile h) (wfile h) (raw_requestline h) (requestline h) (command h) (path h) v (headers h) (close_connection h) (_headers_buffer h) (stderr h) (fs_log h).
Definition set_headers v h := mkHandler (directory h) (rfile h) (wfile h) (raw_requestline h) (requestline h) (command h) (path h) (request_version h) v (close_connection h) (_headers_buffer h) (stderr h) (fs_log h).
Definition set_close_connection v h := mkHandler (directory h) (rfile h) (wfile h) (raw_requestline h) (requestline h) (command h) (path h) (request_version h) (headers h) v (_headers_buffer h) (stderr h) (fs_log h).
Definition set_headers_buffer v h := mkHandler (directory h) (rfile h) (wfile h) (raw_requestline h) (requestline h) (command h) (path h) (request_version h) (headers h) (close_connection h) v (stderr h) (fs_log h).
Definition set_stderr v h := mkHandler (directory h) (rfile h) (wfile h) (raw_requestline h) (requestline h) (command h) (path h) (request_version h) (headers h) (close_connection h) (_headers_buffer h) v (fs_log h).
Definition set_fs_log v h := mkHandler (directory h) (rfile h) (wfile h) (raw_requestline h) (requestline h) (command h) (path h) (request_version h) (headers h) (close_connection h) (_headers_buffer h) (stderr h) v.

(** [self.wfile.write(data)]. *)
Definition write (data : string) : M unit :=
  modify (fun h => set_wfile (wfile h ++ data) h).

(** [self.rfile.readline(limit)]: the bytes up to and including the first
    line feed, at most [limit] of them. *)
Fixpoint readline_from (limit : Z) (s : string) : string * string :=
  match s with
  | "" => ("", "")
  | String a s' =>
      if limit <=? 0 then ("", s)
      else if (a =? LF)%char then (String a "", s')
      else let (l, r) := readline_from (limit - 1) s' in (String a l, r)
  end.

Definition readline (limit : Z) : M string :=
  fun h => let (l, r) := readline_from limit (rfile h) in (Ret l, set_rfile r h).

(** [self.headers.get(name, default)] and [name in self.headers]: header
    names compare without regard to case, the first match wins. *)
Fixpoint headers_get (hs : list (string * string)) (name default : string) : string :=
  match hs with
  | [] => default
  | (k, v) :: hs' =>
      if (lower k =? lower name)%string then v else headers_get hs' name default
  end.

Fixpoint headers_in (hs : list (string * string)) (name : string) : bool :=
  match hs with
  | [] => false
  | (k, _) :: hs' => (lower k =? lower name)%string || headers_in hs' name
  end.

(** ** http.server.BaseHTTPRequestHandler *)

Definition DQ : string := String "034"%char "".
Definition NL : string := String LF "".

(** [DEFAULT_ERROR_MESSAGE % {'code': code, 'message': message,
    'explain': explain}]. *)
Definition error_message_format (code : Z) (message explain : string) : string :=
  "<!DOCTYPE HTML>" ++ NL ++
  "<html lang=" ++ DQ ++ "en" ++ DQ ++ ">" ++ NL ++
  "    <head>" ++ NL ++
  "        <meta charset=" ++ DQ ++ "utf-8" ++ DQ ++ ">" ++ NL ++
  "        <title>Error response</title>" ++ NL ++
  "    </head>" ++ NL ++
  "    <body>" ++ NL ++
  "        <h1>Error response</h1>" ++ NL ++
  "        <p>Error code: " ++ str code ++ "</p>" ++ NL ++
  "        <p>Message: " ++ message ++ ".</p>" ++ NL ++
  "        <p>Error code explanation: " ++ str code ++ " - " ++ explain ++ ".</p>" ++ NL ++
  "    </body>" ++ NL ++
  "</html>" ++ NL.

Definition error_content_type : string := "text/html;charset=utf-8".

(** [HTTPStatus] members the server sends. *)
Definition CONTINUE := 100.
Definition OK := 200.
Definition NO_CONTENT := 204.
Definition RESET_CONTENT := 205.
Definition MOVED_PERMANENTLY := 301.
Definition NOT_MODIFIED := 304.
Definition BAD_REQUEST := 400.
Definition NOT_FOUND := 404.
Definition REQUEST_URI_TOO_LONG := 414.
Definition REQUEST_HEADER_FIELDS_TOO_LARGE := 431.
Definition NOT_IMPLEMENTED := 501.
Definition HTTP_VERSION_NOT_SUPPORTED := 505.

(** [self.responses]: code to (phrase, description), at the codes above. *)
Definition responses (code : Z) : option (string * string) :=
  if code =? 100 then Some ("Continue", "Request received, please continue")
  else if code =? 200 then Some ("OK", "Request fulfilled, document follows")
  else if code =? 204 then Some ("No Content", "Request fulfilled, nothing follows")
  else if code =? 205 then Some ("Reset Content", "Clear input form for further input")
  else if code =? 301 then Some ("Moved Permanently", "Object moved permanently -- see URI list")
  else if code =? 304 then Some ("Not Modified", "Document has not changed since given time")
  else if code =? 400 then Some ("Bad Request", "Bad request syntax or unsupported method")
  else if code =? 404 then Some ("Not Found", "Nothing matches the given URI")
  else if code =? 414 then Some ("Request-URI Too Long", "URI is too long")
  else if code =? 431 then Some ("Request Header Fields Too Large",
    "The server is unwilling to process the request because its header fields are too large")
  else if code =? 501 then Some ("Not Implemented", "Server does not support this operation")
  else if code =? 505 then Some ("HTTP Version Not Supported", "Cannot fulfill request")
  else None.

Definition default_request_version : string := "HTTP/0.9".

(** Class attributes, as [CORSRequestHandler] inherits them:
    [protocol_version] from [BaseHTTPRequestHandler], [server_version] from
    [SimpleHTTPRequestHandler]. *)
Definition protocol_version : string := "HTTP/1.0".
Definition server_version : string := "SimpleHTTP/0.6".

(** [t >= (c, d)] on pairs of integers. *)
Definition tuple_ge (t : Z * Z) (c d : Z) : bool :=
  let (a, b) := t in (c <? a) || ((a =? c) && (d <=? b)).

Definition default {A} (d : A) (o : option A) : A :=
  match o with Some a => a | None => d end.

Module BaseHTTPRequestHandler.

Section Methods.

Variable W : World.

(** Methods looked up on [self]: [self.end_headers], which a subclass may
    override, and [getattr(self, 'do_' + command)], [None] when [hasattr]
    fails. *)
Variable self_end_headers : M unit.
Variable self_do : string -> option (M unit).

Definition sys_version : string := "Python/" ++ sys_version_number W.

(** The message is logged without the client address and the time stamp
    that [log_message] puts before it. *)
Definition log_message (message : string) : M unit :=
  modify (fun h => set_stderr (stderr h ++ [message])%list h).

Definition log_request (code : Z) : M unit :=
  rl <- get requestline ;;
  log_message (DQ ++ rl ++ DQ ++ " " ++ str code ++ " -").

Definition log_error (message : string) : M unit := log_message message.

Definition version_string : string := server_version ++ " " ++ sys_version.

(** [email.utils.formatdate] raises what [datetime.fromtimestamp] raises.
    Without a timestamp the clock gives it. *)
Definition date_time_string (timestamp : option Z) : outcome string :=
  match timestamp with
  | None => Ret (formatdate W (time_time W))
  | Some t =>
      match fromtimestamp_raises W t with
      | Some e => Raise e
      | None => Ret (formatdate W t)
      end
  end.

Definition buffer_append (line : string) : M unit :=
  modify (fun h => set_headers_buffer (Some (default [] (_headers_buffer h) ++ [line])%list) h).

Definition send_response_only (code : Z) (message : option string) : M unit :=
  v <- get request_version ;;
  if negb (v =? "HTTP/0.9")%string then
    let message :=
      match message with
      | Some m => m
      | None => match responses code with Some (p, _) => p | None => "" end
      end in
    buffer_append (protocol_version ++ " " ++ str code ++ " " ++ message ++ CRLF)
  else ret tt.

Definition send_header (keyword value : string) : M unit :=
  v <- get request_version ;;
  (if negb (v =? "HTTP/0.9")%string
   then buffer_append (keyword ++ ": " ++ value ++ CRLF)
   else ret tt) ;;
  if (lower keyword =? "connection")%string then
    if (lower value =? "close")%string then modify (set_close_connection true)
    else if (lower value =? "keep-alive")%string then modify (set_close_connection false)
    else ret tt
  else ret tt.

Definition flush_headers : M unit :=
  b <- get _headers_buffer ;;
  match b with
  | Some lines => write (cat lines) ;; modify (set_headers_buffer (Some []))
  | None => ret tt
  end.

Definition end_headers : M unit :=
  v <- get request_version ;;
  if negb (v =? "HTTP/0.9")%string then
    b <- get _headers_buffer ;;
    match b with
    | Some lines => modify (set_headers_buffer (Some (lines ++ [CRLF])%list)) ;; flush_headers
    | None => raise AttributeError
    end
  else ret tt.

Definition send_response (code : Z) (message : option string) : M unit :=
  log_request code ;;
  send_response_only code message ;;
  send_header "Server" version_string ;;
  date <- lift (date_time_string None) ;;
  send_header "Date" date.

Definition send_error (code : Z) (message explain : option string) : M unit :=
  let (shortmsg, longmsg) := default ("???", "???") (responses code) in
  let message := default shortmsg message in
  let explain := default longmsg explain in
  log_error ("code " ++ str code ++ ", message " ++ message) ;;
  send_response code (Some message) ;;
  send_header "Connection" "close" ;;
  let body :=
    if (200 <=? code) &&
       negb ((code =? NO_CONTENT) || (code =? RESET_CONTENT) || (code =? NOT_MODIFIED))
    then Some (encode_utf8 W
                 (error_message_format code (html_escape message) (html_escape explain)))
    else None in
  match body with
  | Some b =>
      send_header "Content-Type" error_content_type ;;
      send_header "Content-Length" (str (len b))
  | None => ret tt
  end ;;
  self_end_headers ;;
  c <- get command ;;
  match body with
  | Some b =>
      if negb (match c with Some m => (m =? "HEAD")%string | None => false end)
         && negb (b =? "")%string
      then write b else ret tt
  | None => ret tt
  end.

Definition handle_expect_100 : M bool :=
  send_response_only CONTINUE None ;;
  self_end_headers ;;
  ret true.

(** The version check of [parse_request]: the pair of numbers and
    [base_version_number], or [None] where the source raises [ValueError]
    or [IndexError]. *)
Definition parse_version (version : string) : option ((Z * Z) * string) :=
  if negb (startswith version "HTTP/") then None
  else match split1_tail "/" version with
       | None => None
       | Some base_version_number =>
           match split "." base_version_number with
           | [a; b] =>
               match int W a, int W b with
               | Some x, Some y => Some ((x, y), base_version_number)
               | _, _ => None
               end
           | _ => None
           end
       end.

Definition parse_request : M bool :=
  modify (set_command None) ;;
  modify (set_request_version default_request_version) ;;
  modify (set_close_connection true) ;;
  raw <- get raw_requestline ;;
  let requestline := rstrip is_crlf raw in
  modify (set_requestline requestline) ;;
  let words := split_ws requestline in
  if (length words =? 0)%nat then ret false
  else
    ok <- (if (3 <=? length words)%nat then
             let version := last words "" in
             match parse_version version with
             | None =>
                 send_error BAD_REQUEST
                   (Some ("Bad request version (" ++ repr W version ++ ")")) None ;;
                 ret false
             | Some (version_number, base_version_number) =>
                 (if tuple_ge version_number 1 1 && ("HTTP/1.1" <=? protocol_version)%string
                  then modify (set_close_connection false) else ret tt) ;;
                 if tuple_ge version_number 2 0 then
                   send_error HTTP_VERSION_NOT_SUPPORTED
                     (Some ("Invalid HTTP version (" ++ base_version_number ++ ")")) None ;;
                   ret false
                 else modify (set_request_version version) ;; ret true
             end
           else ret true) ;;
    if negb ok then ret false
    else if negb ((2 <=? length words)%nat && (length words <=? 3)%nat) then
      send_error BAD_REQUEST
        (Some ("Bad request syntax (" ++ repr W requestline ++ ")")) None ;;
      ret false
    else
      match words with
      | command :: path :: _ =>
          ok <- (if (length words =? 2)%nat then
                   modify (set_close_connection true) ;;
                   if negb (command =? "GET")%string then
                     send_error BAD_REQUEST
                       (Some ("Bad HTTP/0.9 request type (" ++ repr W command ++ ")")) None ;;
                     ret false
                   else ret true
                 else ret true) ;;
          if negb ok then ret false
          else
            modify (set_command (Some command)) ;;
            modify (set_path path) ;;
            (if startswith path "//"
             then modify (set_path ("/" ++ lstrip (fun a => (a =? "/")%char) path))
             else ret tt) ;;
            rest <- get rfile ;;
            let (section, rest') := parse_headers W rest in
            modify (set_rfile rest') ;;
            match section with
            | LineTooLong err =>
                send_error REQUEST_HEADER_FIELDS_TOO_LARGE
                  (Some "Line too long") (Some err) ;;
                ret false
            | HTTPException err =>
                send_error REQUEST_HEADER_FIELDS_TOO_LARGE
                  (Some "Too many headers") (Some err) ;;
                ret false
            | Parsed hs =>
                modify (set_headers hs) ;;
                let conntype := headers_get hs "Connection" "" in
                (if (lower conntype =? "close")%string
                 then modify (set_close_connection true)
                 else if (lower conntype =? "keep-alive")%string
                         && ("HTTP/1.1" <=? protocol_version)%string
                 then modify (set_close_connection false)
                 else ret tt) ;;
                let expect := headers_get hs "Expect" "" in
                v <- get request_version ;;
                if (lower expect =? "100-continue")%string
                   && ("HTTP/1.1" <=? protocol_version)%string
                   && ("HTTP/1.1" <=? v)%string
                then ok <- handle_expect_100 ;;
                     if negb ok then ret false else ret true
                else ret true
            end
      | _ => ret false
      end.

Definition handle_one_request : M unit :=
  raw <- readline 65537 ;;
  modify (set_raw_requestline raw) ;;
  if 65536 <? len raw then
    modify (set_requestline "") ;;
    modify (set_request_version "") ;;
    modify (set_command (Some "")) ;;
    send_error REQUEST_URI_TOO_LONG None None
  else if (raw =? "")%string then modify (set_close_connection true)
  else
    ok <- parse_request ;;
    if negb ok then ret tt
    else
      c <- get command ;;
      let command := default "" c in
      match self_do command with
      | None =>
          send_error NOT_IMPLEMENTED
            (Some ("Unsupported method (" ++ repr W command ++ ")")) None
      | Some method => method
      end.

(** The [while not self.close_connection] loop of [handle]; every turn
    reads at least one byte or closes the connection, so the bytes left in
    [rfile] bound the number of turns. *)
Fixpoint handle_loop (fuel : nat) : M unit :=
  match fuel with
  | O => ret tt
  | S n =>
      cc <- get close_connection ;;
      if cc then ret tt else handle_one_request ;; handle_loop n
  end.

Definition handle : M unit :=
  modify (set_close_connection true) ;;
  handle_one_request ;;
  n <- get (fun h => String.length (rfile h)) ;;
  handle_loop (S n).

End Methods.

End BaseHTTPRequestHandler.

(** ** posixpath *)

Module posixpath.

(** [normpath], as Lib/posixpath.py defines it in Python; the C function
    that CPython loads in its place computes the same on the strings
    without a NUL character. *)
Definition normpath_step (initial_slashes : Z) (new_comps : list string) (comp : string)
  : list string :=
  if (comp =? "")%string || (comp =? ".")%string then new_comps
  else if negb (comp =? "..")%string
          || ((initial_slashes =? 0) && (length new_comps =? 0)%nat)
          || (negb (length new_comps =? 0)%nat && (last new_comps "" =? "..")%string)
  then (new_comps ++ [comp])%list
  else if negb (length new_comps =? 0)%nat then removelast new_comps
  else new_comps.

Definition normpath (path : string) : string :=
  if (path =? "")%string then "."
  else
    let initial_slashes :=
      if startswith path "/" then
        if startswith path "//" && negb (startswith path "///") then 2 else 1
      else 0 in
    let comps := split "/" path in
    let comps := fold_left (normpath_step initial_slashes) comps [] in
    let path := join "/" comps in
    let path :=
      if initial_slashes =? 2 then "//" ++ path
      else if initial_slashes =? 1 then "/" ++ path
      else path in
    if (path =? "")%string then "." else path.

(** [join(a, b)]. *)
Definition join (a b : string) : string :=
  if startswith b "/" then b
  else if (a =? "")%string || endswith a "/" then a ++ b
  else a ++ "/" ++ b.

Definition all_slashes (s : string) : bool :=
  (lstrip (fun a => (a =? "/")%char) s =? "")%string.

(** [dirname(p)]. *)
Definition dirname (p : string) : string :=
  let i := rfind "/" p + 1 in
  let head := take i p in
  if negb (head =? "")%string && negb (all_slashes head)
  then rstrip (fun a => (a =? "/")%char) head
  else head.

Definition all_dots (s : string) : bool :=
  (lstrip (fun a => (a =? ".")%char) s =? "")%string.

(** [splitext(p)]: the extension starts at the last dot of the last
    component, unless only dots come before it there. *)
Definition splitext (p : string) : string * string :=
  let sepIndex := rfind "/" p in
  let dotIndex := rfind "." p in
  if (sepIndex <? dotIndex)
     && negb (all_dots (take (dotIndex - (sepIndex + 1)) (drop (sepIndex + 1) p)))
  then (take dotIndex p, drop dotIndex p)
  else (p, "").

End posixpath.

(** ** http.server.SimpleHTTPRequestHandler *)

Module SimpleHTTPRequestHandler.

Import BaseHTTPRequestHandler.

Definition extensions_map (ext : string) : option string :=
  if (ext =? ".gz")%string then Some "application/gzip"
  else if (ext =? ".Z")%string then Some "application/octet-stream"
  else if (ext =? ".bz2")%string then Some "application/x-bzip2"
  else if (ext =? ".xz")%string then Some "application/x-xz"
  else None.

Section Methods.

Variable W : World.
Variable self_end_headers : M unit.

Definition guess_type (path : string) : string :=
  let (base, ext) := posixpath.splitext path in
  match extensions_map ext with
  | Some t => t
  | None =>
      let ext := lower ext in
      match extensions_map ext with
      | Some t => t
      | None =>
          match mimetypes_guess_type W path with
          | Some guess => if (guess =? "")%string then "application/octet-stream" else guess
          | None => "application/octet-stream"
          end
      end
  end.

(** The loop of [translate_path] over the words of the normalised path. *)
Definition translate_step (path word : string) : string :=
  if negb (posixpath.dirname word =? "")%string
     || (word =? ".")%string || (word =? "..")%string
  then path
  else posixpath.join path word.

Definition translate_path (directory path : string) : string :=
  let path := split1_head "?" path in
  let path := split1_head "#" path in
  let trailing_slash := endswith (rstrip isspace path) "/" in
  let path := unquote W path in
  let path := posixpath.normpath path in
  let words := split "/" path in
  let words := filter (fun w => negb (w =? "")%string) words in
  let path := fold_left translate_step words directory in
  if trailing_slash then path ++ "/" else path.

(** File system calls, each recorded in [fs_log]. *)
Definition touch (path : string) : M unit :=
  modify (fun h => set_fs_log (fs_log h ++ [path])%list h).

Definition isdir (path : string) : M bool :=
  touch path ;; ret (os_path_isdir W path).

Definition isfile (path : string) : M bool :=
  touch path ;; ret (os_path_isfile W path).

Definition list_directory (path : string) : M (option string) :=
  touch path ;;
  p <- self_path ;;
  match listing W path p with
  | ListdirOSError =>
      send_error W self_end_headers NOT_FOUND
        (Some "No permission to list directory") None ;;
      ret None
  | EncodeError => raise ValueError
  | Listed encoded =>
      send_response W OK None ;;
      send_header "Content-type" ("text/html; charset=" ++ getfilesystemencoding W) ;;
      send_header "Content-Length" (str (len encoded)) ;;
      self_end_headers ;;
      ret (Some encoded)
  end.

(** The test of [send_head] for a conditional request: the request has
    [If-Modified-Since] and no [If-None-Match], the date parses, and the
    file has not changed since.  When the dates are compared,
    [datetime.fromtimestamp] is applied to the file's modification time,
    outside the clause that catches the errors of the header, and what it
    raises leaves [send_head]. *)
Definition not_modified (hs : list (string * string)) (st_mtime : Z) : outcome bool :=
  if headers_in hs "If-Modified-Since" && negb (headers_in hs "If-None-Match") then
    match parsedate_to_datetime W (headers_get hs "If-Modified-Since" "") with
    | None => Ret false
    | Some ims =>
        let ims :=
          match dt_tzinfo ims with
          | TzNone => mkDatetime (dt_seconds ims) TzUTC
          | _ => ims
          end in
        match dt_tzinfo ims with
        | TzUTC =>
            match fromtimestamp_raises W st_mtime with
            | Some e => Raise e
            | None => Ret (st_mtime <=? dt_seconds ims)
            end
        | _ => Ret false
        end
    end
  else Ret false.

(** [send_head] from [ctype = self.guess_type(path)] on. *)
Definition send_head_file (path : string) : M (option string) :=
  let ctype := guess_type path in
  if endswith path "/" then
    send_error W self_end_headers NOT_FOUND (Some "File not found") None ;;
    ret None
  else
    touch path ;;
    match open_rb W path with
    | OpenOSError =>
        send_error W self_end_headers NOT_FOUND (Some "File not found") None ;;
        ret None
    | OpenValueError => raise ValueError
    | Opened content st_mtime =>
        hs <- get headers ;;
        unchanged <- lift (not_modified hs st_mtime) ;;
        if unchanged then
          send_response W NOT_MODIFIED None ;;
          self_end_headers ;;
          ret None
        else
          send_response W OK None ;;
          send_header "Content-type" ctype ;;
          send_header "Content-Length" (str (len content)) ;;
          last_modified <- lift (date_time_string W (Some st_mtime)) ;;
          send_header "Last-Modified" last_modified ;;
          self_end_headers ;;
          ret (Some content)
    end.

Definition send_head : M (option string) :=
  p <- self_path ;;
  d <- get directory ;;
  let path := translate_path d p in
  is_dir <- isdir path ;;
  if is_dir then
    match urlsplit W p with
    | None => raise ValueError
    | Some parts =>
        if negb (endswith (sp_path parts) "/") then
          send_response W MOVED_PERMANENTLY None ;;
          let new_parts :=
            mkSplit (scheme parts) (netloc parts) (sp_path parts ++ "/")
                    (query parts) (fragment parts) in
          let new_url := urlunsplit W new_parts in
          send_header "Location" new_url ;;
          send_header "Content-Length" "0" ;;
          self_end_headers ;;
          ret None
        else
          let index := posixpath.join path "index.html" in
          found <- isfile index ;;
          if found then send_head_file index
          else
            let index := posixpath.join path "index.htm" in
            found <- isfile index ;;
            if found then send_head_file index
            else list_directory path
    end
  else send_head_file path.

(** [shutil.copyfileobj(source, outputfile)]: the bytes of the source,
    written in order. *)
Definition copyfile (source : string) : M unit := write source.

Definition do_GET : M unit :=
  f <- send_head ;;
  match f with
  | Some source => copyfile source
  | None => ret tt
  end.

Definition do_HEAD : M unit :=
  f <- send_head ;;
  ret tt.

End Methods.

End SimpleHTTPRequestHandler.

(** ** reader/dev-server.py: CORSRequestHandler *)

Definition PORT : Z := 8080.

Module CORSRequestHandler.

Section Methods.

Variable W : World.

Definition end_headers : M unit :=
  (* Add CORS headers for ES6 modules *)
  BaseHTTPRequestHandler.send_header "Access-Control-Allow-Origin" "*" ;;
  BaseHTTPRequestHandler.send_header "Access-Control-Allow-Methods" "GET, POST, OPTIONS" ;;
  BaseHTTPRequestHandler.send_header "Access-Control-Allow-Headers" "Content-Type" ;;
  (* Allow ES6 modules *)
  BaseHTTPRequestHandler.send_header "Cross-Origin-Embedder-Policy" "require-corp" ;;
  BaseHTTPRequestHandler.send_header "Cross-Origin-Opener-Policy" "same-origin" ;;
  BaseHTTPRequestHandler.end_headers.

Definition do_OPTIONS : M unit :=
  BaseHTTPRequestHandler.send_response W 200 None ;;
  end_headers.

(** Inherited methods, with [self.end_headers] bound to the override. *)
Definition send_error := BaseHTTPRequestHandler.send_error W end_headers.
Definition do_GET : M unit := SimpleHTTPRequestHandler.do_GET W end_headers.
Definition do_HEAD : M unit := SimpleHTTPRequestHandler.do_HEAD W end_headers.

(** [getattr(self, 'do_' + command)]: the class has the three [do_]
    methods above. *)
Definition getattr_do (command : string) : option (M unit) :=
  if (command =? "GET")%string then Some do_GET
  else if (command =? "HEAD")%string then Some do_HEAD
  else if (command =? "OPTIONS")%string then Some do_OPTIONS
  else None.

Definition parse_request : M bool :=
  BaseHTTPRequestHandler.parse_request W end_headers.

Definition handle_one_request : M unit :=
  BaseHTTPRequestHandler.handle_one_request W end_headers getattr_do.

Definition handle : M unit :=
  BaseHTTPRequestHandler.handle W end_headers getattr_do.

(** The handler object as [__init__] leaves it before [handle] runs: the
    connection's bytes in [rfile], nothing sent. *)
Definition new (request : string) : Handler :=
  mkHandler (os_getcwd W) request "" "" "" None "" "" [] true None [] [].

End Methods.

End CORSRequestHandler.

(** [CORSRequestHandler(request, client_address, server)] on a connection
    that delivers [request]: the outcome of [handle] and the handler it
    leaves, whose [wfile] holds the bytes sent. *)
Definition served (W : World) (request : string) : outcome unit * Handler :=
  CORSRequestHandler.handle W (CORSRequestHandler.new W request).

Definition reply (W : World) (request : string) : string :=
  wfile (snd (served W request)).

(** ** A concrete world for the examples

    A site rooted at /srv/site with four files and a subdirectory, and one
    file outside the root; the file future.js is dated in the year
    10000.  The library functions are given on the strings
    the examples pass to them, with the values CPython computes there. *)

Module Example.

Definition NUL : ascii := "000"%char.

Definition digit (a : ascii) : option Z :=
  let n := Z.of_N (N_of_ascii a) in
  if (48 <=? n) && (n <=? 57) then Some (n - 48) else None.

(** [int(s)] on a string of decimal digits. *)
Fixpoint int_from (acc : Z) (s : string) : option Z :=
  match s with
  | "" => Some acc
  | String a s' =>
      match digit a with
      | Some d => int_from (10 * acc + d) s'
      | None => None
      end
  end.

Definition int (s : string) : option Z :=
  if (s =? "")%string then None else int_from 0 s.

Definition hexdigit (a : ascii) : option N :=
  let n := N_of_ascii a in
  if ((48 <=? n) && (n <=? 57))%N then Some (n - 48)%N
  else if ((65 <=? n) && (n <=? 70))%N then Some (n - 55)%N
  else if ((97 <=? n) && (n <=? 102))%N then Some (n - 87)%N
  else None.

(** [unquote] on escapes of ASCII characters. *)
Fixpoint unquote (s : string) : string :=
  match s with
  | String "%" (String a (String b s' as t) as u) =>
      match hexdigit a, hexdigit b with
      | Some x, Some y => String (ascii_of_N (16 * x + y)) (unquote s')
      | _, _ => String "%" (unquote u)
      end
  | String c s' => String c (unquote s')
  | "" => ""
  end.

(** [s.replace(c, '')] for the characters [c] that [p] holds of. *)
Fixpoint remove (p : ascii -> bool) (s : string) : string :=
  match s with
  | "" => ""
  | String a s' => if p a then remove p s' else String a (remove p s')
  end.

Definition TAB : ascii := "009"%char.

(** [urlsplit] and [urlunsplit] on a request target in origin form, a
    path with a query and a fragment: leading control characters and
    spaces are stripped, tabs, carriage returns and line feeds removed,
    the fragment and then the query split off.  No example passes a
    target with a scheme or a host. *)
Definition urlsplit (url : string) : option SplitResult :=
  let url := lstrip (fun a => (N_of_ascii a <=? 32)%N) url in
  let url := remove (fun a => (a =? TAB) || (a =? CR) || (a =? LF))%char url in
  let rest := split1_head "#" url in
  Some (mkSplit "" "" (split1_head "?" rest)
                (default "" (split1_tail "?" rest)) (default "" (split1_tail "#" url))).

Definition urlunsplit (p : SplitResult) : string :=
  sp_path p ++ (if (query p =? "")%string then "" else "?" ++ query p)
            ++ (if (fragment p =? "")%string then "" else "#" ++ fragment p).

(** A header section of lines [Name: value], ended by an empty line. *)
Fixpoint parse_headers_from (fuel : nat) (acc : list (string * string)) (s : string)
  : header_section * string :=
  match fuel with
  | O => (Parsed acc, s)
  | S n =>
      let (line, rest) := readline_from 65537 s in
      let line := rstrip is_crlf line in
      if (line =? "")%string then (Parsed acc, rest)
      else
        let name := split1_head ":" line in
        let value := lstrip isspace (default "" (split1_tail ":" line)) in
        parse_headers_from n (acc ++ [(name, value)])%list rest
  end.

Definition parse_headers (s : string) : header_section * string :=
  parse_headers_from (String.length s) [] s.

(** [datetime.fromtimestamp] on the times the examples pass: it raises
    [ValueError] before the year 1 and after the year 9999. *)
Definition fromtimestamp_raises (t : Z) : option exn :=
  if (-62135596800 <=? t) && (t <=? 253402300799) then None else Some ValueError.

Definition formatdate (t : Z) : string :=
  if t =? 1700000000 then "Tue, 14 Nov 2023 22:13:20 GMT"
  else if t =? 1600000000 then "Sun, 13 Sep 2020 12:26:40 GMT"
  else "".

(** ['%r' % s] for a string of characters below U+0100: in single quotes,
    or in double quotes when it holds a single quote and no double one;
    the quote and the backslash escaped, and the characters that are not
    printable written as escapes. *)
Definition hex (n : N) : ascii :=
  if (n <? 10)%N then ascii_of_N (48 + n) else ascii_of_N (87 + n).

Definition isprintable (a : ascii) : bool :=
  let n := N_of_ascii a in
  (((32 <=? n) && (n <=? 126)) || ((161 <=? n) && negb (n =? 173)))%N.

Definition repr_char (quote a : ascii) : string :=
  let n := N_of_ascii a in
  if ((a =? quote) || (a =? "\"))%char then String "\" (String a "")
  else if (a =? TAB)%char then "\t"
  else if (a =? LF)%char then "\n"
  else if (a =? CR)%char then "\r"
  else if isprintable a then String a ""
  else "\x" ++ String (hex (n / 16)) (String (hex (n mod 16)) "").

Fixpoint repr_chars (quote : ascii) (s : string) : string :=
  match s with
  | "" => ""
  | String a s' => repr_char quote a ++ repr_chars quote s'
  end.

Definition repr (s : string) : string :=
  let quote :=
    if contains "'" s && negb (contains "034" s) then "034"%char else "'"%char in
  String quote (repr_chars quote s ++ String quote "").

Definition parsedate_to_datetime (s : string) : option datetime :=
  if (s =? "Wed, 18 May 2033 03:33:20 GMT")%string then Some (mkDatetime 2000000000 TzUTC)
  else if (s =? "Sun, 13 Sep 2020 12:26:40 GMT")%string then Some (mkDatetime 1600000000 TzUTC)
  else None.

(** [mimetypes.guess_type] on the extensions of the examples, for a
    table that gives .js the type [js]. *)
Definition mimetypes_guess_type (js : string) (path : string) : option string :=
  let ext := snd (posixpath.splitext path) in
  if (ext =? ".js")%string then Some js
  else if (ext =? ".html")%string then Some "text/html"
  else if (ext =? ".txt")%string then Some "text/plain"
  else None.

Definition app_js : string := "export const answer = 42;".
Definition index_html : string := "<!DOCTYPE html><title>reader</title>".
Definition secret_txt : string := "outside the root".
Definition inside_secret_txt : string := "inside the root".

Definition has_nul (path : string) : bool := contains NUL path.

Definition os_path_isdir (path : string) : bool :=
  let p := rstrip (fun a => (a =? "/")%char) path in
  negb (has_nul path)
  && ((path =? "/")%string || (p =? "/srv")%string || (p =? "/srv/site")%string
      || (p =? "/srv/site/lib")%string).

Definition open_rb (path : string) : open_result :=
  if has_nul path then OpenValueError
  else if (path =? "/srv/site/app.js")%string then Opened app_js 1600000000
  else if (path =? "/srv/site/future.js")%string then Opened app_js 253402300800
  else if (path =? "/srv/site/index.html")%string then Opened index_html 1600000000
  else if (path =? "/srv/site/secret.txt")%string then Opened inside_secret_txt 1600000000
  else if (path =? "/srv/secret.txt")%string then Opened secret_txt 1600000000
  else OpenOSError.

Definition os_path_isfile (path : string) : bool :=
  match open_rb path with
  | Opened _ _ => true
  | _ => false
  end.

Definition listing (path request_path : string) : listing_result :=
  if os_path_isdir path
  then Listed ("<title>Directory listing for " ++ html_escape request_path ++ "</title>")
  else ListdirOSError.

(** The world of a machine whose [mimetypes] table gives .js the type
    [js]. *)
Definition world_with (js : string) : World :=
  mkWorld "3.11.2" 1700000000 fromtimestamp_raises formatdate parsedate_to_datetime int
          repr (fun s => s) parse_headers unquote
          urlsplit urlunsplit (mimetypes_guess_type js) "utf-8"
          "/srv/site" os_path_isdir os_path_isfile open_rb listing.

Definition world : World := world_with "text/javascript".

(** A handler in the middle of a reply to an HTTP/1.1 request: the status
    line and two headers wait in the buffer. *)
Definition building : Handler :=
  mkHandler "/srv/site" "" "" ("GET /app.js HTTP/1.1" ++ CRLF) "GET /app.js HTTP/1.1"
            (Some "GET") "/app.js" "HTTP/1.1" [] true
            (Some ["HTTP/1.0 200 OK" ++ CRLF;
                   "Server: SimpleHTTP/0.6 Python/3.11.2" ++ CRLF;
                   "Content-type: text/javascript" ++ CRLF])
            [] [].

(** A handler that has parsed the request line [GET /app.js], which has
    no version: the request version is HTTP/0.9 and nothing is buffered. *)
Definition simple : Handler :=
  mkHandler "/srv/site" "" "" ("GET /app.js" ++ CRLF) "GET /app.js"
            (Some "GET") "/app.js" "HTTP/0.9" [] true None [] [].

(** A request line followed by an empty header section. *)
Definition bare (line : string) : string := line ++ CRLF ++ CRLF.

End Example.

(** ** socketserver.TCPServer and the main block of reader/dev-server.py *)

Inductive socket_state := Fresh | Bound | Listening | Closed.

(** The running script: its listening socket, what it printed, and the
    bytes it sent on each connection it accepted.  [net] is the operating
    system's table of listening TCP sockets, port to owning process. *)
Record Process := mkProcess {
  net : Z -> option nat;
  socket : socket_state;
  server_address : string * Z;
  stdout : list string;          (** one entry per [print] *)
  proc_stderr : list string;
  replies : list string          (** one entry per accepted connection *)
}.

Definition set_net v p := mkProcess v (socket p) (server_address p) (stdout p) (proc_stderr p) (replies p).
Definition set_socket v p := mkProcess (net p) v (server_address p) (stdout p) (proc_stderr p) (replies p).
Definition set_server_address v p := mkProcess (net p) (socket p) v (stdout p) (proc_stderr p) (replies p).
Definition set_stdout v p := mkProcess (net p) (socket p) (server_address p) v (proc_stderr p) (replies p).
Definition set_proc_stderr v p := mkProcess (net p) (socket p) (server_address p) (stdout p) v (replies p).
Definition set_replies v p := mkProcess (net p) (socket p) (server_address p) (stdout p) (proc_stderr p) v.

(** What wakes the serve loop while [selector.select] waits: a connection
    to accept, or Ctrl+C. *)
Inductive arrival :=
| Connect (request : string)            (** a client connects and sends these bytes *)
| ConnectInterrupted (request : string) (** the same, and Ctrl+C arrives as
                                            [process_request] starts *)
| AcceptFails.                          (** [get_request] raises [OSError] *)

Inductive event :=
| Ready (a : arrival)
| Interrupt.

(** What the server process can see raised: an [Exception], or
    [KeyboardInterrupt], which derives from [BaseException] only. *)
Inductive raised := Exc (e : exn) | KeyboardInterrupt.

(** How [serve_forever] stands when the events run out: waiting in
    [select], or left by an exception.  [shutdown] is never called, so it
    does not return. *)
Inductive loop_result := Blocked | Raised (e : raised).

Inductive status := Running | Exited (code : Z).

Definition exn_name (e : raised) : string :=
  match e with
  | Exc AttributeError => "AttributeError"
  | Exc ValueError => "ValueError"
  | Exc OSError => "OSError"
  | KeyboardInterrupt => "KeyboardInterrupt"
  end.

Definition print (s : string) (p : Process) : Process :=
  set_stdout (stdout p ++ [s])%list p.

Module TCPServer.

Inductive address_family_t := AF_INET | AF_INET6 | AF_UNIX.
Inductive socket_type_t := SOCK_STREAM | SOCK_DGRAM.

Section Methods.

(** [self.RequestHandlerClass], the second argument of [__init__]: what
    instantiating the class on a connection does, from the bytes the
    connection delivers to the outcome of [handle] and the handler left. *)
Variable RequestHandlerClass : string -> outcome unit * Handler.

(** The pid of the script, and whether it may bind a port. *)
Variable pid : nat.
Variable may_bind : Z -> bool.

(** Class attributes of [TCPServer]. *)
Definition address_family : address_family_t := AF_INET.
Definition socket_type : socket_type_t := SOCK_STREAM.
Definition request_queue_size : Z := 5.
Definition allow_reuse_address : bool := false.

Definition update (f : Z -> option nat) (k : Z) (v : option nat) : Z -> option nat :=
  fun k' => if k' =? k then v else f k'.

(** [socket.getsockname()] of an [AF_INET] socket bound to [address]: the
    empty host is [INADDR_ANY], every interface of the machine. *)
Definition getsockname (address : string * Z) : string * Z :=
  (if (fst address =? "")%string then "0.0.0.0" else fst address, snd address).

(** [self.socket.bind(self.server_address)]: [OSError] when the process
    may not bind the port or a socket listens on it already (no
    [SO_REUSEADDR], [allow_reuse_address] being false); then
    [self.server_address = self.socket.getsockname()]. *)
Definition server_bind (p : Process) : option raised * Process :=
  let port := snd (server_address p) in
  if negb (may_bind port) then (Some (Exc OSError), p)
  else match net p port with
       | Some _ => (Some (Exc OSError), p)
       | None =>
           (None, set_server_address (getsockname (server_address p)) (set_socket Bound p))
       end.

(** [self.socket.listen(self.request_queue_size)]. *)
Definition server_activate (p : Process) : Process :=
  set_socket Listening (set_net (update (net p) (snd (server_address p)) (Some pid)) p).

(** [self.socket.close()]. *)
Definition server_close (p : Process) : Process :=
  match socket p with
  | Listening =>
      set_socket Closed (set_net (update (net p) (snd (server_address p)) None) p)
  | _ => set_socket Closed p
  end.

(** [__init__(server_address, RequestHandlerClass)]. *)
Definition init (address : string * Z) (p : Process) : option raised * Process :=
  let p := set_server_address address p in
  let p := set_socket Fresh p in
  match server_bind p with
  | (Some e, p) => (Some e, server_close p)
  | (None, p) => (None, server_activate p)
  end.

(** [self.RequestHandlerClass(request, client_address, self)]: [setup],
    then [handle] with [finish] in its [finally] clause. *)
Definition finish_request (request : string) (p : Process) : option raised * Process :=
  let (out, h) := RequestHandlerClass request in
  let p := set_replies (replies p ++ [wfile h])%list p in
  let p := set_proc_stderr (proc_stderr p ++ stderr h)%list p in
  (match out with Ret _ => None | Raise e => Some (Exc e) end, p).

Definition process_request (request : string) (p : Process) : option raised * Process :=
  finish_request request p.

Definition handle_error (e : raised) (p : Process) : Process :=
  set_proc_stderr
    (proc_stderr p ++
     ["----------------------------------------";
      "Exception occurred during processing of request";
      exn_name e;
      "----------------------------------------"])%list p.

(** [except Exception] takes the first branch for [Exc e]; the bare
    [except] re-raises anything else. *)
Definition _handle_request_noblock (a : arrival) (p : Process) : option raised * Process :=
  match a with
  | AcceptFails => (None, p)
  | ConnectInterrupted request =>
      (Some KeyboardInterrupt, set_replies (replies p ++ [""])%list p)
  | Connect request =>
      match process_request request p with
      | (None, p) => (None, p)
      | (Some (Exc e), p) => (None, handle_error (Exc e) p)
      | (Some e, p) => (Some e, p)
      end
  end.

Fixpoint serve_forever (events : list event) (p : Process) : loop_result * Process :=
  match events with
  | [] => (Blocked, p)
  | Interrupt :: _ => (Raised KeyboardInterrupt, p)
  | Ready a :: events' =>
      match _handle_request_noblock a p with
      | (None, p) => serve_forever events' p
      | (Some e, p) => (Raised e, p)
      end
  end.

End Methods.

End TCPServer.

(** ** The main block *)

Section Main.

Variable W : World.
Variable pid : nat.
Variable may_bind : Z -> bool.

(** An exception nobody catches: the interpreter prints the traceback on
    [sys.stderr] and exits with status 1. *)
Definition uncaught (e : raised) (p : Process) : status * Process :=
  (Exited 1,
   set_proc_stderr
     (proc_stderr p ++ ["Traceback (most recent call last):"; exn_name e])%list p).

Definition main (events : list event) (p : Process) : status * Process :=
  (* os.chdir('.')  -- Stay in current directory *)
  (* with socketserver.TCPServer(("", PORT), CORSRequestHandler) as httpd *)
  match TCPServer.init pid may_bind ("", PORT) p with
  | (Some e, p) => uncaught e p
  | (None, p) =>
      let p := print ("🚀 Development server running at http://localhost:" ++ str PORT ++ "/") p in
      let p := print "📝 CORS headers enabled for ES6 modules" p in
      let p := print "🔄 Press Ctrl+C to stop" p in
      match TCPServer.serve_forever (served W) events p with
      | (Blocked, p) => (Running, p)
      | (Raised KeyboardInterrupt, p) =>
          let p := print (NL ++ "👋 Server stopped") p in
          (Exited 0, TCPServer.server_close p)
      | (Raised e, p) => uncaught e (TCPServer.server_close p)
      end
  end.

(** The process as the interpreter starts the script. *)
Definition start (net : Z -> option nat) : Process :=
  mkProcess net Closed ("", 0) [] [] [].

End Main.


(** * Specification-level vocabulary *)
Definition header_line (kv : string * string) : string :=
  fst kv ++ ": " ++ snd kv ++ CRLF.

Definition status_line (code : Z) (message : string) : string :=
  protocol_version ++ " " ++ str code ++ " " ++ message ++ CRLF.

(** The five headers of the spec's table, in the order of the table. *)
Definition cors_headers : list (string * string) :=
  [("Access-Control-Allow-Origin", "*");
   ("Access-Control-Allow-Methods", "GET, POST, OPTIONS");
   ("Access-Control-Allow-Headers", "Content-Type");
   ("Cross-Origin-Embedder-Policy", "require-corp");
   ("Cross-Origin-Opener-Policy", "same-origin")].

(** The bytes of a response with a header block: status line, header
    lines, empty line, body. *)
Definition response (code : Z) (message : string) (hs : list (string * string))
           (body : string) : string :=
  status_line code message ++ cat (map header_line hs) ++ CRLF ++ body.

(** Effects of the buffer methods, as functions on the handler. *)
Definition http09 (h : Handler) : bool := (request_version h =? "HTTP/0.9")%string.

Definition buffered (h : Handler) : list string := default [] (_headers_buffer h).

Definition emit (lines : list string) (h : Handler) : Handler :=
  set_headers_buffer
    (if http09 h then _headers_buffer h else Some (buffered h ++ lines)%list) h.

Import BaseHTTPRequestHandler.

(** The handler after the override of [end_headers]. *)
Definition decorated (h : Handler) : Handler :=
  set_headers_buffer
    (if http09 h then _headers_buffer h else Some [])
    (set_wfile
       (if http09 h then wfile h
        else wfile h ++ cat (buffered h ++ map header_line cors_headers ++ [CRLF]))
       h).

Definition logged (msg : string) (h : Handler) : Handler :=
  set_stderr (stderr h ++ [msg])%list h.

Definition phrase (code : Z) : string :=
  match responses code with Some (p, _) => p | None => "" end.

Definition request_log (code : Z) (h : Handler) : string :=
  DQ ++ requestline h ++ DQ ++ " " ++ str code ++ " -".

Definition standard_headers (W : World) : list (string * string) :=
  [("Server", version_string W); ("Date", formatdate W (time_time W))].

Definition error_message (code : Z) (message : option string) : string :=
  default (fst (default ("???", "???") (responses code))) message.

Definition error_explain (code : Z) (explain : option string) : string :=
  default (snd (default ("???", "???") (responses code))) explain.

Definition error_body (W : World) (code : Z) (message explain : option string) : string :=
  encode_utf8 W (error_message_format code (html_escape (error_message code message))
                                      (html_escape (error_explain code explain))).

Definition has_body (code : Z) : bool :=
  (200 <=? code) &&
  negb ((code =? NO_CONTENT) || (code =? RESET_CONTENT) || (code =? NOT_MODIFIED)).

Definition is_head (h : Handler) : bool :=
  match command h with Some m => (m =? "HEAD")%string | None => false end.

Definition wrote (data : string) (h : Handler) : Handler :=
  set_wfile (wfile h ++ data) h.

(** The handler after [send_error], for a code whose reply has a body. *)
Definition after_send_error (W : World) (code : Z) (message explain : option string)
           (h : Handler) : Handler :=
  let msg := error_message code message in
  let body := error_body W code message explain in
  let h := logged ("code " ++ str code ++ ", message " ++ msg) h in
  let h := emit (status_line code msg :: map header_line (standard_headers W))
                (logged (request_log code h) h) in
  let h := set_close_connection true (emit [header_line ("Connection", "close")] h) in
  let h := emit [header_line ("Content-Type", error_content_type);
                 header_line ("Content-Length", str (len body))] h in
  let h := decorated h in
  if negb (is_head h) && negb (body =? "")%string then wrote body h else h.

(** A handler that has sent nothing and buffered nothing. *)
Definition Quiet (h : Handler) : Prop := wfile h = "" /\ buffered h = [].

(** ** Paths under the root *)

(** A name the file system takes as one component and that does not
    climb: not empty, without a slash, and neither "." nor "..". *)
Definition simple_name (w : string) : Prop :=
  w <> "" /\ contains "/" w = false /\ w <> "." /\ w <> "..".

(** [p] lies under [root]: it is [root] extended by simple names, each
    added by [posixpath.join], and by slashes. *)
Inductive under (root : string) : string -> Prop :=
| under_root : under root root
| under_join p w : under root p -> simple_name w -> under root (posixpath.join p w)
| under_slash p : under root p -> under root (p ++ "/").


(** The handler serves from [root], and every path it has handed to the
    file system lies under [root]. *)
Definition safe (root : string) (h : Handler) : Prop :=
  directory h = root /\ Forall (under root) (fs_log h).

(** ** Single lines *)

(** A string that holds neither a carriage return nor a line feed: put in
    a status line or in a header line, it does not end the line. *)
Definition single_line (s : string) : bool :=
  negb (contains CR s) && negb (contains LF s).

Definition single_line_header (kv : string * string) : bool :=
  single_line (fst kv) && single_line (snd kv).

(** The library functions whose values go into status lines and header
    lines return single lines, as CPython's do: the version of the
    interpreter, the name of the file system encoding, [formatdate],
    ['%r'], the [mimetypes] table, and [urlunsplit] of what [urlsplit]
    returned with a slash added to the path. *)
Definition single_line_library (W : World) : Prop :=
  single_line (sys_version_number W) = true /\
  single_line (getfilesystemencoding W) = true /\
  (forall t, single_line (formatdate W t) = true) /\
  (forall s, single_line (repr W s) = true) /\
  (forall file guess, mimetypes_guess_type W file = Some guess ->
                      single_line guess = true) /\
  (forall url parts, urlsplit W url = Some parts ->
     single_line (urlunsplit W (mkSplit (scheme parts) (netloc parts)
                                        (sp_path parts ++ "/")
                                        (query parts) (fragment parts))) = true).

(** The invariants below say of the status message and of the headers
    that they are single lines, on a condition [strict]: the condition
    that the library returns single lines, where that is what a theorem is
    about, and [False] where it is not. *)
Definition clean (strict : Prop) (s : string) : Prop :=
  strict -> single_line s = true.

Definition clean_header (strict : Prop) (kv : string * string) : Prop :=
  strict -> single_line_header kv = true.

Definition sane (strict : Prop) (W : World) : Prop :=
  strict -> single_line_library W.

(** The stages of a reply.  [Building]: a status line and header lines
    wait in the buffer.  [Sent]: a header block that ends with the five
    headers has gone out, followed by a body. *)
Definition Building (strict : Prop) (h : Handler) : Prop :=
  exists code message hs,
    buffered h = status_line code message :: map header_line hs /\
    clean strict message /\ Forall (clean_header strict) hs.

Definition Sent (strict : Prop) (h : Handler) : Prop :=
  buffered h = [] /\
  exists code message hs body,
    wfile h = response code message (hs ++ cors_headers) body /\
    clean strict message /\ Forall (clean_header strict) hs.

Definition phase0 (root : string) (h : Handler) : Prop :=
  close_connection h = true /\ safe root h /\ Quiet h.
Definition phase1 (strict : Prop) (root : string) (h : Handler) : Prop :=
  close_connection h = true /\ safe root h /\ wfile h = "" /\
  (http09 h = true \/ Building strict h).
Definition phase2 (strict : Prop) (root : string) (h : Handler) : Prop :=
  close_connection h = true /\ safe root h /\ (http09 h = true \/ Sent strict h).

(** A handler that has sent nothing, whatever waits in its buffer: how a
    method that raises leaves it. *)
Definition aborted (root : string) (h : Handler) : Prop :=
  close_connection h = true /\ safe root h /\ wfile h = "".

Definition touched (path : string) (h : Handler) : Handler :=
  set_fs_log (fs_log h ++ [path])%list h.

Arguments status_line : simpl never.
Arguments header_line : simpl never.
Arguments response : simpl never.
Arguments cors_headers : simpl never.
Arguments cat : simpl never.
Arguments str : simpl never.
Arguments error_body : simpl never.
Arguments error_message : simpl never.
Arguments standard_headers : simpl never.

(** What a method that answers a request leaves: a reply sent, or, when it
    raised, nothing sent. *)
Definition replied {A} (strict : Prop) (root : string) (r : outcome A * Handler) : Prop :=
  match fst r with
  | Ret _ => phase2 strict root (snd r)
  | Raise _ => aborted root (snd r)
  end.

(** How a handler stands once a request is dealt with: nothing sent, or a
    reply sent; the connection is to be closed either way. *)
Definition settled (strict : Prop) (root : string) (h : Handler) : Prop :=
  aborted root h \/ phase2 strict root h.

(** What [parse_request] leaves: on success nothing is sent yet; on failure
    the request is dealt with; it raises nothing. *)
Definition parse_post (strict : Prop) (root : string) (r : outcome bool * Handler) : Prop :=
  match fst r with
  | Ret true => phase0 root (snd r)
  | Ret false => settled strict root (snd r)
  | Raise _ => False
  end.

(** ** Requests that reach a [do_] method *)

(** The path [parse_request] stores for a request target: a run of leading
    slashes is reduced to one. *)
Definition stored_path (target : string) : string :=
  if startswith target "//"
  then "/" ++ lstrip (fun a => (a =? "/")%char) target
  else target.

(** [request] is well formed: its first line has at most 65536 bytes and
    the three words [command target version]; the version reads HTTP/x.y
    with (x, y) below (2, 0); the header section parses to [hs]. *)
Definition well_formed (W : World) (request command target version : string)
           (hs : list (string * string)) : Prop :=
  len (fst (readline_from 65537 request)) <= 65536 /\
  split_ws (rstrip is_crlf (fst (readline_from 65537 request)))
  = [command; target; version] /\
  (exists vn base, parse_version W version = Some (vn, base) /\ tuple_ge vn 2 0 = false) /\
  fst (parse_headers W (snd (readline_from 65537 request))) = Parsed hs.

(** The handler as [parse_request] leaves it for a well-formed request. *)
Definition parsed (W : World) (request command target version : string)
           (hs : list (string * string)) : Handler :=
  let raw := fst (readline_from 65537 request) in
  mkHandler (os_getcwd W)
            (snd (parse_headers W (snd (readline_from 65537 request))))
            "" raw (rstrip is_crlf raw) (Some command) (stored_path target)
            version hs true None [] [].

(** The server process once a handler of class [C] has dealt with
    [request] on a connection. *)
Definition answered (C : string -> outcome unit * Handler) (request : string)
           (p : Process) : Process :=
  set_proc_stderr (proc_stderr p ++ stderr (snd (C request)))%list
    (set_replies (replies p ++ [wfile (snd (C request))])%list p).

(** ** Events of the serve loop *)

(** An event that brings no Ctrl+C. *)
Definition peaceful (ev : event) : bool :=
  match ev with
  | Ready (Connect _) | Ready AcceptFails => true
  | Ready (ConnectInterrupted _) | Interrupt => false
  end.

(** The requests of the connections among the events. *)
Fixpoint requests_of (events : list event) : list string :=
  match events with
  | [] => []
  | Ready (Connect request) :: events' => request :: requests_of events'
  | _ :: events' => requests_of events'
  end.

(** What the script prints when it starts. *)
Definition banner : list string :=
  ["🚀 Development server running at http://localhost:8080/";
   "📝 CORS headers enabled for ES6 modules";
   "🔄 Press Ctrl+C to stop"].

Lemma set_headers_buffer_same h : set_headers_buffer (_headers_buffer h) h = h.
Proof. now destruct h. Qed.

Lemma append_nil_r (s : string) : s ++ "" = s.
Proof. induction s; cbn; congruence. Qed.

Lemma append_assoc (a b c : string) : (a ++ b) ++ c = a ++ b ++ c.
Proof. induction a; cbn; congruence. Qed.

Lemma cat_cons (x : string) (xs : list string) : cat (x :: xs) = x ++ cat xs.
Proof. destruct xs; cbn; [now rewrite append_nil_r | reflexivity]. Qed.

Lemma cat_app (xs ys : list string) : cat (xs ++ ys) = cat xs ++ cat ys.
Proof.
  induction xs as [|x xs IH]; [reflexivity|].
  change ((x :: xs) ++ ys)%list with (x :: (xs ++ ys))%list.
  now rewrite !cat_cons, IH, append_assoc.
Qed.

Lemma send_header_plain (k v : string) (h : Handler) :
  (lower k =? "connection")%string = false ->
  send_header k v h = (Ret tt, emit [header_line (k, v)] h).
Proof.
  intros Hk. unfold send_header, emit, http09, bind, get, buffer_append, modify, ret.
  rewrite Hk. destruct (request_version h =? "HTTP/0.9")%string; cbn;
    now rewrite ?set_headers_buffer_same.
Qed.

Lemma emit_emit (l1 l2 : list string) (h : Handler) :
  emit l2 (emit l1 h) = emit (l1 ++ l2) h.
Proof.
  unfold emit, http09, buffered. cbn.
  destruct (request_version h =? "HTTP/0.9")%string; cbn; [reflexivity|].
  now rewrite <- app_assoc.
Qed.

Lemma end_headers_decorated (h : Handler) :
  CORSRequestHandler.end_headers h = (Ret tt, decorated h).
Proof.
  unfold CORSRequestHandler.end_headers.
  unfold bind at 1. rewrite send_header_plain by reflexivity.
  unfold bind at 1. rewrite send_header_plain by reflexivity.
  unfold bind at 1. rewrite send_header_plain by reflexivity.
  unfold bind at 1. rewrite send_header_plain by reflexivity.
  unfold bind at 1. rewrite send_header_plain by reflexivity.
  rewrite !emit_emit.
  unfold end_headers, decorated, emit, flush_headers, bind, get, write, modify, ret,
    http09, buffered.
  cbn -[cat cors_headers].
  destruct (request_version h =? "HTTP/0.9")%string; cbn -[cat cors_headers].
  - now destruct h.
  - rewrite <- !app_assoc. reflexivity.
Qed.

Lemma http09_emit l h : http09 (emit l h) = http09 h.
Proof. reflexivity. Qed.

Lemma send_response_only_run code message h :
  send_response_only code (Some message) h = (Ret tt, emit [status_line code message] h).
Proof.
  unfold send_response_only, emit, http09, bind, get, buffer_append, modify, ret.
  destruct (request_version h =? "HTTP/0.9")%string; cbn;
    now rewrite ?set_headers_buffer_same.
Qed.

Lemma send_response_only_default code h :
  send_response_only code None h = (Ret tt, emit [status_line code (phrase code)] h).
Proof.
  unfold send_response_only, emit, http09, bind, get, buffer_append, modify, ret, phrase.
  destruct (request_version h =? "HTTP/0.9")%string; cbn;
    now rewrite ?set_headers_buffer_same.
Qed.

Lemma send_response_run W code message h :
  send_response W code message h
  = (Ret tt, emit (status_line code (default (phrase code) message)
                   :: map header_line (standard_headers W))
                  (logged (request_log code h) h)).
Proof.
  unfold send_response.
  unfold bind at 1. unfold log_request, log_message, bind at 1, get, modify. cbn [fst snd].
  change (set_stderr _ h) with (logged (request_log code h) h).
  unfold bind at 1.
  destruct message as [m|]; cbn [default];
    rewrite ?send_response_only_run, ?send_response_only_default;
    unfold bind at 1; rewrite send_header_plain by reflexivity;
    unfold bind at 1, lift, date_time_string;
    rewrite send_header_plain by reflexivity;
    rewrite !emit_emit; reflexivity.
Qed.

Lemma send_header_connection_close h :
  send_header "Connection" "close" h
  = (Ret tt, set_close_connection true (emit [header_line ("Connection", "close")] h)).
Proof.
  unfold send_header, emit, http09, bind, get, buffer_append, modify, ret.
  destruct (request_version h =? "HTTP/0.9")%string; cbn;
    now rewrite ?set_headers_buffer_same.
Qed.

Lemma send_error_run W code message explain h :
  has_body code = true ->
  CORSRequestHandler.send_error W code message explain h
  = (Ret tt, after_send_error W code message explain h).
Proof.
  intros Hb.
  unfold CORSRequestHandler.send_error, send_error, after_send_error,
    error_body, error_message, error_explain.
  destruct (default ("???", "???") (responses code)) as [shortmsg longmsg]. cbn [fst snd].
  fold (has_body code). rewrite Hb.
  unfold bind at 1. unfold log_error, log_message, modify.
  match goal with |- context [set_stderr ?l h] => change (set_stderr l h) with
    (logged ("code " ++ str code ++ ", message " ++ default shortmsg message) h) end.
  unfold bind at 1. rewrite send_response_run. cbn [default].
  unfold bind at 1. rewrite send_header_connection_close.
  unfold bind at 1. unfold bind at 1.
  rewrite send_header_plain by reflexivity.
  rewrite send_header_plain by reflexivity.
  rewrite emit_emit. cbn [app].
  unfold bind at 1. rewrite end_headers_decorated.
  unfold bind at 1, get.
  unfold is_head, write, modify, ret, wrote.
  match goal with |- context [decorated ?x] => set (h4 := decorated x) end.
  destruct (command h4) as [m|]; [destruct (m =? "HEAD")%string|]; cbn [negb andb];
    try reflexivity;
    match goal with |- context [(?b =? "")%string] => destruct (b =? "")%string end;
    reflexivity.
Qed.

Lemma response_eq code message hs body :
  response code message hs body
  = cat ((status_line code message :: map header_line hs) ++ [CRLF]) ++ body.
Proof.
  unfold response. rewrite cat_app, cat_cons. cbn [cat String.concat].
  now rewrite !append_assoc.
Qed.

Lemma wfile_after_send_error W code message explain h :
  http09 h = false -> Quiet h ->
  wfile (after_send_error W code message explain h)
  = response code (error_message code message)
      (standard_headers W
       ++ [("Connection", "close"); ("Content-Type", error_content_type);
           ("Content-Length", str (len (error_body W code message explain)))]
       ++ cors_headers)
      (if is_head h then "" else error_body W code message explain).
Proof.
  intros Hv [Hw Hb]. unfold http09 in Hv.
  rewrite response_eq.
  unfold after_send_error, decorated, emit, wrote, logged, is_head, http09, buffered in *.
  cbn -[cat cors_headers error_body error_message status_line header_line standard_headers].
  rewrite Hv, Hw, Hb.
  cbn -[cat cors_headers error_body error_message status_line header_line standard_headers].
  destruct (command h) as [m|]; [destruct (m =? "HEAD")%string|];
    cbn -[cat cors_headers error_body error_message status_line header_line standard_headers];
    rewrite ?Hv, ?Hw;
    try (destruct (error_body W code message explain =? "")%string eqn:E;
         [apply String.eqb_eq in E; rewrite E|]);
    cbn -[cat cors_headers error_body error_message status_line header_line standard_headers];
    rewrite ?Hv, ?Hw, ?append_nil_r; cbn [String.append];
    repeat (rewrite <- ?app_assoc; cbn [app map]); try reflexivity.
Qed.


(** ** Translated paths lie under the root *)

Lemma rfind_from_absent i c s : contains c s = false -> rfind_from i c s = -1.
Proof.
  revert i. induction s as [|a s IH]; intros i H; [reflexivity|].
  cbn in *. apply orb_false_iff in H as [Ha Hs].
  rewrite (IH (i + 1) Hs), Ha. reflexivity.
Qed.

Lemma rfind_from_present i c s : contains c s = true -> 0 <= i -> i <= rfind_from i c s.
Proof.
  revert i. induction s as [|a s IH]; intros i H Hi; [discriminate|].
  cbn in *. destruct (contains c s) eqn:Hs.
  - specialize (IH (i + 1) eq_refl ltac:(lia)).
    destruct (0 <=? rfind_from (i + 1) c s) eqn:E; [lia|].
    apply Z.leb_gt in E. lia.
  - rewrite (rfind_from_absent (i + 1) c s Hs). cbn.
    rewrite orb_false_r in H. rewrite H. lia.
Qed.

Lemma take_nonempty i s : 1 <= i -> s <> "" -> take i s <> "".
Proof.
  intros Hi Hs. unfold take. destruct s as [|a s]; [contradiction|].
  destruct (Z.to_nat i) eqn:E; [lia|]. cbn. discriminate.
Qed.

Lemma rstrip_empty_lstrip p s : rstrip p s = "" -> lstrip p s = "".
Proof.
  induction s as [|a s IH]; [reflexivity|]. cbn.
  destruct (rstrip p s =? "")%string eqn:E; cbn; [|discriminate].
  destruct (p a); [|discriminate]. intros _. apply IH. now apply String.eqb_eq.
Qed.

Lemma dirname_empty_no_slash w : posixpath.dirname w = "" -> contains "/" w = false.
Proof.
  intros H. destruct (contains "/" w) eqn:C; [exfalso|reflexivity].
  unfold posixpath.dirname in H.
  assert (Hr : 0 <= rfind "/" w) by (apply (rfind_from_present 0); [exact C|lia]).
  assert (Hw : w <> "") by (intros ->; discriminate).
  pose proof (take_nonempty (rfind "/" w + 1) w ltac:(lia) Hw) as Ht.
  destruct (take (rfind "/" w + 1) w =? "")%string eqn:E1.
  { apply String.eqb_eq in E1. contradiction. }
  cbn [negb andb] in H.
  destruct (posixpath.all_slashes (take (rfind "/" w + 1) w)) eqn:E2; cbn [negb] in H.
  - contradiction.
  - apply rstrip_empty_lstrip in H. unfold posixpath.all_slashes in E2.
    rewrite H in E2. discriminate.
Qed.

Lemma filter_nonempty (l : list string) :
  Forall (fun w => w <> "") (filter (fun w => negb (w =? "")%string) l).
Proof.
  induction l as [|w l IH]; [constructor|]. cbn.
  destruct (w =? "")%string eqn:E; cbn; [exact IH|].
  constructor; [now apply String.eqb_neq|exact IH].
Qed.

Lemma translate_step_under root p w :
  w <> "" -> under root p -> under root (SimpleHTTPRequestHandler.translate_step p w).
Proof.
  intros Hw Hp. unfold SimpleHTTPRequestHandler.translate_step.
  destruct (posixpath.dirname w =? "")%string eqn:E1; cbn [negb orb]; [|exact Hp].
  destruct (w =? ".")%string eqn:E2; cbn [orb]; [exact Hp|].
  destruct (w =? "..")%string eqn:E3; [exact Hp|].
  apply under_join; [exact Hp|].
  apply String.eqb_eq in E1. apply String.eqb_neq in E2, E3.
  repeat split; try assumption. now apply dirname_empty_no_slash.
Qed.

Lemma fold_translate_under root words q :
  Forall (fun w => w <> "") words -> under root q ->
  under root (fold_left SimpleHTTPRequestHandler.translate_step words q).
Proof.
  revert q. induction words as [|w words IH]; intros q Hl Hq; [exact Hq|].
  inversion Hl; subst. cbn [fold_left]. apply IH; [assumption|].
  now apply translate_step_under.
Qed.

Lemma translate_path_under W root p :
  under root (SimpleHTTPRequestHandler.translate_path W root p).
Proof.
  unfold SimpleHTTPRequestHandler.translate_path.
  match goal with |- context [fold_left _ ?l root] =>
    pose proof (fold_translate_under root l root (filter_nonempty _) (under_root root)) as H
  end.
  destruct (endswith _ "/"); [now apply under_slash|exact H].
Qed.

(** ** What a path under the root looks like *)











(** ** The stages of a reply are kept by the buffer operations *)

Lemma phase0_logged root m h : phase0 root h -> phase0 root (logged m h).
Proof. exact (fun H => H). Qed.

Lemma phase0_touched root p h :
  under root p -> phase0 root h -> phase0 root (touched p h).
Proof.
  intros Hu [Hc [[Hd Hs] Hq]]. split; [exact Hc|]. split; [|exact Hq].
  split; [exact Hd|]. unfold touched. cbn. apply Forall_app. split; [exact Hs|].
  constructor; [exact Hu|constructor].
Qed.

(** *** Single lines *)

Lemma contains_app c s t : contains c (s ++ t) = contains c s || contains c t.
Proof.
  induction s as [|a s IH]; [reflexivity|].
  cbn [String.append contains]. now rewrite IH, orb_assoc.
Qed.

Lemma single_line_app a b : single_line (a ++ b) = single_line a && single_line b.
Proof.
  unfold single_line. rewrite !contains_app.
  destruct (contains CR a), (contains CR b), (contains LF a), (contains LF b); reflexivity.
Qed.

Lemma single_line_uint d : single_line (NilEmpty.string_of_uint d) = true.
Proof.
  induction d; cbn [NilEmpty.string_of_uint]; try reflexivity;
    match goal with |- single_line (String ?c ?s) = true =>
      change (String c s) with (String c "" ++ s); now rewrite single_line_app, IHd
    end.
Qed.

Lemma single_line_str n : single_line (str n) = true.
Proof.
  unfold str, NilZero.string_of_int, NilZero.string_of_uint.
  destruct (Z.to_int n) as [d|d]; destruct d; try reflexivity;
    match goal with
    | |- single_line (String "-" ?s) = true =>
        change (String "-" s) with ("-" ++ s); rewrite single_line_app;
        apply andb_true_intro; split; [reflexivity | apply single_line_uint]
    | |- _ => apply single_line_uint
    end.
Qed.

Lemma sane_false W : sane False W.
Proof. intros []. Qed.

Lemma clean_app strict a b : clean strict a -> clean strict b -> clean strict (a ++ b).
Proof.
  intros Ha Hb Hs. rewrite single_line_app, (Ha Hs), (Hb Hs). reflexivity.
Qed.

Lemma clean_str strict n : clean strict (str n).
Proof. intros _. apply single_line_str. Qed.

Lemma clean_header_intro strict k v :
  clean strict k -> clean strict v -> clean_header strict (k, v).
Proof.
  intros Hk Hv Hs. unfold single_line_header. cbn [fst snd].
  now rewrite (Hk Hs), (Hv Hs).
Qed.

Lemma clean_formatdate strict W t : sane strict W -> clean strict (formatdate W t).
Proof. intros H Hs. apply (H Hs). Qed.

Lemma clean_repr strict W s : sane strict W -> clean strict (repr W s).
Proof. intros H Hs. apply (H Hs). Qed.

Lemma clean_encoding strict W : sane strict W -> clean strict (getfilesystemencoding W).
Proof. intros H Hs. apply (H Hs). Qed.

Lemma clean_version_string strict W : sane strict W -> clean strict (version_string W).
Proof.
  intros H Hs. unfold version_string, sys_version.
  rewrite !single_line_app. now rewrite (proj1 (H Hs)).
Qed.

Lemma clean_guess_type strict W file :
  sane strict W -> clean strict (SimpleHTTPRequestHandler.guess_type W file).
Proof.
  intros H Hs. unfold SimpleHTTPRequestHandler.guess_type.
  destruct (posixpath.splitext file) as [base ext].
  assert (N : forall e t, SimpleHTTPRequestHandler.extensions_map e = Some t ->
                          single_line t = true).
  { intros e t. unfold SimpleHTTPRequestHandler.extensions_map.
    repeat match goal with |- context [if ?b then _ else _] => destruct b end;
      intros E; inversion E; reflexivity. }
  destruct (SimpleHTTPRequestHandler.extensions_map ext) as [t|] eqn:E1;
    [exact (N _ _ E1)|].
  destruct (SimpleHTTPRequestHandler.extensions_map (lower ext)) as [t|] eqn:E2;
    [exact (N _ _ E2)|].
  destruct (mimetypes_guess_type W file) as [guess|] eqn:G; [|reflexivity].
  destruct (guess =? "")%string; [reflexivity|].
  exact (proj1 (proj2 (proj2 (proj2 (proj2 (H Hs))))) file guess G).
Qed.

Lemma clean_location strict W url parts :
  sane strict W -> urlsplit W url = Some parts ->
  clean strict (urlunsplit W (mkSplit (scheme parts) (netloc parts) (sp_path parts ++ "/")
                                      (query parts) (fragment parts))).
Proof.
  intros H E Hs. exact (proj2 (proj2 (proj2 (proj2 (proj2 (H Hs))))) url parts E).
Qed.

Lemma clean_standard_headers strict W :
  sane strict W -> Forall (clean_header strict) (standard_headers W).
Proof.
  intros H. unfold standard_headers.
  repeat constructor; apply clean_header_intro;
    try (intros _; reflexivity);
    [now apply clean_version_string | now apply clean_formatdate].
Qed.

Lemma clean_error_message strict code m :
  clean strict m -> clean strict (error_message code (Some m)).
Proof. exact (fun H => H). Qed.

Ltac sane_tac := first [assumption | apply sane_false].

Ltac clean_tac :=
  repeat first
    [ assumption
    | (intros _; reflexivity)
    | apply clean_header_intro
    | apply clean_error_message
    | apply clean_str
    | apply clean_formatdate; sane_tac
    | apply clean_repr; sane_tac
    | apply clean_encoding; sane_tac
    | apply clean_guess_type; sane_tac
    | eapply clean_location; [sane_tac | eassumption]
    | apply clean_standard_headers; sane_tac
    | apply Forall_app; split
    | apply Forall_cons
    | apply Forall_nil
    | apply clean_app ].

(** *** The stages *)

Lemma phase1_status strict root code message hs h :
  clean strict message -> Forall (clean_header strict) hs ->
  phase0 root h ->
  phase1 strict root (emit (status_line code message :: map header_line hs) h).
Proof.
  intros Cm Chs [Hc [Hs [Hw Hb]]]. split; [exact Hc|]. split; [exact Hs|].
  split; [exact Hw|].
  destruct (http09 h) eqn:E; [left; exact E|right].
  exists code, message, hs. split; [|split; assumption].
  unfold emit, buffered in *. rewrite E. cbn. now rewrite Hb.
Qed.

Lemma phase1_headers strict root hs h :
  Forall (clean_header strict) hs ->
  phase1 strict root h -> phase1 strict root (emit (map header_line hs) h).
Proof.
  intros Chs [Hc [Hs [Hw [E|(code & message & hs0 & Hb & Cm & Chs0)]]]];
    (split; [exact Hc|split; [exact Hs|split; [exact Hw|]]]).
  - left. exact E.
  - destruct (http09 h) eqn:E; [left; exact E|right].
    exists code, message, (hs0 ++ hs)%list. split; [|split].
    + unfold emit, buffered in *. rewrite E. cbn. rewrite Hb. cbn. now rewrite map_app.
    + exact Cm.
    + apply Forall_app. split; assumption.
Qed.

Lemma phase1_header strict root k v h :
  clean_header strict (k, v) ->
  phase1 strict root h -> phase1 strict root (emit [header_line (k, v)] h).
Proof.
  intros C. apply (phase1_headers strict root [(k, v)]). constructor; [exact C|constructor].
Qed.

Lemma phase1_close strict root h :
  phase1 strict root h -> phase1 strict root (set_close_connection true h).
Proof. intros [_ H]. split; [reflexivity|exact H]. Qed.

Lemma phase2_decorated strict root h : phase1 strict root h -> phase2 strict root (decorated h).
Proof.
  intros [Hc [Hs [Hw [E|(code & message & hs & Hb & Cm & Chs)]]]];
    (split; [exact Hc|split; [exact Hs|]]).
  - left. exact E.
  - destruct (http09 h) eqn:E; [left; exact E|right].
    unfold Sent, decorated, buffered in *.
    cbn -[cat cors_headers response status_line header_line]. rewrite E.
    split; [reflexivity|]. exists code, message, hs, "". split; [|split; assumption].
    rewrite response_eq, Hw, Hb, map_app, append_nil_r.
    cbn [String.append app]. now rewrite <- app_assoc.
Qed.

Lemma phase2_wrote strict root data h :
  phase2 strict root h -> phase2 strict root (wrote data h).
Proof.
  intros [Hc [Hs [E|[Hb (code & message & hs & body & Hw & Cm & Chs)]]]];
    (split; [exact Hc|split; [exact Hs|]]).
  - left. exact E.
  - right. split; [exact Hb|]. exists code, message, hs, (body ++ data).
    split; [|split; assumption].
    unfold wrote. cbn. rewrite Hw. unfold response. now rewrite !append_assoc.
Qed.

Lemma phase1_aborted strict root h : phase1 strict root h -> aborted root h.
Proof. intros [Hc [Hs [Hw _]]]. split; [exact Hc|split; [exact Hs|exact Hw]]. Qed.

Lemma phase0_aborted root h : phase0 root h -> aborted root h.
Proof. intros [Hc [Hs [Hw _]]]. split; [exact Hc|split; [exact Hs|exact Hw]]. Qed.

Lemma phase2_after_send_error strict root W code message explain h :
  sane strict W -> clean strict (error_message code message) ->
  safe root h -> Quiet h ->
  phase2 strict root (after_send_error W code message explain h).
Proof.
  intros HS Cm Hs Hq. unfold after_send_error.
  assert (H4 : phase2 strict root (decorated
    (emit [header_line ("Content-Type", error_content_type);
           header_line ("Content-Length", str (len (error_body W code message explain)))]
       (set_close_connection true
          (emit [header_line ("Connection", "close")]
             (emit (status_line code (error_message code message)
                    :: map header_line (standard_headers W))
                (set_close_connection true
                  (logged (request_log code
                     (logged ("code " ++ str code ++ ", message " ++ error_message code message) h))
                     (logged ("code " ++ str code ++ ", message " ++ error_message code message) h))))))))).
  { apply phase2_decorated.
    apply (phase1_headers strict root [("Content-Type", _); ("Content-Length", _)]);
      [clean_tac|].
    apply phase1_close.
    apply (phase1_headers strict root [("Connection", "close")]); [clean_tac|].
    apply phase1_status; [exact Cm | clean_tac |].
    split; [reflexivity|]. split; [exact Hs|exact Hq]. }
  destruct H4 as [_ H4].
  match goal with |- phase2 strict root (if ?c then _ else _) => destruct c end.
  - apply phase2_wrote. split; [reflexivity|exact H4].
  - split; [reflexivity|exact H4].
Qed.

(** A reply sent while the request version is HTTP/0.9 has no header block
    to look at. *)
Lemma phase2_after_send_error_bare strict root W code message explain h :
  http09 h = true -> safe root h ->
  phase2 strict root (after_send_error W code message explain h).
Proof.
  intros Hv Hs. unfold after_send_error. cbv zeta.
  destruct (negb _ && negb _); (split; [reflexivity|split; [exact Hs|left; exact Hv]]).
Qed.

(** ** Running the methods of [CORSRequestHandler] *)

Lemma bind_run {A B} (m : M A) (k : A -> M B) h a h' :
  m h = (Ret a, h') -> bind m k h = k a h'.
Proof. intros E. unfold bind. now rewrite E. Qed.

Lemma bind_raise {A B} (m : M A) (k : A -> M B) h e h' :
  m h = (Raise e, h') -> bind m k h = (Raise e, h').
Proof. intros E. unfold bind. now rewrite E. Qed.

Lemma bind_lift_raise {A B} e (k : A -> M B) h : bind (lift (Raise e)) k h = (Raise e, h).
Proof. reflexivity. Qed.

Lemma touch_run p h : SimpleHTTPRequestHandler.touch p h = (Ret tt, touched p h).
Proof. reflexivity. Qed.

Lemma isdir_run W p h :
  SimpleHTTPRequestHandler.isdir W p h = (Ret (os_path_isdir W p), touched p h).
Proof. reflexivity. Qed.

Lemma isfile_run W p h :
  SimpleHTTPRequestHandler.isfile W p h = (Ret (os_path_isfile W p), touched p h).
Proof. reflexivity. Qed.

Lemma write_run d h : write d h = (Ret tt, wrote d h).
Proof. reflexivity. Qed.

Lemma copyfile_run d h : SimpleHTTPRequestHandler.copyfile d h = (Ret tt, wrote d h).
Proof. reflexivity. Qed.

Lemma bind_assoc {A B C} (m : M A) (k1 : A -> M B) (k2 : B -> M C) h :
  bind (bind m k1) k2 h = bind m (fun a => bind (k1 a) k2) h.
Proof. unfold bind. destruct (m h) as [[a|e] h']; reflexivity. Qed.

Ltac known_run :=
  first [ apply send_response_run
        | apply touch_run
        | apply isdir_run
        | apply isfile_run
        | apply write_run
        | apply copyfile_run
        | apply send_header_connection_close
        | apply send_header_plain; reflexivity
        | apply end_headers_decorated
        | apply send_error_run; reflexivity
        | reflexivity ].

Ltac exec_bind :=
  match goal with
  | |- context [@bind ?A ?B ?m ?k ?h] =>
      rewrite (@bind_run A B m k h _ _ ltac:(known_run)); cbv beta
  end.

Ltac exec_tail :=
  first [ rewrite send_response_run
        | rewrite copyfile_run
        | rewrite write_run
        | rewrite send_header_connection_close
        | rewrite send_header_plain by reflexivity
        | rewrite end_headers_decorated
        | rewrite send_error_run by reflexivity
        | progress unfold ret, raise ].

Ltac exec := repeat first [ exec_bind | rewrite bind_assoc | exec_tail ].

Lemma do_OPTIONS_run W h :
  CORSRequestHandler.do_OPTIONS W h
  = (Ret tt, decorated (emit (status_line 200 "OK" :: map header_line (standard_headers W))
                             (logged (request_log 200 h) h))).
Proof. unfold CORSRequestHandler.do_OPTIONS. exec. reflexivity. Qed.

Lemma phase2_send_error strict root W code message explain h :
  sane strict W -> clean strict (error_message code message) ->
  phase0 root h -> phase2 strict root (after_send_error W code message explain h).
Proof. intros HS Cm [_ [Hs Hq]]. now apply phase2_after_send_error. Qed.

Lemma simple_index_html : simple_name "index.html".
Proof. repeat split; (discriminate || reflexivity). Qed.

Lemma simple_index_htm : simple_name "index.htm".
Proof. repeat split; (discriminate || reflexivity). Qed.

Ltac under_tac :=
  first [ assumption
        | apply translate_path_under
        | apply under_join; [apply translate_path_under | apply simple_index_html]
        | apply under_join; [apply translate_path_under | apply simple_index_htm] ].

Ltac ph0 H :=
  first [ exact H
        | destruct H as [? ?]; split; [reflexivity | assumption] ].

Ltac phases :=
  repeat match goal with
         | |- phase0 _ (logged _ _) => apply phase0_logged
         | |- phase0 _ (touched _ _) => apply phase0_touched; [under_tac|]
         | |- phase1 _ _ (emit (status_line _ _ :: _) _) =>
             apply phase1_status; [clean_tac | clean_tac |]
         | |- phase1 _ _ (emit [header_line _] _) => apply phase1_header; [clean_tac|]
         | |- phase1 _ _ (set_close_connection true _) => apply phase1_close
         | |- phase2 _ _ (decorated _) => apply phase2_decorated
         | |- phase2 _ _ (wrote _ _) => apply phase2_wrote
         | |- phase2 _ _ (after_send_error _ _ _ _ _) =>
             apply phase2_send_error; [sane_tac | clean_tac |]
         | |- aborted _ (emit _ _) => apply (phase1_aborted False)
         | |- aborted _ _ => apply phase0_aborted
         | |- _ => assumption
         | H : phase0 _ _ |- phase0 _ _ => ph0 H
         end.

Lemma do_OPTIONS_replied strict root W h :
  sane strict W -> phase0 root h -> replied strict root (CORSRequestHandler.do_OPTIONS W h).
Proof. intros HS H. rewrite do_OPTIONS_run. cbn [replied fst snd]. phases. Qed.

Lemma send_head_file_replied strict root W file h :
  sane strict W -> under root file -> phase0 root h ->
  replied strict root
    (SimpleHTTPRequestHandler.send_head_file W CORSRequestHandler.end_headers file h).
Proof.
  intros HS Hu H. unfold SimpleHTTPRequestHandler.send_head_file.
  fold (CORSRequestHandler.send_error W).
  destruct (endswith file "/").
  - exec. cbn [replied fst snd]. phases.
  - destruct (open_rb W file) as [content st_mtime| |].
    + exec.
      match goal with |- context [SimpleHTTPRequestHandler.not_modified W ?hs ?m] =>
        destruct (SimpleHTTPRequestHandler.not_modified W hs m) as [[|]|e] end.
      * exec. cbn [replied fst snd]. phases.
      * exec. unfold date_time_string.
        destruct (fromtimestamp_raises W st_mtime) as [e|].
        -- rewrite bind_lift_raise. cbn [replied fst snd]. phases.
        -- exec. cbn [replied fst snd]. phases.
      * rewrite bind_lift_raise. cbn [replied fst snd]. phases.
    + exec. cbn [replied fst snd]. phases.
    + exec. cbn [replied fst snd]. phases.
Qed.

Lemma list_directory_replied strict root W file h :
  sane strict W -> under root file -> phase0 root h ->
  replied strict root
    (SimpleHTTPRequestHandler.list_directory W CORSRequestHandler.end_headers file h).
Proof.
  intros HS Hu H. unfold SimpleHTTPRequestHandler.list_directory.
  fold (CORSRequestHandler.send_error W).
  exec. destruct (listing W file _); exec; cbn [replied fst snd]; phases.
Qed.

Lemma send_head_replied strict root W h :
  sane strict W -> phase0 root h ->
  replied strict root (SimpleHTTPRequestHandler.send_head W CORSRequestHandler.end_headers h).
Proof.
  intros HS H. pose proof (proj1 (proj1 (proj2 H))) as Hd.
  unfold SimpleHTTPRequestHandler.send_head. exec. rewrite Hd.
  destruct (os_path_isdir W _).
  - destruct (urlsplit W (path h)) as [parts|] eqn:Eparts.
    + destruct (negb (endswith _ "/")).
      * exec. cbn [replied fst snd]. phases.
      * exec. destruct (os_path_isfile W _).
        -- apply send_head_file_replied; [exact HS | under_tac | phases].
        -- exec. destruct (os_path_isfile W _).
           ++ apply send_head_file_replied; [exact HS | under_tac | phases].
           ++ apply list_directory_replied; [exact HS | under_tac | phases].
    + exec. cbn [replied fst snd]. phases.
  - apply send_head_file_replied; [exact HS | under_tac | phases].
Qed.

Lemma do_GET_replied strict root W h :
  sane strict W -> phase0 root h -> replied strict root (CORSRequestHandler.do_GET W h).
Proof.
  intros HS H. unfold CORSRequestHandler.do_GET, SimpleHTTPRequestHandler.do_GET.
  pose proof (send_head_replied strict root W h HS H) as R.
  unfold bind.
  destruct (SimpleHTTPRequestHandler.send_head W CORSRequestHandler.end_headers h)
    as [[[source|]|e] h']; cbn [replied fst snd] in *.
  - exec. cbn [replied fst snd]. phases.
  - exec. exact R.
  - exact R.
Qed.

Lemma do_HEAD_replied strict root W h :
  sane strict W -> phase0 root h -> replied strict root (CORSRequestHandler.do_HEAD W h).
Proof.
  intros HS H. unfold CORSRequestHandler.do_HEAD, SimpleHTTPRequestHandler.do_HEAD.
  pose proof (send_head_replied strict root W h HS H) as R.
  unfold bind.
  destruct (SimpleHTTPRequestHandler.send_head W CORSRequestHandler.end_headers h)
    as [[f|e] h']; cbn [replied fst snd] in *; exact R.
Qed.

(** ** The methods keep the request version *)

Lemma request_version_after_send_error W code message explain h :
  request_version (after_send_error W code message explain h) = request_version h.
Proof.
  unfold after_send_error. cbv zeta.
  destruct (negb _ && negb _); reflexivity.
Qed.

Ltac kept := cbn [snd]; rewrite ?request_version_after_send_error; reflexivity.

Lemma do_OPTIONS_version W h :
  request_version (snd (CORSRequestHandler.do_OPTIONS W h)) = request_version h.
Proof. rewrite do_OPTIONS_run. kept. Qed.

Lemma send_head_file_version W file h :
  request_version
    (snd (SimpleHTTPRequestHandler.send_head_file W CORSRequestHandler.end_headers file h))
  = request_version h.
Proof.
  unfold SimpleHTTPRequestHandler.send_head_file.
  fold (CORSRequestHandler.send_error W).
  destruct (endswith file "/").
  - exec. kept.
  - destruct (open_rb W file) as [content st_mtime| |].
    + exec.
      match goal with |- context [SimpleHTTPRequestHandler.not_modified W ?hs ?m] =>
        destruct (SimpleHTTPRequestHandler.not_modified W hs m) as [[|]|e] end.
      * exec. kept.
      * exec. unfold date_time_string.
        destruct (fromtimestamp_raises W st_mtime) as [e|].
        -- rewrite bind_lift_raise. kept.
        -- exec. kept.
      * rewrite bind_lift_raise. kept.
    + exec. kept.
    + exec. kept.
Qed.

Lemma list_directory_version W file h :
  request_version
    (snd (SimpleHTTPRequestHandler.list_directory W CORSRequestHandler.end_headers file h))
  = request_version h.
Proof.
  unfold SimpleHTTPRequestHandler.list_directory.
  fold (CORSRequestHandler.send_error W).
  exec. destruct (listing W file _); exec; kept.
Qed.

Lemma send_head_version W h :
  request_version
    (snd (SimpleHTTPRequestHandler.send_head W CORSRequestHandler.end_headers h))
  = request_version h.
Proof.
  unfold SimpleHTTPRequestHandler.send_head. exec.
  destruct (os_path_isdir W _).
  - destruct (urlsplit W (path h)) as [parts|]; [|exec; kept].
    destruct (negb (endswith _ "/")).
    + exec. kept.
    + exec. destruct (os_path_isfile W _).
      * now rewrite send_head_file_version.
      * exec. destruct (os_path_isfile W _).
        -- now rewrite send_head_file_version.
        -- now rewrite list_directory_version.
  - now rewrite send_head_file_version.
Qed.

Lemma do_GET_version W h :
  request_version (snd (CORSRequestHandler.do_GET W h)) = request_version h.
Proof.
  unfold CORSRequestHandler.do_GET, SimpleHTTPRequestHandler.do_GET.
  pose proof (send_head_version W h) as R.
  unfold bind.
  destruct (SimpleHTTPRequestHandler.send_head W CORSRequestHandler.end_headers h)
    as [[[source|]|e] h']; cbn [snd] in *; exec; exact R.
Qed.

Lemma do_HEAD_version W h :
  request_version (snd (CORSRequestHandler.do_HEAD W h)) = request_version h.
Proof.
  unfold CORSRequestHandler.do_HEAD, SimpleHTTPRequestHandler.do_HEAD.
  pose proof (send_head_version W h) as R.
  unfold bind.
  destruct (SimpleHTTPRequestHandler.send_head W CORSRequestHandler.end_headers h)
    as [[f|e] h']; cbn [snd] in *; exact R.
Qed.

(** ** [parse_request] and the dispatch *)

Lemma protocol_below_1_1 : ("HTTP/1.1" <=? protocol_version)%string = false.
Proof. reflexivity. Qed.

Lemma parse_request_post strict root W h :
  sane strict W ->
  safe root h -> Quiet h -> parse_post strict root (CORSRequestHandler.parse_request W h).
Proof.
  intros HS Hs Hq.
  unfold CORSRequestHandler.parse_request, parse_request.
  fold (CORSRequestHandler.send_error W).
  rewrite !protocol_below_1_1.
  exec. cbn [raw_requestline set_close_connection set_request_version set_command].
  match goal with |- parse_post _ _ (_ ?s) => set (h0 := s) end.
  assert (P0 : phase0 root h0) by (split; [reflexivity | split; [exact Hs | exact Hq]]).
  assert (V0 : http09 h0 = true) by reflexivity.
  clearbody h0. clear Hs Hq.
  set (words := split_ws (rstrip is_crlf (raw_requestline h))). clearbody words.
  destruct (Datatypes.length words =? 0)%nat.
  { left. apply phase0_aborted. exact P0. }
  match goal with |- context [@bind bool bool ?m ?k h0] =>
    assert (K : forall hX, phase0 root hX -> parse_post strict root (k true hX));
      [ clear h0 P0 V0; intros h0 P0; cbv beta iota
      | destruct (3 <=? Datatypes.length words)%nat ]
  end.
  - cbn [negb].
    destruct (negb _).
    { exec. cbn [parse_post fst snd]. unfold settled. right. phases. }
    destruct words as [|command0 [|path0 rest]].
    { left. apply phase0_aborted. exact P0. }
    { left. apply phase0_aborted. exact P0. }
    match goal with |- context [@bind bool bool ?m ?k h0] =>
      assert (K : forall hX, phase0 root hX -> parse_post strict root (k true hX));
        [ clear h0 P0; intros h0 P0; cbv beta iota
        | destruct (Datatypes.length (command0 :: path0 :: rest) =? 2)%nat ]
    end.
    + cbn [negb].
      destruct (startswith path0 "//"); exec;
        (match goal with |- context [parse_headers W ?r] =>
           destruct (parse_headers W r) as [section rest'] end);
        exec;
        (destruct section as [hs|err|err];
         [ exec; rewrite !andb_false_r; cbn [negb andb];
           destruct (lower (headers_get hs "Connection" "") =? "close")%string;
           exec; cbn [parse_post fst snd]; ph0 P0
         | exec; cbn [parse_post fst snd]; unfold settled; right; phases
         | exec; cbn [parse_post fst snd]; unfold settled; right; phases ]).
    + exec. destruct (negb (command0 =? "GET")%string).
      * exec. cbn [negb]. exec. cbn [parse_post fst snd]. unfold settled. right. phases.
      * exec. apply K. ph0 P0.
    + exec. apply K. exact P0.
  - destruct (parse_version W (last words "")) as [[version_number base_version_number]|].
    + rewrite andb_false_r. exec.
      destruct (tuple_ge version_number 2 0).
      * exec. cbn [negb]. exec. cbn [parse_post fst snd]. unfold settled. right.
        apply phase2_after_send_error_bare; [exact V0 | exact (proj1 (proj2 P0))].
      * exec. apply K. ph0 P0.
    + exec. cbn [negb]. exec. cbn [parse_post fst snd]. unfold settled. right. phases.
  - exec. apply K. exact P0.
Qed.

Lemma settled_close strict root h : settled strict root h -> close_connection h = true.
Proof. intros [[H _]|[H _]]; exact H. Qed.

Lemma replied_settled strict root {A} (r : outcome A * Handler) :
  replied strict root r -> settled strict root (snd r).
Proof.
  destruct r as [[a|e] h]; cbn [replied fst snd]; intros H; [right|left]; exact H.
Qed.

Lemma handle_one_request_settled strict root W h :
  sane strict W ->
  safe root h -> Quiet h ->
  settled strict root (snd (CORSRequestHandler.handle_one_request W h)).
Proof.
  intros HS Hs Hq.
  unfold CORSRequestHandler.handle_one_request, handle_one_request.
  fold (CORSRequestHandler.send_error W) (CORSRequestHandler.parse_request W).
  destruct (readline_from 65537 (rfile h)) as [raw rest] eqn:E.
  rewrite (bind_run _ _ h raw (set_rfile rest h)) by (unfold readline; now rewrite E).
  exec.
  destruct (65536 <? len raw).
  - exec. cbn [snd]. right.
    apply phase2_after_send_error; [exact HS | clean_tac | exact Hs | exact Hq].
  - destruct (raw =? "")%string.
    + exec. cbn [snd]. left. split; [reflexivity | split; [exact Hs | apply Hq]].
    + pose proof (parse_request_post strict root W
                    (set_raw_requestline raw (set_rfile rest h)) HS Hs Hq) as P.
      unfold bind at 1.
      destruct (CORSRequestHandler.parse_request W _) as [[[|]|e] h']; cbn [parse_post fst snd] in P.
      * cbn [negb]. exec.
        unfold CORSRequestHandler.getattr_do.
        destruct (default "" (command h') =? "GET")%string;
          [apply replied_settled, do_GET_replied; [exact HS | exact P]|].
        destruct (default "" (command h') =? "HEAD")%string;
          [apply replied_settled, do_HEAD_replied; [exact HS | exact P]|].
        destruct (default "" (command h') =? "OPTIONS")%string;
          [apply replied_settled, do_OPTIONS_replied; [exact HS | exact P]|].
        exec. cbn [snd]. right. phases.
      * exact P.
      * destruct P.
Qed.

Lemma handle_once root W h :
  safe root h -> Quiet h ->
  CORSRequestHandler.handle W h
  = CORSRequestHandler.handle_one_request W (set_close_connection true h).
Proof.
  intros Hs Hq. unfold CORSRequestHandler.handle, handle.
  fold (CORSRequestHandler.handle_one_request W).
  exec.
  pose proof (handle_one_request_settled False root W (set_close_connection true h)
                (sane_false W) Hs Hq) as S.
  apply settled_close in S.
  unfold bind at 1.
  destruct (CORSRequestHandler.handle_one_request W (set_close_connection true h))
    as [[[]|e] h']; [|reflexivity].
  cbn [snd] in S. exec. cbn [handle_loop]. exec. rewrite S. reflexivity.
Qed.

(** ** Well-formed requests reach their method *)

Ltac proj :=
  cbn [directory rfile wfile raw_requestline requestline command path request_version
       headers close_connection _headers_buffer stderr fs_log
       set_rfile set_wfile set_raw_requestline set_requestline set_command set_path
       set_request_version set_headers set_close_connection set_headers_buffer
       set_stderr set_fs_log CORSRequestHandler.new].

Lemma parse_request_ok W request cmd target version hs :
  well_formed W request cmd target version hs ->
  CORSRequestHandler.parse_request W
    (set_raw_requestline (fst (readline_from 65537 request))
       (set_rfile (snd (readline_from 65537 request))
          (set_close_connection true (CORSRequestHandler.new W request))))
  = (Ret true, parsed W request cmd target version hs).
Proof.
  intros (Hlen & Hwords & (vn & base & Hv & Hlt) & Hhs).
  unfold CORSRequestHandler.parse_request, parse_request.
  fold (CORSRequestHandler.send_error W).
  rewrite !protocol_below_1_1.
  exec. proj.
  rewrite Hwords. cbn [Datatypes.length Nat.eqb Nat.leb last negb andb].
  rewrite Hv. rewrite andb_false_r. exec. rewrite Hlt. exec.
  cbn [negb]. exec.
  destruct (parse_headers W (snd (readline_from 65537 request))) as [section rest'] eqn:E.
  cbn [fst] in Hhs. subst section.
  unfold parsed, stored_path. rewrite E. cbn [snd].
  destruct (startswith target "//"); cbn [negb]; exec; proj; rewrite E; exec;
    rewrite !andb_false_r; cbn [negb andb];
    destruct (lower (headers_get hs "Connection" "") =? "close")%string; exec;
    reflexivity.
Qed.

Lemma Quiet_new W request : Quiet (CORSRequestHandler.new W request).
Proof. split; reflexivity. Qed.

Lemma safe_new W request : safe (os_getcwd W) (CORSRequestHandler.new W request).
Proof. split; [reflexivity|constructor]. Qed.

Lemma served_once W request :
  served W request
  = CORSRequestHandler.handle_one_request W
      (set_close_connection true (CORSRequestHandler.new W request)).
Proof. apply (handle_once (os_getcwd W)); [apply safe_new | apply Quiet_new]. Qed.

Lemma served_settled strict W request :
  sane strict W -> settled strict (os_getcwd W) (snd (served W request)).
Proof.
  intros HS. rewrite served_once.
  apply handle_one_request_settled; [exact HS | apply safe_new | apply Quiet_new].
Qed.

Lemma served_dispatch W request cmd target version hs :
  well_formed W request cmd target version hs ->
  served W request
  = match CORSRequestHandler.getattr_do W cmd with
    | Some method => method (parsed W request cmd target version hs)
    | None =>
        CORSRequestHandler.send_error W NOT_IMPLEMENTED
          (Some ("Unsupported method (" ++ repr W cmd ++ ")")) None
          (parsed W request cmd target version hs)
    end.
Proof.
  intros Hwf. pose proof Hwf as (Hlen & Hwords & _ & _).
  rewrite served_once.
  unfold CORSRequestHandler.handle_one_request, handle_one_request.
  fold (CORSRequestHandler.send_error W) (CORSRequestHandler.parse_request W).
  rewrite (bind_run _ _ _ (fst (readline_from 65537 request))
             (set_rfile (snd (readline_from 65537 request))
                (set_close_connection true (CORSRequestHandler.new W request)))).
  2:{ unfold readline. proj. now destruct (readline_from 65537 request). }
  exec.
  replace (65536 <? len (fst (readline_from 65537 request))) with false
    by (symmetry; apply Z.ltb_ge; exact Hlen).
  destruct (fst (readline_from 65537 request) =? "")%string eqn:En.
  { apply String.eqb_eq in En. rewrite En in Hwords. discriminate Hwords. }
  rewrite (bind_run _ _ _ _ _ (parse_request_ok W request cmd target version hs Hwf)).
  cbn [negb]. unfold bind at 1, get. cbv beta iota.
  change (command (parsed W request cmd target version hs)) with (Some cmd).
  cbn [default].
  destruct (CORSRequestHandler.getattr_do W cmd);
    [reflexivity | now rewrite send_error_run].
Qed.

Lemma phase0_parsed W request cmd target version hs :
  phase0 (os_getcwd W) (parsed W request cmd target version hs).
Proof. repeat split. constructor. Qed.

(** A well-formed request is answered with its own version, and with a
    reply unless its method raises. *)
Lemma served_well_formed strict W request cmd target version hs :
  sane strict W ->
  well_formed W request cmd target version hs ->
  request_version (snd (served W request)) = version /\
  replied strict (os_getcwd W) (served W request).
Proof.
  intros HS Hwf. rewrite (served_dispatch W request cmd target version hs Hwf).
  pose proof (phase0_parsed W request cmd target version hs) as P.
  unfold CORSRequestHandler.getattr_do.
  destruct (cmd =? "GET")%string;
    [split; [apply do_GET_version | apply do_GET_replied; [exact HS | exact P]]|].
  destruct (cmd =? "HEAD")%string;
    [split; [apply do_HEAD_version | apply do_HEAD_replied; [exact HS | exact P]]|].
  destruct (cmd =? "OPTIONS")%string;
    [split; [apply do_OPTIONS_version | apply do_OPTIONS_replied; [exact HS | exact P]]|].
  rewrite send_error_run by reflexivity. split; [kept|].
  cbn [replied fst snd]. phases.
Qed.

(** ** The bytes of a reply *)

Lemma wfile_decorated lines h :
  http09 h = false -> Quiet h ->
  wfile (decorated (emit lines h))
  = cat lines ++ cat (map header_line cors_headers) ++ CRLF.
Proof.
  intros Hv [Hw Hb]. unfold decorated, emit, buffered in *. proj.
  unfold http09 in *. proj. rewrite Hv. proj. rewrite Hw, Hb.
  cbn [default app String.append]. rewrite !cat_app. reflexivity.
Qed.

Lemma response_cat code message hs body :
  cat (status_line code message :: map header_line hs)
  ++ cat (map header_line cors_headers) ++ CRLF ++ body
  = response code message (hs ++ cors_headers) body.
Proof.
  unfold response. rewrite cat_cons, map_app, cat_app. now rewrite !append_assoc.
Qed.

(** ** GET of a file, and of a path that does not exist *)

Lemma getattr_GET W : CORSRequestHandler.getattr_do W "GET" = Some (CORSRequestHandler.do_GET W).
Proof. reflexivity. Qed.

Lemma do_GET_file_run W h content st_mtime :
  let file := SimpleHTTPRequestHandler.translate_path W (directory h) (path h) in
  os_path_isdir W file = false ->
  endswith file "/" = false ->
  open_rb W file = Opened content st_mtime ->
  SimpleHTTPRequestHandler.not_modified W (headers h) st_mtime = Ret false ->
  fromtimestamp_raises W st_mtime = None ->
  CORSRequestHandler.do_GET W h
  = (Ret tt,
     wrote content
       (decorated
          (emit (status_line 200 "OK"
                 :: map header_line
                      (standard_headers W
                       ++ [("Content-type", SimpleHTTPRequestHandler.guess_type W file);
                           ("Content-Length", str (len content));
                           ("Last-Modified", formatdate W st_mtime)]))
             (logged (request_log 200 h) (touched file (touched file h)))))).
Proof.
  intros file Hdir Hslash Hopen Hcond Hmtime.
  unfold CORSRequestHandler.do_GET, SimpleHTTPRequestHandler.do_GET,
    SimpleHTTPRequestHandler.send_head.
  exec. fold file. rewrite Hdir.
  unfold SimpleHTTPRequestHandler.send_head_file. rewrite Hslash, Hopen.
  exec. cbn [headers touched set_fs_log]. rewrite Hcond. exec.
  unfold date_time_string. rewrite Hmtime. exec. rewrite !emit_emit. reflexivity.
Qed.

Lemma do_GET_missing_run W h :
  let file := SimpleHTTPRequestHandler.translate_path W (directory h) (path h) in
  os_path_isdir W file = false ->
  open_rb W file = OpenOSError ->
  exists h0,
    CORSRequestHandler.do_GET W h
    = (Ret tt, after_send_error W NOT_FOUND (Some "File not found") None h0)
    /\ wfile h0 = wfile h /\ buffered h0 = buffered h
    /\ request_version h0 = request_version h /\ command h0 = command h.
Proof.
  intros file Hdir Hopen.
  unfold CORSRequestHandler.do_GET, SimpleHTTPRequestHandler.do_GET,
    SimpleHTTPRequestHandler.send_head.
  fold (CORSRequestHandler.send_error W).
  exec. fold file. rewrite Hdir.
  unfold SimpleHTTPRequestHandler.send_head_file.
  fold (CORSRequestHandler.send_error W).
  destruct (endswith file "/").
  - exec. eexists. split; [reflexivity|]. repeat split.
  - rewrite Hopen. exec. eexists. split; [reflexivity|]. repeat split.
Qed.

Lemma guess_type_js W file :
  snd (posixpath.splitext file) = ".js" ->
  SimpleHTTPRequestHandler.guess_type W file
  = match mimetypes_guess_type W file with
    | Some guess => if (guess =? "")%string then "application/octet-stream" else guess
    | None => "application/octet-stream"
    end.
Proof.
  intros H. unfold SimpleHTTPRequestHandler.guess_type.
  destruct (posixpath.splitext file) as [base ext]. cbn [snd] in H. subst ext.
  reflexivity.
Qed.

Lemma serve_forever_answers C request events p :
  fst (C request) = Ret tt ->
  TCPServer.serve_forever C (Ready (Connect request) :: events) p
  = TCPServer.serve_forever C events (answered C request p).
Proof.
  intros H. cbn [TCPServer.serve_forever].
  unfold TCPServer._handle_request_noblock, TCPServer.process_request,
    TCPServer.finish_request, answered.
  destruct (C request) as [out h]. cbn [fst] in H. subst out. reflexivity.
Qed.


(** ** The serve loop and the main block *)

Lemma process_request_served C request p :
  TCPServer.process_request C request p
  = (match fst (C request) with
     | Ret _ => None
     | Raise e => Some (Exc e)
     end,
     answered C request p).
Proof.
  unfold TCPServer.process_request, TCPServer.finish_request, answered.
  now destruct (C request).
Qed.

Lemma handle_request_peaceful C a p :
  peaceful (Ready a) = true ->
  exists p',
    TCPServer._handle_request_noblock C a p = (None, p') /\
    replies p' = (replies p ++ map (fun r => wfile (snd (C r))) (requests_of [Ready a]))%list /\
    net p' = net p /\ socket p' = socket p /\
    server_address p' = server_address p /\ stdout p' = stdout p.
Proof.
  destruct a as [request|request|]; intros H; try discriminate.
  - unfold TCPServer._handle_request_noblock. rewrite process_request_served.
    destruct (fst (C request)) as [[]|e]; eexists; (split; [reflexivity|]);
      repeat split.
  - exists p. cbn. rewrite app_nil_r. repeat split.
Qed.

Lemma serve_forever_peaceful C events p :
  Forall (fun ev => peaceful ev = true) events ->
  exists p',
    TCPServer.serve_forever C events p = (Blocked, p') /\
    replies p' = (replies p ++ map (fun r => wfile (snd (C r))) (requests_of events))%list /\
    net p' = net p /\ socket p' = socket p /\
    server_address p' = server_address p /\ stdout p' = stdout p.
Proof.
  intros H. revert p. induction H as [|ev events Hev _ IH]; intros p.
  - exists p. cbn. rewrite app_nil_r. repeat split.
  - destruct ev as [a|]; [|discriminate].
    destruct (handle_request_peaceful C a p Hev) as (p1 & E1 & R1 & N1 & S1 & A1 & O1).
    destruct (IH p1) as (p2 & E2 & R2 & N2 & S2 & A2 & O2).
    exists p2. cbn [TCPServer.serve_forever]. rewrite E1. split; [exact E2|].
    rewrite R2, R1, N2, N1, S2, S1, A2, A1, O2, O1, <- app_assoc, <- map_app.
    repeat split. do 2 f_equal.
    destruct a as [request|request|]; try discriminate; reflexivity.
Qed.

Lemma serve_forever_interrupted C before ev after p :
  Forall (fun ev => peaceful ev = true) before ->
  peaceful ev = false ->
  exists p',
    TCPServer.serve_forever C (before ++ ev :: after) p = (Raised KeyboardInterrupt, p') /\
    replies p'
    = (replies p ++ map (fun r => wfile (snd (C r))) (requests_of before)
       ++ match ev with Interrupt => [] | Ready _ => [EmptyString] end)%list /\
    net p' = net p /\ socket p' = socket p /\
    server_address p' = server_address p /\ stdout p' = stdout p.
Proof.
  intros H Hev. revert p. induction H as [|e events He _ IH]; intros p.
  - cbn [app map requests_of].
    destruct ev as [[request|request|]|]; try discriminate; eexists;
      (split; [reflexivity|]); cbn; rewrite ?app_nil_r; repeat split.
  - destruct e as [a|]; [|discriminate].
    destruct (handle_request_peaceful C a p He) as (p1 & E1 & R1 & N1 & S1 & A1 & O1).
    destruct (IH p1) as (p2 & E2 & R2 & N2 & S2 & A2 & O2).
    exists p2. cbn [app TCPServer.serve_forever]. rewrite E1. split; [exact E2|].
    rewrite R2, R1, N2, N1, S2, S1, A2, A1, O2, O1.
    repeat split. rewrite <- !app_assoc. f_equal. rewrite app_assoc. f_equal.
    destruct a as [request|request|]; try discriminate; reflexivity.
Qed.

Lemma init_succeeds pid may_bind p :
  net p PORT = None -> may_bind PORT = true ->
  TCPServer.init pid may_bind ("", PORT) p
  = (None,
     TCPServer.server_activate pid
       (set_server_address ("0.0.0.0", PORT)
          (set_socket Bound (set_socket Fresh (set_server_address ("", PORT) p))))).
Proof.
  intros Hn Hb. unfold TCPServer.init, TCPServer.server_bind. cbn. now rewrite Hb, Hn.
Qed.

Lemma init_fails pid may_bind p :
  net p PORT <> None \/ may_bind PORT = false ->
  TCPServer.init pid may_bind ("", PORT) p
  = (Some (Exc OSError),
     set_socket Closed (set_socket Fresh (set_server_address ("", PORT) p))).
Proof.
  intros H. unfold TCPServer.init, TCPServer.server_bind. cbn.
  destruct (may_bind PORT); cbn; [|reflexivity].
  destruct (net p PORT) eqn:E; [reflexivity|].
  destruct H as [H|H]; [contradiction|discriminate].
Qed.

Lemma response_starts_with_protocol code message hs body :
  startswith (response code message hs body) "HTTP/1.0 " = true.
Proof.
  unfold response, status_line, protocol_version, startswith. cbn.
  now destruct ((str code ++ _) ++ _).
Qed.

(** ** The library of the examples returns single lines *)

Lemma single_line_contains s :
  single_line s = true <-> contains CR s = false /\ contains LF s = false.
Proof.
  unfold single_line. destruct (contains CR s), (contains LF s); cbn; intuition congruence.
Qed.

Lemma contains_split1_head x c s :
  contains x s = false -> contains x (split1_head c s) = false.
Proof.
  induction s as [|a s IH]; cbn [contains split1_head]; [reflexivity|].
  intros H. apply orb_false_iff in H as [H1 H2].
  destruct (a =? c)%char; [reflexivity|].
  cbn [contains]. now rewrite H1, IH.
Qed.

Lemma contains_split1_tail x c s t :
  contains x s = false -> split1_tail c s = Some t -> contains x t = false.
Proof.
  induction s as [|a s IH]; cbn [contains split1_tail]; [discriminate 2|].
  intros H. apply orb_false_iff in H as [H1 H2].
  destruct (a =? c)%char; [intros E; inversion E; subst t; exact H2 | now apply IH].
Qed.

Lemma contains_remove x p s : p x = true -> contains x (Example.remove p s) = false.
Proof.
  intros Hp. induction s as [|a s IH]; cbn [Example.remove]; [reflexivity|].
  destruct (p a) eqn:E; [exact IH|].
  cbn [contains]. rewrite IH, orb_false_r.
  destruct (a =? x)%char eqn:Ea; [|reflexivity].
  apply Ascii.eqb_eq in Ea. subst a. congruence.
Qed.

Lemma single_line_split1_head c s :
  single_line s = true -> single_line (split1_head c s) = true.
Proof.
  rewrite !single_line_contains. intros [H1 H2].
  split; now apply contains_split1_head.
Qed.

Lemma single_line_split1_tail c s :
  single_line s = true -> single_line (default "" (split1_tail c s)) = true.
Proof.
  destruct (split1_tail c s) as [t|] eqn:E; [|reflexivity].
  rewrite !single_line_contains. intros [H1 H2].
  split; eapply contains_split1_tail; eassumption.
Qed.

Lemma single_line_repr_char q a :
  q = "'"%char \/ q = "034"%char -> single_line (Example.repr_char q a) = true.
Proof.
  intros [E|E]; subst q;
    destruct a as [[] [] [] [] [] [] [] []]; vm_compute; reflexivity.
Qed.

Lemma single_line_repr s : single_line (Example.repr s) = true.
Proof.
  unfold Example.repr.
  set (q := if contains "'" s && negb (contains "034" s) then "034"%char else "'"%char).
  assert (Hq : q = "'"%char \/ q = "034"%char).
  { unfold q. destruct (contains "'" s && negb (contains "034" s)); [right|left]; reflexivity. }
  clearbody q.
  change (String q (Example.repr_chars q s ++ String q ""))
    with (String q "" ++ Example.repr_chars q s ++ String q "").
  rewrite !single_line_app.
  assert (Hc : single_line (Example.repr_chars q s) = true).
  { induction s as [|a s IH]; cbn [Example.repr_chars]; [reflexivity|].
    now rewrite single_line_app, single_line_repr_char, IH. }
  rewrite Hc. destruct Hq; subst q; reflexivity.
Qed.

Lemma single_line_urlsplit url parts :
  Example.urlsplit url = Some parts ->
  single_line (Example.urlunsplit
                 (mkSplit (scheme parts) (netloc parts) (sp_path parts ++ "/")
                          (query parts) (fragment parts))) = true.
Proof.
  unfold Example.urlsplit. intros E. inversion E as [E']. clear E E'.
  set (u := Example.remove _ _).
  assert (Hu : single_line u = true).
  { apply single_line_contains.
    split; apply contains_remove; reflexivity. }
  clearbody u. unfold Example.urlunsplit. cbn [sp_path query fragment].
  pose proof (single_line_split1_head "#" u Hu) as Hr.
  pose proof (single_line_split1_head "?" _ Hr) as Hp.
  pose proof (single_line_split1_tail "?" _ Hr) as Hq.
  pose proof (single_line_split1_tail "#" _ Hu) as Hf.
  rewrite !single_line_app, Hp.
  repeat match goal with |- context [if ?b then _ else _] => destruct b end;
    rewrite ?single_line_app, ?Hq, ?Hf; reflexivity.
Qed.

Lemma example_single_line_library js :
  single_line js = true -> single_line_library (Example.world_with js).
Proof.
  intros Hjs. unfold single_line_library, Example.world_with.
  cbn [sys_version_number getfilesystemencoding formatdate repr mimetypes_guess_type
       urlsplit urlunsplit].
  split; [reflexivity|]. split; [reflexivity|]. split; [|split; [|split]].
  - intros t. unfold Example.formatdate.
    destruct (t =? 1700000000); [reflexivity|]. destruct (t =? 1600000000); reflexivity.
  - apply single_line_repr.
  - intros file guess. unfold Example.mimetypes_guess_type.
    repeat match goal with |- context [if ?b then _ else _] => destruct b end;
      intros E; inversion E; subst; (exact Hjs || reflexivity).
  - apply single_line_urlsplit.
Qed.

Lemma sane_library W : sane (single_line_library W) W.
Proof. exact (fun H => H). Qed.

(** * The claims *)

(** C10 (as amended).  Whenever the handler writes a header block (its
    request version is not HTTP/0.9), [end_headers] sends the lines the
    base handler has buffered for this response, then the five
    cross-origin headers in the order Access-Control-Allow-Origin,
    Access-Control-Allow-Methods, Access-Control-Allow-Headers,
    Cross-Origin-Embedder-Policy, Cross-Origin-Opener-Policy, and right
    after them the empty line that ends the block; the buffer is left
    empty and nothing else changes. *)
Theorem end_headers_appends_cors_last (h : Handler) :
  request_version h <> "HTTP/0.9" ->
  CORSRequestHandler.end_headers h
  = (Ret tt,
     set_headers_buffer (Some [])
       (set_wfile
          (wfile h ++ cat (buffered h)
           ++ "Access-Control-Allow-Origin: *" ++ CRLF
           ++ "Access-Control-Allow-Methods: GET, POST, OPTIONS" ++ CRLF
           ++ "Access-Control-Allow-Headers: Content-Type" ++ CRLF
           ++ "Cross-Origin-Embedder-Policy: require-corp" ++ CRLF
           ++ "Cross-Origin-Opener-Policy: same-origin" ++ CRLF
           ++ CRLF) h)).
Proof.
  intros Hv. apply String.eqb_neq in Hv.
  rewrite end_headers_decorated. unfold decorated, http09. rewrite Hv.
  do 3 f_equal. rewrite cat_app. reflexivity.
Qed.

Lemma end_headers_appends_cors_last_witness :
  request_version Example.building <> "HTTP/0.9" /\
  wfile (snd (CORSRequestHandler.end_headers Example.building))
  = "HTTP/1.0 200 OK" ++ CRLF
    ++ "Server: SimpleHTTP/0.6 Python/3.11.2" ++ CRLF
    ++ "Content-type: text/javascript" ++ CRLF
    ++ "Access-Control-Allow-Origin: *" ++ CRLF
    ++ "Access-Control-Allow-Methods: GET, POST, OPTIONS" ++ CRLF
    ++ "Access-Control-Allow-Headers: Content-Type" ++ CRLF
    ++ "Cross-Origin-Embedder-Policy: require-corp" ++ CRLF
    ++ "Cross-Origin-Opener-Policy: same-origin" ++ CRLF
    ++ CRLF.
Proof.
  assert (Hv : request_version Example.building <> "HTTP/0.9") by discriminate.
  split; [exact Hv|].
  rewrite (end_headers_appends_cors_last Example.building Hv). reflexivity.
Defined.

(** C10 fails as stated: while the request version is HTTP/0.9,
    [end_headers] appends nothing; the handler is left as it was, and the
    response to the request line GET /app.js is the file alone, without
    any of the five headers. *)
Lemma end_headers_http09_appends_nothing :
  request_version Example.simple = "HTTP/0.9" /\
  CORSRequestHandler.end_headers Example.simple = (Ret tt, Example.simple) /\
  parsed Example.world ("GET /app.js" ++ CRLF) "GET" "/app.js" "HTTP/0.9" [] = Example.simple /\
  infix "Cross-Origin-Opener-Policy" (reply Example.world ("GET /app.js" ++ CRLF)) = false.
Proof. repeat split; vm_compute; reflexivity. Qed.

(** C1 (as amended).  Whatever bytes a connection delivers: if the request
    is well formed with a version other than HTTP/0.9 -- whatever its
    method and its target -- and the handler returns, or more generally if
    the handler has sent anything while it holds a request version other
    than HTTP/0.9, then what it sent is a status line, header lines of
    which the last five are the cross-origin headers with exactly the
    values of the table, the empty line, and a body.  When the values the
    library supplies are single lines, the status message and the headers
    before the five hold no carriage return and no line feed, so that the
    header block does not end before the five headers. *)
Theorem reply_carries_cors_headers (W : World) (request : string) :
  (exists cmd target version hs,
     well_formed W request cmd target version hs /\
     version <> "HTTP/0.9" /\
     fst (served W request) = Ret tt) \/
  (request_version (snd (served W request)) <> "HTTP/0.9" /\ reply W request <> "") ->
  exists code message hs body,
    reply W request
    = response code message
        (hs ++ [("Access-Control-Allow-Origin", "*");
                ("Access-Control-Allow-Methods", "GET, POST, OPTIONS");
                ("Access-Control-Allow-Headers", "Content-Type");
                ("Cross-Origin-Embedder-Policy", "require-corp");
                ("Cross-Origin-Opener-Policy", "same-origin")])
        body /\
    (single_line_library W ->
     single_line message = true /\
     Forall (fun kv => single_line_header kv = true) hs).
Proof.
  unfold reply. intros H. pose proof (sane_library W) as HS.
  assert (S : Sent (single_line_library W) (snd (served W request))).
  { destruct H as [(cmd & target & version & hs & Hwf & Hv & Hret)|[Hv Hw]].
    - destruct (served_well_formed _ W request cmd target version hs HS Hwf) as [E R].
      unfold replied in R. rewrite Hret in R.
      destruct R as [_ [_ [H|H]]]; [|exact H].
      apply String.eqb_eq in H. rewrite E in H. contradiction.
    - destruct (served_settled _ W request HS) as [[_ [_ Hq]]|[_ [_ [H|H]]]].
      + contradiction.
      + apply String.eqb_eq in H. contradiction.
      + exact H. }
  destruct S as [_ (code & message & hs & body & E & Cm & Chs)].
  exists code, message, hs, body. split; [exact E|].
  intros HL. split; [exact (Cm HL)|].
  apply (Forall_impl _ (fun kv (C : clean_header (single_line_library W) kv) => C HL) Chs).
Qed.

(** A method the handler does not have: DELETE is answered with status 501,
    and the reply ends its header block with the five headers. *)
Lemma reply_carries_cors_headers_witness :
  well_formed Example.world (Example.bare "DELETE /app.js HTTP/1.1")
              "DELETE" "/app.js" "HTTP/1.1" [] /\
  startswith (reply Example.world (Example.bare "DELETE /app.js HTTP/1.1"))
             ("HTTP/1.0 501 Unsupported method ('DELETE')" ++ CRLF) = true /\
  single_line_library Example.world /\
  exists code message hs body,
    reply Example.world (Example.bare "DELETE /app.js HTTP/1.1")
    = response code message
        (hs ++ [("Access-Control-Allow-Origin", "*");
                ("Access-Control-Allow-Methods", "GET, POST, OPTIONS");
                ("Access-Control-Allow-Headers", "Content-Type");
                ("Cross-Origin-Embedder-Policy", "require-corp");
                ("Cross-Origin-Opener-Policy", "same-origin")])
        body /\
    single_line message = true /\
    Forall (fun kv => single_line_header kv = true) hs.
Proof.
  assert (HL : single_line_library Example.world)
    by (apply example_single_line_library; reflexivity).
  assert (Hwf : well_formed Example.world (Example.bare "DELETE /app.js HTTP/1.1")
                            "DELETE" "/app.js" "HTTP/1.1" []).
  { repeat split; try (vm_compute; congruence).
    exists (1, 1), "1.1". split; reflexivity. }
  split; [exact Hwf|]. split; [vm_compute; reflexivity|]. split; [exact HL|].
  destruct (reply_carries_cors_headers Example.world (Example.bare "DELETE /app.js HTTP/1.1"))
    as (code & message & hs & body & E & L).
  { left. exists "DELETE", "/app.js", "HTTP/1.1", [].
    split; [exact Hwf|]. split; [discriminate|vm_compute; reflexivity]. }
  exists code, message, hs, body. split; [exact E|]. exact (L HL).
Defined.

(** C1 fails as stated: a request line without a version, GET /app.js, is
    an HTTP/0.9 request; the reply is the bytes of the file alone, with no
    status line and none of the five headers. *)
Lemma reply_without_headers :
  reply Example.world ("GET /app.js" ++ CRLF) = Example.app_js /\
  infix "Access-Control-Allow-Origin" (reply Example.world ("GET /app.js" ++ CRLF)) = false.
Proof. split; vm_compute; reflexivity. Qed.

(** A request line the parser rejects is answered in the same way: the
    error page alone. *)
Lemma bad_request_without_headers :
  infix "Error code: 400" (reply Example.world (Example.bare "GET /app.js HTTP/1.1 extra")) = true /\
  infix "Access-Control-Allow-Origin"
        (reply Example.world (Example.bare "GET /app.js HTTP/1.1 extra")) = false /\
  startswith (reply Example.world (Example.bare "GET /app.js HTTP/1.1 extra")) "<!DOCTYPE HTML>" = true.
Proof. repeat split; vm_compute; reflexivity. Qed.

(** C2 (as amended).  For every well-formed request with method OPTIONS
    whose version is not the literal HTTP/0.9 -- whatever its target and
    whatever the file system holds -- the handler returns normally, sends
    status 200 with the standard and the five cross-origin headers and an
    empty body, and hands no path to the file system. *)
Theorem options_reply (W : World) (request target version : string)
        (hs : list (string * string)) :
  well_formed W request "OPTIONS" target version hs ->
  version <> "HTTP/0.9" ->
  fst (served W request) = Ret tt /\
  reply W request
  = response 200 "OK" (standard_headers W ++ cors_headers) "" /\
  fs_log (snd (served W request)) = [].
Proof.
  intros Hwf Hv. apply String.eqb_neq in Hv.
  unfold reply. rewrite (served_dispatch W request "OPTIONS" target version hs Hwf).
  change (CORSRequestHandler.getattr_do W "OPTIONS")
    with (Some (CORSRequestHandler.do_OPTIONS W)).
  cbv iota beta. rewrite do_OPTIONS_run. cbn [fst snd].
  split; [reflexivity|]. split; [|reflexivity].
  rewrite wfile_decorated; [|exact Hv|split; reflexivity].
  rewrite <- response_cat. now rewrite append_nil_r.
Qed.

Lemma options_reply_witness :
  well_formed Example.world (Example.bare "OPTIONS /no/such/file HTTP/1.1")
              "OPTIONS" "/no/such/file" "HTTP/1.1" [] /\
  "HTTP/1.1" <> "HTTP/0.9" /\
  reply Example.world (Example.bare "OPTIONS /no/such/file HTTP/1.1")
  = response 200 "OK" (standard_headers Example.world ++ cors_headers) "".
Proof.
  assert (Hwf : well_formed Example.world (Example.bare "OPTIONS /no/such/file HTTP/1.1")
                            "OPTIONS" "/no/such/file" "HTTP/1.1" []).
  { repeat split; try (vm_compute; congruence).
    exists (1, 1), "1.1". split; reflexivity. }
  assert (Hv : "HTTP/1.1" <> "HTTP/0.9") by discriminate.
  split; [exact Hwf|]. split; [exact Hv|].
  exact (proj1 (proj2 (options_reply Example.world _ _ _ _ Hwf Hv))).
Defined.

(** C2 fails as stated: OPTIONS with the version HTTP/0.9 is dispatched to
    [do_OPTIONS], and nothing at all is sent, neither status nor headers. *)
Lemma options_http09_sends_nothing :
  well_formed Example.world (Example.bare "OPTIONS /x HTTP/0.9") "OPTIONS" "/x" "HTTP/0.9" [] /\
  served Example.world (Example.bare "OPTIONS /x HTTP/0.9")
  = (Ret tt, snd (served Example.world (Example.bare "OPTIONS /x HTTP/0.9"))) /\
  reply Example.world (Example.bare "OPTIONS /x HTTP/0.9") = "".
Proof.
  split.
  - repeat split; try (vm_compute; congruence).
    exists (0, 9), "0.9". split; reflexivity.
  - split; vm_compute; reflexivity.
Qed.

(** C3 (as amended).  For every well-formed GET request whose version is
    not the literal HTTP/0.9, whose target translates to a path that is
    not a directory, does not end in a slash and opens as a file with a
    modification time between the years 1 and 9999, and that is not a
    conditional request the file's modification time satisfies: the
    handler returns, the reply has status 200, the file's bytes as its
    body, and a Content-type header with the type [guess_type] infers
    from the path.  For a .js file that type is text/javascript or
    application/javascript when the [mimetypes] table of the machine
    gives .js one of the two. *)
Theorem get_file_reply (W : World) (request target version : string)
        (hs : list (string * string)) (content : string) (st_mtime : Z) :
  let file := SimpleHTTPRequestHandler.translate_path W (os_getcwd W) (stored_path target) in
  well_formed W request "GET" target version hs ->
  version <> "HTTP/0.9" ->
  os_path_isdir W file = false ->
  endswith file "/" = false ->
  open_rb W file = Opened content st_mtime ->
  fromtimestamp_raises W st_mtime = None ->
  SimpleHTTPRequestHandler.not_modified W hs st_mtime = Ret false ->
  fst (served W request) = Ret tt /\
  reply W request
  = response 200 "OK"
      (standard_headers W
       ++ [("Content-type", SimpleHTTPRequestHandler.guess_type W file);
           ("Content-Length", str (len content));
           ("Last-Modified", formatdate W st_mtime)]
       ++ cors_headers)
      content /\
  (snd (posixpath.splitext file) = ".js" ->
   mimetypes_guess_type W file = Some "text/javascript" \/
   mimetypes_guess_type W file = Some "application/javascript" ->
   SimpleHTTPRequestHandler.guess_type W file = "text/javascript" \/
   SimpleHTTPRequestHandler.guess_type W file = "application/javascript").
Proof.
  intros file Hwf Hv Hdir Hslash Hopen Hmtime Hcond. apply String.eqb_neq in Hv.
  unfold reply. rewrite (served_dispatch W request "GET" target version hs Hwf).
  rewrite getattr_GET. cbv iota beta.
  rewrite (do_GET_file_run W (parsed W request "GET" target version hs)
             content st_mtime Hdir Hslash Hopen Hcond Hmtime).
  cbn [fst snd]. split; [reflexivity|]. split.
  - unfold wrote. proj. rewrite wfile_decorated; [|exact Hv|split; reflexivity].
    rewrite app_assoc, <- response_cat. now rewrite !append_assoc.
  - intros Hext Hguess. rewrite (guess_type_js W file Hext).
    destruct Hguess as [G|G]; rewrite G; [left|right]; reflexivity.
Qed.

Lemma get_file_reply_witness :
  well_formed Example.world (Example.bare "GET /app.js HTTP/1.1")
              "GET" "/app.js" "HTTP/1.1" [] /\
  open_rb Example.world "/srv/site/app.js" = Opened Example.app_js 1600000000 /\
  fromtimestamp_raises Example.world 1600000000 = None /\
  SimpleHTTPRequestHandler.not_modified Example.world [] 1600000000 = Ret false /\
  reply Example.world (Example.bare "GET /app.js HTTP/1.1")
  = response 200 "OK"
      (standard_headers Example.world
       ++ [("Content-type", "text/javascript");
           ("Content-Length", "25");
           ("Last-Modified", "Sun, 13 Sep 2020 12:26:40 GMT")]
       ++ cors_headers)
      Example.app_js /\
  (SimpleHTTPRequestHandler.guess_type Example.world "/srv/site/app.js" = "text/javascript" \/
   SimpleHTTPRequestHandler.guess_type Example.world "/srv/site/app.js"
   = "application/javascript").
Proof.
  assert (Hwf : well_formed Example.world (Example.bare "GET /app.js HTTP/1.1")
                            "GET" "/app.js" "HTTP/1.1" []).
  { repeat split; try (vm_compute; congruence).
    exists (1, 1), "1.1". split; reflexivity. }
  pose proof (get_file_reply Example.world (Example.bare "GET /app.js HTTP/1.1")
                "/app.js" "HTTP/1.1" [] Example.app_js 1600000000
                Hwf ltac:(discriminate) ltac:(reflexivity) ltac:(reflexivity)
                ltac:(reflexivity) ltac:(reflexivity) ltac:(reflexivity))
    as (_ & Hreply & Hjs).
  split; [exact Hwf|]. split; [reflexivity|]. split; [reflexivity|].
  split; [reflexivity|]. split; [exact Hreply|].
  exact (Hjs ltac:(reflexivity) ltac:(left; reflexivity)).
Defined.

(** C3 fails as stated, in four ways.  A GET for the existing file /app.js
    that carries an If-Modified-Since date later than the file's
    modification time is answered with status 304 and an empty body.  A
    GET for the existing file /future.js, whose modification time lies in
    the year 10000, makes the formatting of Last-Modified raise
    [ValueError]: the handler raises and nothing is sent.  With a
    [mimetypes] table that gives .js the type text/plain, as the registry
    of a machine can, /app.js is served with that Content-type.  The
    request line GET /app.js, without a version, is answered with the
    file's bytes alone: no status and no Content-type. *)
Lemma conditional_get_not_200 :
  reply Example.world
        ("GET /app.js HTTP/1.1" ++ CRLF
         ++ "If-Modified-Since: Wed, 18 May 2033 03:33:20 GMT" ++ CRLF ++ CRLF)
  = response 304 "Not Modified" (standard_headers Example.world ++ cors_headers) "" /\
  (open_rb Example.world "/srv/site/future.js" = Opened Example.app_js 253402300800 /\
   served Example.world (Example.bare "GET /future.js HTTP/1.1")
   = (Raise ValueError, snd (served Example.world (Example.bare "GET /future.js HTTP/1.1"))) /\
   reply Example.world (Example.bare "GET /future.js HTTP/1.1") = "") /\
  reply (Example.world_with "text/plain") (Example.bare "GET /app.js HTTP/1.1")
  = response 200 "OK"
      (standard_headers Example.world
       ++ [("Content-type", "text/plain");
           ("Content-Length", "25");
           ("Last-Modified", "Sun, 13 Sep 2020 12:26:40 GMT")]
       ++ cors_headers)
      Example.app_js /\
  reply Example.world ("GET /app.js" ++ CRLF) = Example.app_js.
Proof.
  split; [vm_compute; reflexivity|].
  split; [split; [vm_compute; reflexivity|split; vm_compute; reflexivity]|].
  split; vm_compute; reflexivity.
Qed.

(** C4 (as amended).  For every well-formed GET request whose version is
    not the literal HTTP/0.9 and whose target translates to a path that is
    not a directory and that [open] reports missing: the reply has status
    404 and carries the five headers, the handler returns normally, and the
    serve loop goes on with the events that follow. *)
Theorem get_missing_reply (W : World) (request target version : string)
        (hs : list (string * string)) :
  let file := SimpleHTTPRequestHandler.translate_path W (os_getcwd W) (stored_path target) in
  well_formed W request "GET" target version hs ->
  version <> "HTTP/0.9" ->
  os_path_isdir W file = false ->
  open_rb W file = OpenOSError ->
  fst (served W request) = Ret tt /\
  reply W request
  = response 404 "File not found"
      (standard_headers W
       ++ [("Connection", "close");
           ("Content-Type", "text/html;charset=utf-8");
           ("Content-Length",
            str (len (error_body W 404 (Some "File not found") None)))]
       ++ cors_headers)
      (error_body W 404 (Some "File not found") None) /\
  forall events p,
    TCPServer.serve_forever (served W) (Ready (Connect request) :: events) p
    = TCPServer.serve_forever (served W) events (answered (served W) request p).
Proof.
  intros file Hwf Hv Hdir Hopen. apply String.eqb_neq in Hv.
  assert (E : exists h0,
             served W request
             = (Ret tt, after_send_error W NOT_FOUND (Some "File not found") None h0)
             /\ wfile h0 = "" /\ buffered h0 = []
             /\ request_version h0 = version /\ command h0 = Some "GET").
  { rewrite (served_dispatch W request "GET" target version hs Hwf).
    rewrite getattr_GET. cbv iota beta.
    destruct (do_GET_missing_run W (parsed W request "GET" target version hs) Hdir Hopen)
      as (h0 & E & Hw & Hb & Hr & Hc).
    exists h0. repeat split; assumption. }
  destruct E as (h0 & E & Hw & Hb & Hr & Hc).
  assert (Hret : fst (served W request) = Ret tt) by now rewrite E.
  split; [exact Hret|]. split.
  - unfold reply. rewrite E. cbn [snd].
    rewrite wfile_after_send_error.
    + unfold is_head. rewrite Hc. reflexivity.
    + unfold http09. now rewrite Hr.
    + split; assumption.
  - intros events p. now apply serve_forever_answers.
Qed.

Lemma get_missing_reply_witness :
  well_formed Example.world (Example.bare "GET /missing.txt HTTP/1.1")
              "GET" "/missing.txt" "HTTP/1.1" [] /\
  open_rb Example.world "/srv/site/missing.txt" = OpenOSError /\
  startswith (reply Example.world (Example.bare "GET /missing.txt HTTP/1.1"))
             ("HTTP/1.0 404 File not found" ++ CRLF) = true /\
  fst (served Example.world (Example.bare "GET /missing.txt HTTP/1.1")) = Ret tt.
Proof.
  assert (Hwf : well_formed Example.world (Example.bare "GET /missing.txt HTTP/1.1")
                            "GET" "/missing.txt" "HTTP/1.1" []).
  { repeat split; try (vm_compute; congruence).
    exists (1, 1), "1.1". split; reflexivity. }
  pose proof (get_missing_reply Example.world (Example.bare "GET /missing.txt HTTP/1.1")
                "/missing.txt" "HTTP/1.1" []
                Hwf ltac:(discriminate) ltac:(reflexivity) ltac:(reflexivity))
    as (Hret & Hreply & _).
  split; [exact Hwf|]. split; [reflexivity|]. split; [|exact Hret].
  rewrite Hreply. reflexivity.
Defined.

(** C4 fails as stated: GET /missing.txt without a version is an HTTP/0.9
    request; the reply is the error page alone, with no status line and
    none of the five headers. *)
Lemma get_missing_http09_no_status :
  startswith (reply Example.world ("GET /missing.txt" ++ CRLF)) "<!DOCTYPE HTML>" = true /\
  infix "HTTP/1.0 404" (reply Example.world ("GET /missing.txt" ++ CRLF)) = false /\
  infix "Access-Control-Allow-Origin" (reply Example.world ("GET /missing.txt" ++ CRLF)) = false.
Proof. repeat split; vm_compute; reflexivity. Qed.



(** C7.  If port 8080 is already in use, or the process may not bind it,
    the script fails at startup: it prints nothing on standard output, the
    interpreter prints the traceback of the [OSError] on standard error and
    exits with status 1, no connection is served, and the table of
    listening sockets is as it was, so that an instance already listening
    on the port is not affected. *)
Theorem bind_failure_exits_nonzero (W : World) (pid : nat) (may_bind : Z -> bool)
        (events : list event) (net0 : Z -> option nat) :
  net0 PORT <> None \/ may_bind PORT = false ->
  fst (main W pid may_bind events (start net0)) = Exited 1 /\
  stdout (snd (main W pid may_bind events (start net0))) = [] /\
  proc_stderr (snd (main W pid may_bind events (start net0)))
  = ["Traceback (most recent call last):"; "OSError"] /\
  replies (snd (main W pid may_bind events (start net0))) = [] /\
  net (snd (main W pid may_bind events (start net0))) = net0.
Proof.
  intros H. unfold main. rewrite (init_fails pid may_bind (start net0) H).
  repeat split.
Qed.

Lemma bind_failure_exits_nonzero_witness :
  ((fun port => if port =? 8080 then Some 1%nat else None) PORT <> None \/
   (fun _ : Z => true) PORT = false) /\
  fst (main Example.world 2 (fun _ => true)
            [Ready (Connect (Example.bare "GET /app.js HTTP/1.1"))]
            (start (fun port => if port =? 8080 then Some 1%nat else None)))
  = Exited 1 /\
  net (snd (main Example.world 2 (fun _ => true)
                 [Ready (Connect (Example.bare "GET /app.js HTTP/1.1"))]
                 (start (fun port => if port =? 8080 then Some 1%nat else None)))) 8080
  = Some 1%nat.
Proof.
  assert (H : (fun port => if port =? 8080 then Some 1%nat else None) PORT <> None \/
              (fun _ : Z => true) PORT = false) by (left; discriminate).
  split; [exact H|].
  pose proof (bind_failure_exits_nonzero Example.world 2 (fun _ => true)
                [Ready (Connect (Example.bare "GET /app.js HTTP/1.1"))]
                (fun port => if port =? 8080 then Some 1%nat else None) H)
    as (E & _ & _ & _ & N).
  split; [exact E|]. rewrite N. reflexivity.
Defined.

(** C8.  Once the server listens, Ctrl+C during the serve loop -- while it
    waits, or as it starts on a request -- leaves [serve_forever] by
    [KeyboardInterrupt]; the script prints the shutdown message after its
    banner, closes the listening socket and exits with status 0.  The
    connections that came before are answered; none that comes after is. *)
Theorem interrupt_stops_server (W : World) (pid : nat) (may_bind : Z -> bool)
        (net0 : Z -> option nat) (before after : list event) (ev : event) :
  net0 PORT = None -> may_bind PORT = true ->
  Forall (fun e => peaceful e = true) before ->
  peaceful ev = false ->
  fst (main W pid may_bind (before ++ ev :: after) (start net0)) = Exited 0 /\
  stdout (snd (main W pid may_bind (before ++ ev :: after) (start net0)))
  = app banner [NL ++ "👋 Server stopped"] /\
  socket (snd (main W pid may_bind (before ++ ev :: after) (start net0))) = Closed /\
  net (snd (main W pid may_bind (before ++ ev :: after) (start net0))) PORT = None /\
  replies (snd (main W pid may_bind (before ++ ev :: after) (start net0)))
  = (map (reply W) (requests_of before)
     ++ match ev with Interrupt => [] | Ready _ => [""] end)%list.
Proof.
  intros Hn Hb Hq Hev. unfold main.
  rewrite (init_succeeds pid may_bind (start net0) Hn Hb).
  match goal with |- context [TCPServer.serve_forever _ _ ?p] =>
    destruct (serve_forever_interrupted (served W) before ev after p Hq Hev)
      as (p' & E & R & N & S & A & O)
  end.
  cbn in R, N, S, A, O. change (str PORT) with "8080" in O. cbn in O.
  rewrite E. cbn [fst snd]. unfold TCPServer.server_close, print.
  cbn. rewrite S. cbn. rewrite O, A, R. cbn.
  repeat split; try (unfold TCPServer.update; cbn; now rewrite Z.eqb_refl).
Qed.

Lemma interrupt_stops_server_witness :
  fst (main Example.world 2 (fun _ => true)
            ([Ready (Connect (Example.bare "GET /app.js HTTP/1.1"))]
             ++ Interrupt :: [Ready (Connect (Example.bare "GET /index.html HTTP/1.1"))])
            (start (fun _ => None)))
  = Exited 0 /\
  replies (snd (main Example.world 2 (fun _ => true)
            ([Ready (Connect (Example.bare "GET /app.js HTTP/1.1"))]
             ++ Interrupt :: [Ready (Connect (Example.bare "GET /index.html HTTP/1.1"))])
            (start (fun _ => None))))
  = [reply Example.world (Example.bare "GET /app.js HTTP/1.1")].
Proof.
  pose proof (interrupt_stops_server Example.world 2 (fun _ => true) (fun _ => None)
                [Ready (Connect (Example.bare "GET /app.js HTTP/1.1"))]
                [Ready (Connect (Example.bare "GET /index.html HTTP/1.1"))]
                Interrupt eq_refl eq_refl
                ltac:(repeat constructor) eq_refl)
    as (E & _ & _ & _ & R).
  split; [exact E|]. rewrite R. reflexivity.
Defined.

(** C9.  Once the server listens, whatever the connections deliver and
    whatever their handlers raise, as long as no Ctrl+C arrives the serve
    loop is still running after them with its socket listening, and every
    connection got the reply its own request determines.  The loop does
    not depend on the handler for this: with any handler class, whatever
    exceptions its handlers raise, [serve_forever] is still waiting for the
    next connection after the same events. *)
Theorem request_errors_do_not_stop_server (W : World) (pid : nat) (may_bind : Z -> bool)
        (net0 : Z -> option nat) (events : list event) :
  net0 PORT = None -> may_bind PORT = true ->
  Forall (fun e => peaceful e = true) events ->
  fst (main W pid may_bind events (start net0)) = Running /\
  socket (snd (main W pid may_bind events (start net0))) = Listening /\
  net (snd (main W pid may_bind events (start net0))) PORT = Some pid /\
  replies (snd (main W pid may_bind events (start net0)))
  = map (reply W) (requests_of events) /\
  forall (RequestHandlerClass : string -> outcome unit * Handler) (p : Process),
    fst (TCPServer.serve_forever RequestHandlerClass events p) = Blocked /\
    socket (snd (TCPServer.serve_forever RequestHandlerClass events p)) = socket p.
Proof.
  intros Hn Hb Hq. split; [|split; [|split; [|split]]].
  5: { intros C p.
       destruct (serve_forever_peaceful C events p Hq) as (p' & E & _ & _ & S & _).
       rewrite E. split; [reflexivity|exact S]. }
  all: unfold main; rewrite (init_succeeds pid may_bind (start net0) Hn Hb);
    match goal with |- context [TCPServer.serve_forever _ _ ?p] =>
      destruct (serve_forever_peaceful (served W) events p Hq)
        as (p' & E & R & N & S & A & O)
    end;
    cbn in R, N, S, A, O; rewrite E; cbn [fst snd]; rewrite ?S, ?N, ?R;
    try reflexivity;
    unfold TCPServer.update; cbn; now rewrite Z.eqb_refl.
Qed.

(** A request whose path holds a NUL byte makes [open] raise [ValueError],
    which [send_head] does not catch; the server answers the connection
    that follows. *)
Lemma request_errors_do_not_stop_server_witness :
  fst (served Example.world
         (Example.bare ("GET /a" ++ String Example.NUL "b HTTP/1.1")))
  = Raise ValueError /\
  fst (main Example.world 2 (fun _ => true)
            [Ready (Connect (Example.bare ("GET /a" ++ String Example.NUL "b HTTP/1.1")));
             Ready (Connect (Example.bare "GET /app.js HTTP/1.1"))]
            (start (fun _ => None)))
  = Running /\
  replies (snd (main Example.world 2 (fun _ => true)
            [Ready (Connect (Example.bare ("GET /a" ++ String Example.NUL "b HTTP/1.1")));
             Ready (Connect (Example.bare "GET /app.js HTTP/1.1"))]
            (start (fun _ => None))))
  = [""; reply Example.world (Example.bare "GET /app.js HTTP/1.1")] /\
  fst (TCPServer.serve_forever (fun _ => (Raise OSError, Example.building))
         [Ready (Connect (Example.bare "GET /app.js HTTP/1.1"))]
         (start (fun _ => None)))
  = Blocked.
Proof.
  pose proof (request_errors_do_not_stop_server Example.world 2 (fun _ => true)
                (fun _ => None)
                [Ready (Connect (Example.bare ("GET /a" ++ String Example.NUL "b HTTP/1.1")));
                 Ready (Connect (Example.bare "GET /app.js HTTP/1.1"))]
                eq_refl eq_refl ltac:(repeat constructor))
    as (E & _ & _ & R & _).
  split; [vm_compute; reflexivity|]. split; [exact E|]. split.
  - rewrite R. vm_compute. reflexivity.
  - reflexivity.
Defined.

(** C6 (as amended).  When port 8080 is free and the process may bind it,
    the script listens on a stream (TCP) socket of the IPv4 family bound to
    0.0.0.0, that is every IPv4 interface, port 8080.  It answers in
    HTTP/1.0: every reply that has a status line begins with HTTP/1.0, and
    the handler closes the connection after the first request on it. *)
Theorem server_listens_on_8080_speaks_http_1_0 (W : World) (pid : nat)
        (may_bind : Z -> bool) (net0 : Z -> option nat) :
  net0 PORT = None -> may_bind PORT = true ->
  fst (main W pid may_bind [] (start net0)) = Running /\
  server_address (snd (main W pid may_bind [] (start net0))) = ("0.0.0.0", 8080) /\
  socket (snd (main W pid may_bind [] (start net0))) = Listening /\
  net (snd (main W pid may_bind [] (start net0))) 8080 = Some pid /\
  TCPServer.address_family = TCPServer.AF_INET /\
  TCPServer.socket_type = TCPServer.SOCK_STREAM /\
  protocol_version = "HTTP/1.0" /\
  forall request,
    close_connection (snd (served W request)) = true /\
    (request_version (snd (served W request)) <> "HTTP/0.9" ->
     reply W request <> "" ->
     startswith (reply W request) "HTTP/1.0 " = true).
Proof.
  intros Hn Hb. unfold main.
  rewrite (init_succeeds pid may_bind (start net0) Hn Hb).
  cbn [TCPServer.serve_forever fst snd].
  repeat split; try (unfold TCPServer.update; cbn; now rewrite Z.eqb_refl).
  - apply (settled_close False (os_getcwd W)), served_settled, sane_false.
  - intros Hv Hw. unfold reply in *.
    destruct (served_settled False W request (sane_false W))
      as [[_ [_ Hq]]|[_ [_ [H|[_ H]]]]].
    + contradiction.
    + apply String.eqb_eq in H. contradiction.
    + destruct H as (code & message & hs & body & H & _). rewrite H.
      apply response_starts_with_protocol.
Qed.

Lemma server_listens_on_8080_speaks_http_1_0_witness :
  (fun _ : Z => @None nat) PORT = None /\ (fun _ : Z => true) PORT = true /\
  server_address (snd (main Example.world 2 (fun _ => true) [] (start (fun _ => None))))
  = ("0.0.0.0", 8080) /\
  startswith (reply Example.world (Example.bare "GET /app.js HTTP/1.1")) "HTTP/1.0 " = true.
Proof.
  pose proof (server_listens_on_8080_speaks_http_1_0 Example.world 2 (fun _ => true)
                (fun _ => None) eq_refl eq_refl)
    as (_ & A & _ & _ & _ & _ & _ & R).
  split; [reflexivity|]. split; [reflexivity|]. split; [exact A|].
  apply (R (Example.bare "GET /app.js HTTP/1.1")); vm_compute; discriminate.
Defined.

(** C6 fails as stated: the reply to an HTTP/1.1 request carries HTTP/1.0
    in its status line, and the connection is closed after one request, so
    that a second request sent on the same connection is never answered. *)
Lemma reply_is_http_1_0 :
  startswith (reply Example.world (Example.bare "GET /app.js HTTP/1.1")) "HTTP/1.1" = false /\
  startswith (reply Example.world (Example.bare "GET /app.js HTTP/1.1"))
             ("HTTP/1.0 200 OK" ++ CRLF) = true /\
  reply Example.world
        (Example.bare "GET /app.js HTTP/1.1" ++ Example.bare "GET /index.html HTTP/1.1")
  = reply Example.world (Example.bare "GET /app.js HTTP/1.1").
Proof. repeat split; vm_compute; reflexivity. Qed.

(** * Further properties of the handler and of the serve loop *)

(** ** [end_headers] and [do_OPTIONS] on any handler *)

(** X1.  The override of [end_headers] returns normally on every handler,
    also on one that has buffered nothing, where the inherited
    [end_headers] alone raises [AttributeError].  It only appends to the
    bytes sent: the connection state, the request version, the log, the
    bytes left to read and the record of file system calls are as before. *)
Theorem end_headers_returns (h : Handler) :
  fst (CORSRequestHandler.end_headers h) = Ret tt /\
  (exists sent, wfile (snd (CORSRequestHandler.end_headers h)) = wfile h ++ sent) /\
  close_connection (snd (CORSRequestHandler.end_headers h)) = close_connection h /\
  request_version (snd (CORSRequestHandler.end_headers h)) = request_version h /\
  rfile (snd (CORSRequestHandler.end_headers h)) = rfile h /\
  stderr (snd (CORSRequestHandler.end_headers h)) = stderr h /\
  fs_log (snd (CORSRequestHandler.end_headers h)) = fs_log h /\
  (request_version h <> "HTTP/0.9" -> _headers_buffer h = None ->
   fst (BaseHTTPRequestHandler.end_headers h) = Raise AttributeError).
Proof.
  rewrite end_headers_decorated. cbn [fst snd]. split; [reflexivity|]. split.
  - unfold decorated. proj. destruct (http09 h).
    + exists "". now rewrite append_nil_r.
    + eexists. reflexivity.
  - repeat split. intros Hv Hb. apply String.eqb_neq in Hv.
    unfold BaseHTTPRequestHandler.end_headers, bind, get. cbv beta iota.
    rewrite Hv. cbv beta iota. cbn [negb]. cbv beta iota. now rewrite Hb.
Qed.

Lemma end_headers_returns_witness :
  fst (CORSRequestHandler.end_headers
         (set_request_version "HTTP/1.1" (CORSRequestHandler.new Example.world "")))
  = Ret tt /\
  fst (BaseHTTPRequestHandler.end_headers
         (set_request_version "HTTP/1.1" (CORSRequestHandler.new Example.world "")))
  = Raise AttributeError.
Proof.
  pose proof (end_headers_returns
                (set_request_version "HTTP/1.1" (CORSRequestHandler.new Example.world "")))
    as (R & _ & _ & _ & _ & _ & _ & B).
  split; [exact R|]. apply B; [discriminate|reflexivity].
Defined.

(** X2.  While the request version is HTTP/0.9, [end_headers] leaves the
    handler exactly as it was -- no header, no empty line -- and
    [do_OPTIONS] only logs the request: nothing reaches the client. *)
Theorem http09_end_headers_silent (W : World) (h : Handler) :
  request_version h = "HTTP/0.9" ->
  CORSRequestHandler.end_headers h = (Ret tt, h) /\
  CORSRequestHandler.do_OPTIONS W h = (Ret tt, logged (request_log 200 h) h) /\
  wfile (snd (CORSRequestHandler.do_OPTIONS W h)) = wfile h.
Proof.
  intros Hv.
  assert (D : forall k, request_version k = "HTTP/0.9" -> decorated k = k).
  { intros k Hk. unfold decorated, http09. rewrite Hk. now destruct k. }
  assert (E : forall l k, request_version k = "HTTP/0.9" -> emit l k = k).
  { intros l k Hk. unfold emit, http09. rewrite Hk. now destruct k. }
  split; [now rewrite end_headers_decorated, D|].
  rewrite do_OPTIONS_run. rewrite E by exact Hv. rewrite D by exact Hv.
  split; reflexivity.
Qed.

Lemma http09_end_headers_silent_witness :
  request_version (set_request_version "HTTP/0.9" Example.building) = "HTTP/0.9" /\
  CORSRequestHandler.end_headers (set_request_version "HTTP/0.9" Example.building)
  = (Ret tt, set_request_version "HTTP/0.9" Example.building).
Proof.
  split; [reflexivity|].
  exact (proj1 (http09_end_headers_silent Example.world
                  (set_request_version "HTTP/0.9" Example.building) eq_refl)).
Defined.

(** X3.  [do_OPTIONS] returns normally on every handler.  It reads nothing
    from the connection (a request body stays unread), makes no file
    system call, leaves the connection state as it is, logs one line with
    the request line and the status 200, and flushes the header buffer. *)
Theorem do_OPTIONS_frame (W : World) (h : Handler) :
  fst (CORSRequestHandler.do_OPTIONS W h) = Ret tt /\
  rfile (snd (CORSRequestHandler.do_OPTIONS W h)) = rfile h /\
  fs_log (snd (CORSRequestHandler.do_OPTIONS W h)) = fs_log h /\
  close_connection (snd (CORSRequestHandler.do_OPTIONS W h)) = close_connection h /\
  stderr (snd (CORSRequestHandler.do_OPTIONS W h))
  = app (stderr h) [DQ ++ requestline h ++ DQ ++ " 200 -"] /\
  (request_version h <> "HTTP/0.9" ->
   _headers_buffer (snd (CORSRequestHandler.do_OPTIONS W h)) = Some [] /\
   wfile (snd (CORSRequestHandler.do_OPTIONS W h))
   = wfile h ++ cat (buffered h)
     ++ cat (status_line 200 "OK"
             :: map header_line (standard_headers W ++ cors_headers))
     ++ CRLF).
Proof.
  rewrite do_OPTIONS_run. cbn [fst snd]. repeat split.
  - apply String.eqb_neq in H.
    unfold decorated, emit, logged, http09. proj. now rewrite H.
  - apply String.eqb_neq in H.
    unfold decorated, emit, logged, http09, buffered. proj. rewrite H. proj.
    cbn [default]. rewrite !cat_app, map_app, !cat_cons, !cat_app.
    cbn [cat String.concat]. now rewrite !append_assoc.
Qed.

Lemma do_OPTIONS_frame_witness :
  request_version (set_rfile "a request body" Example.building) <> "HTTP/0.9" /\
  rfile (snd (CORSRequestHandler.do_OPTIONS Example.world
                (set_rfile "a request body" Example.building)))
  = "a request body" /\
  _headers_buffer (snd (CORSRequestHandler.do_OPTIONS Example.world
                          (set_rfile "a request body" Example.building)))
  = Some [].
Proof.
  assert (Hv : request_version (set_rfile "a request body" Example.building) <> "HTTP/0.9")
    by discriminate.
  pose proof (do_OPTIONS_frame Example.world (set_rfile "a request body" Example.building))
    as (_ & R & _ & _ & _ & B).
  split; [exact Hv|]. split; [exact R|]. exact (proj1 (B Hv)).
Defined.

(** ** The serve loop *)

(** X5.  A connection whose handler raises an exception is reported on
    standard error -- the handler's own log, then the block that
    [handle_error] prints, with the name of the exception -- and nothing
    is printed on standard output; the bytes sent before the exception
    stay sent, and the loop goes on.  This holds for every handler
    class. *)
Theorem handler_exception_is_reported (C : string -> outcome unit * Handler)
        (request : string) (e : exn) (events : list event) (p : Process) :
  fst (C request) = Raise e ->
  exists p',
    TCPServer.serve_forever C (Ready (Connect request) :: events) p
    = TCPServer.serve_forever C events p' /\
    proc_stderr p'
    = app (proc_stderr p)
          (app (stderr (snd (C request)))
               ["----------------------------------------";
                "Exception occurred during processing of request";
                exn_name (Exc e);
                "----------------------------------------"]) /\
    stdout p' = stdout p /\
    replies p' = app (replies p) [wfile (snd (C request))] /\
    socket p' = socket p /\ net p' = net p.
Proof.
  intros H. eexists. split.
  - cbn [TCPServer.serve_forever]. unfold TCPServer._handle_request_noblock.
    rewrite process_request_served, H. reflexivity.
  - unfold TCPServer.handle_error, answered. cbn. rewrite <- app_assoc. repeat split.
Qed.

Lemma handler_exception_is_reported_witness :
  fst (served Example.world (Example.bare ("GET /a" ++ String Example.NUL "b HTTP/1.1")))
  = Raise ValueError /\
  proc_stderr (snd (TCPServer.serve_forever (served Example.world)
                      [Ready (Connect (Example.bare
                                         ("GET /a" ++ String Example.NUL "b HTTP/1.1")))]
                      (start (fun _ => None))))
  = ["----------------------------------------";
     "Exception occurred during processing of request";
     "ValueError";
     "----------------------------------------"].
Proof.
  assert (H : fst (served Example.world
                     (Example.bare ("GET /a" ++ String Example.NUL "b HTTP/1.1")))
              = Raise ValueError) by (vm_compute; reflexivity).
  split; [exact H|].
  destruct (handler_exception_is_reported (served Example.world) _ _ []
              (start (fun _ => None)) H) as (p' & E & S & _).
  rewrite E. cbn [TCPServer.serve_forever snd]. rewrite S. vm_compute. reflexivity.
Defined.

(** ** The main block *)

(** X6.  While the script serves, standard output holds the three lines
    of the banner and nothing else, whatever the connections deliver:
    request logs and error reports go to standard error. *)
Theorem stdout_is_the_banner (W : World) (pid : nat) (may_bind : Z -> bool)
        (net0 : Z -> option nat) (events : list event) :
  net0 PORT = None -> may_bind PORT = true ->
  Forall (fun e => peaceful e = true) events ->
  stdout (snd (main W pid may_bind events (start net0)))
  = ["🚀 Development server running at http://localhost:8080/";
     "📝 CORS headers enabled for ES6 modules";
     "🔄 Press Ctrl+C to stop"].
Proof.
  intros Hn Hb Hq. unfold main.
  rewrite (init_succeeds pid may_bind (start net0) Hn Hb).
  match goal with |- context [TCPServer.serve_forever _ _ ?p] =>
    destruct (serve_forever_peaceful (served W) events p Hq)
      as (p' & E & _ & _ & _ & _ & O)
  end.
  rewrite E. cbn [fst snd]. rewrite O. reflexivity.
Qed.

Lemma stdout_is_the_banner_witness :
  stdout (snd (main Example.world 2 (fun _ => true)
                 [Ready (Connect (Example.bare "GET /missing.txt HTTP/1.1"));
                  Ready AcceptFails]
                 (start (fun _ => None))))
  = ["🚀 Development server running at http://localhost:8080/";
     "📝 CORS headers enabled for ES6 modules";
     "🔄 Press Ctrl+C to stop"].
Proof.
  exact (stdout_is_the_banner Example.world 2 (fun _ => true) (fun _ => None)
           [Ready (Connect (Example.bare "GET /missing.txt HTTP/1.1")); Ready AcceptFails]
           eq_refl eq_refl ltac:(repeat constructor)).
Defined.

(** X7.  The [with] statement gives the port back: when the script has
    bound the port and leaves on Ctrl+C, the table of listening sockets is
    again what it was before the script started, at every port. *)
Theorem port_is_released (W : World) (pid : nat) (may_bind : Z -> bool)
        (net0 : Z -> option nat) (before after : list event) (ev : event) (port : Z) :
  net0 PORT = None -> may_bind PORT = true ->
  Forall (fun e => peaceful e = true) before ->
  peaceful ev = false ->
  net (snd (main W pid may_bind (before ++ ev :: after) (start net0))) port = net0 port.
Proof.
  intros Hn Hb Hq Hev. unfold main.
  rewrite (init_succeeds pid may_bind (start net0) Hn Hb).
  match goal with |- context [TCPServer.serve_forever _ _ ?p] =>
    destruct (serve_forever_interrupted (served W) before ev after p Hq Hev)
      as (p' & E & _ & N & S & A & _)
  end.
  cbn in N, S, A. rewrite E. cbn [fst snd]. unfold TCPServer.server_close, print.
  cbn. rewrite S. cbn. rewrite A, N. cbn. unfold TCPServer.update.
  destruct (port =? PORT) eqn:P; [|reflexivity].
  apply Z.eqb_eq in P. subst port. now rewrite Hn.
Qed.

Lemma port_is_released_witness :
  net (snd (main Example.world 2 (fun _ => true)
              ([Ready (Connect (Example.bare "GET /app.js HTTP/1.1"))] ++ Interrupt :: [])
              (start (fun port => if port =? 22 then Some 1%nat else None)))) 22
  = Some 1%nat /\
  net (snd (main Example.world 2 (fun _ => true)
              ([Ready (Connect (Example.bare "GET /app.js HTTP/1.1"))] ++ Interrupt :: [])
              (start (fun port => if port =? 22 then Some 1%nat else None)))) 8080
  = None.
Proof.
  split.
  - exact (port_is_released Example.world 2 (fun _ => true)
             (fun port => if port =? 22 then Some 1%nat else None)
             [Ready (Connect (Example.bare "GET /app.js HTTP/1.1"))] [] Interrupt 22
             eq_refl eq_refl ltac:(repeat constructor) eq_refl).
  - exact (port_is_released Example.world 2 (fun _ => true)
             (fun port => if port =? 22 then Some 1%nat else None)
             [Ready (Connect (Example.bare "GET /app.js HTTP/1.1"))] [] Interrupt 8080
             eq_refl eq_refl ltac:(repeat constructor) eq_refl).
Defined.

(** ** Request targets *)

Lemma split1_head_app c p q :
  split1_head c (p ++ String c q) = split1_head c p.
Proof.
  induction p as [|a p IH]; cbn [String.append split1_head].
  - now rewrite Ascii.eqb_refl.
  - destruct (a =? c)%char; [reflexivity | now rewrite IH].
Qed.

Lemma split1_head_absent c p : contains c p = false -> split1_head c p = p.
Proof.
  induction p as [|a p IH]; cbn [contains split1_head]; [reflexivity|].
  intros H. apply orb_false_iff in H as [H1 H2]. rewrite H1. now rewrite IH.
Qed.

Lemma split1_head_other c d p s :
  (d =? c)%char = false ->
  split1_head c (p ++ String d s)
  = if contains c p then split1_head c p else p ++ String d (split1_head c s).
Proof.
  intros Hd. induction p as [|a p IH]; cbn [String.append split1_head contains].
  - now rewrite Hd.
  - destruct (a =? c)%char; cbn [orb]; [reflexivity|].
    rewrite IH. now destruct (contains c p).
Qed.

Lemma translate_path_query W directory target rest :
  SimpleHTTPRequestHandler.translate_path W directory (target ++ "?" ++ rest)
  = SimpleHTTPRequestHandler.translate_path W directory target.
Proof.
  unfold SimpleHTTPRequestHandler.translate_path. cbn [String.append].
  now rewrite split1_head_app.
Qed.

Lemma translate_path_fragment W directory target rest :
  SimpleHTTPRequestHandler.translate_path W directory (target ++ "#" ++ rest)
  = SimpleHTTPRequestHandler.translate_path W directory target.
Proof.
  assert (F : split1_head "#" (split1_head "?" (target ++ "#" ++ rest))
              = split1_head "#" (split1_head "?" target)).
  { cbn [String.append]. rewrite split1_head_other by reflexivity.
    destruct (contains "?" target) eqn:E; [reflexivity|].
    now rewrite split1_head_app, (split1_head_absent "?" target E). }
  unfold SimpleHTTPRequestHandler.translate_path. now rewrite F.
Qed.

(** X8.  A query string and a fragment take no part in the choice of the
    file: a target followed by "?" or "#" and anything at all translates
    to the same path as the target alone. *)
Theorem translate_path_ignores_query (W : World) (directory target rest : string) :
  SimpleHTTPRequestHandler.translate_path W directory (target ++ "?" ++ rest)
  = SimpleHTTPRequestHandler.translate_path W directory target /\
  SimpleHTTPRequestHandler.translate_path W directory (target ++ "#" ++ rest)
  = SimpleHTTPRequestHandler.translate_path W directory target.
Proof. split; [apply translate_path_query | apply translate_path_fragment]. Qed.

Lemma lstrip_stripped (c : ascii) (s : string) :
  startswith (lstrip (fun a => (a =? c)%char) s) (String c "") = false.
Proof.
  induction s as [|a s IH]; [reflexivity|]. cbn [lstrip].
  destruct (a =? c)%char eqn:E; [exact IH|].
  unfold startswith. cbn [String.prefix].
  destruct (Ascii.ascii_dec c a) as [D|D]; [|reflexivity].
  subst a. now rewrite Ascii.eqb_refl in E.
Qed.

(** X9.  The path [parse_request] stores never begins with two slashes,
    whatever the request target: a run of leading slashes is reduced to
    one, and any other target is stored as it is.  A target such as
    //host/x can thus not reach [send_head] as a network-path
    reference. *)
Theorem parsed_path_single_slash (W : World) (request cmd target version : string)
        (hs : list (string * string)) :
  well_formed W request cmd target version hs ->
  let h := snd (CORSRequestHandler.parse_request W
                  (set_raw_requestline (fst (readline_from 65537 request))
                     (set_rfile (snd (readline_from 65537 request))
                        (set_close_connection true (CORSRequestHandler.new W request))))) in
  startswith (path h) "//" = false /\
  (startswith target "//" = true ->
   path h = "/" ++ lstrip (fun a => (a =? "/")%char) target) /\
  (startswith target "//" = false -> path h = target).
Proof.
  intros Hwf. rewrite (parse_request_ok W request cmd target version hs Hwf).
  cbn [snd]. unfold parsed. proj. unfold stored_path.
  destruct (startswith target "//") eqn:E.
  - repeat split; try discriminate.
    pose proof (lstrip_stripped "/" target) as L.
    unfold startswith in *. cbn [String.append String.prefix].
    destruct (Ascii.ascii_dec "/" "/"); [exact L|reflexivity].
  - repeat split; [exact E|discriminate].
Qed.

Lemma parsed_path_single_slash_witness :
  well_formed Example.world (Example.bare "GET //evil.example/x HTTP/1.1")
              "GET" "//evil.example/x" "HTTP/1.1" [] /\
  path (snd (CORSRequestHandler.parse_request Example.world
               (set_raw_requestline
                  (fst (readline_from 65537 (Example.bare "GET //evil.example/x HTTP/1.1")))
                  (set_rfile
                     (snd (readline_from 65537 (Example.bare "GET //evil.example/x HTTP/1.1")))
                     (set_close_connection true
                        (CORSRequestHandler.new Example.world
                           (Example.bare "GET //evil.example/x HTTP/1.1")))))))
  = "/evil.example/x".
Proof.
  assert (Hwf : well_formed Example.world (Example.bare "GET //evil.example/x HTTP/1.1")
                            "GET" "//evil.example/x" "HTTP/1.1" []).
  { repeat split; try (vm_compute; congruence).
    exists (1, 1), "1.1". split; reflexivity. }
  split; [exact Hwf|].
  destruct (parsed_path_single_slash Example.world _ _ _ _ _ Hwf) as (_ & E & _).
  rewrite E; reflexivity.
Defined.

(** ** The replies of [send_head] *)

Lemma send_head_file_opened W file h content st_mtime :
  endswith file "/" = false ->
  open_rb W file = Opened content st_mtime ->
  fromtimestamp_raises W st_mtime = None ->
  SimpleHTTPRequestHandler.not_modified W (headers h) st_mtime = Ret false ->
  SimpleHTTPRequestHandler.send_head_file W CORSRequestHandler.end_headers file h
  = (Ret (Some content),
     decorated
       (emit (status_line 200 "OK"
              :: map header_line
                   (standard_headers W
                    ++ [("Content-type", SimpleHTTPRequestHandler.guess_type W file);
                        ("Content-Length", str (len content));
                        ("Last-Modified", formatdate W st_mtime)]))
          (logged (request_log 200 h) (touched file h)))).
Proof.
  intros Hslash Hopen Hmtime Hcond.
  unfold SimpleHTTPRequestHandler.send_head_file. rewrite Hslash, Hopen.
  exec. cbn [headers touched set_fs_log]. rewrite Hcond. exec.
  unfold date_time_string. rewrite Hmtime. exec. rewrite !emit_emit.
  reflexivity.
Qed.

Lemma send_head_file_not_modified W file h content st_mtime :
  endswith file "/" = false ->
  open_rb W file = Opened content st_mtime ->
  SimpleHTTPRequestHandler.not_modified W (headers h) st_mtime = Ret true ->
  SimpleHTTPRequestHandler.send_head_file W CORSRequestHandler.end_headers file h
  = (Ret None,
     decorated
       (emit (status_line 304 "Not Modified" :: map header_line (standard_headers W))
          (logged (request_log 304 h) (touched file h)))).
Proof.
  intros Hslash Hopen Hcond.
  unfold SimpleHTTPRequestHandler.send_head_file. rewrite Hslash, Hopen.
  exec. cbn [headers touched set_fs_log]. rewrite Hcond. exec. reflexivity.
Qed.

Lemma send_head_file_slash W file h :
  endswith file "/" = true ->
  SimpleHTTPRequestHandler.send_head_file W CORSRequestHandler.end_headers file h
  = (Ret None, after_send_error W NOT_FOUND (Some "File not found") None h).
Proof.
  intros Hslash. unfold SimpleHTTPRequestHandler.send_head_file.
  fold (CORSRequestHandler.send_error W). rewrite Hslash. exec. reflexivity.
Qed.

Lemma send_head_file_missing W file h :
  endswith file "/" = false ->
  open_rb W file = OpenOSError ->
  SimpleHTTPRequestHandler.send_head_file W CORSRequestHandler.end_headers file h
  = (Ret None, after_send_error W NOT_FOUND (Some "File not found") None (touched file h)).
Proof.
  intros Hslash Hopen. unfold SimpleHTTPRequestHandler.send_head_file.
  fold (CORSRequestHandler.send_error W). rewrite Hslash, Hopen. exec. reflexivity.
Qed.

Lemma send_head_file_refused W file h :
  endswith file "/" = false ->
  open_rb W file = OpenValueError ->
  SimpleHTTPRequestHandler.send_head_file W CORSRequestHandler.end_headers file h
  = (Raise ValueError, touched file h).
Proof.
  intros Hslash Hopen. unfold SimpleHTTPRequestHandler.send_head_file.
  rewrite Hslash, Hopen. exec. reflexivity.
Qed.

Lemma send_head_not_dir W h :
  let file := SimpleHTTPRequestHandler.translate_path W (directory h) (path h) in
  os_path_isdir W file = false ->
  SimpleHTTPRequestHandler.send_head W CORSRequestHandler.end_headers h
  = SimpleHTTPRequestHandler.send_head_file W CORSRequestHandler.end_headers file
      (touched file h).
Proof.
  intros file Hdir. unfold SimpleHTTPRequestHandler.send_head.
  exec. fold file. rewrite Hdir. reflexivity.
Qed.

Lemma send_head_redirect W h parts :
  let file := SimpleHTTPRequestHandler.translate_path W (directory h) (path h) in
  os_path_isdir W file = true ->
  urlsplit W (path h) = Some parts ->
  endswith (sp_path parts) "/" = false ->
  SimpleHTTPRequestHandler.send_head W CORSRequestHandler.end_headers h
  = (Ret None,
     decorated
       (emit (status_line 301 "Moved Permanently"
              :: map header_line
                   (standard_headers W
                    ++ [("Location",
                         urlunsplit W
                           (mkSplit (scheme parts) (netloc parts) (sp_path parts ++ "/")
                                    (query parts) (fragment parts)));
                        ("Content-Length", "0")]))
          (logged (request_log 301 h) (touched file h)))).
Proof.
  intros file Hdir Hparts Hslash. unfold SimpleHTTPRequestHandler.send_head.
  exec. fold file. rewrite Hdir, Hparts, Hslash. cbn [negb]. exec. rewrite !emit_emit.
  reflexivity.
Qed.

Lemma send_head_index_html W h parts :
  let file := SimpleHTTPRequestHandler.translate_path W (directory h) (path h) in
  os_path_isdir W file = true ->
  urlsplit W (path h) = Some parts ->
  endswith (sp_path parts) "/" = true ->
  os_path_isfile W (posixpath.join file "index.html") = true ->
  SimpleHTTPRequestHandler.send_head W CORSRequestHandler.end_headers h
  = SimpleHTTPRequestHandler.send_head_file W CORSRequestHandler.end_headers
      (posixpath.join file "index.html")
      (touched (posixpath.join file "index.html") (touched file h)).
Proof.
  intros file Hdir Hparts Hslash Hfile. unfold SimpleHTTPRequestHandler.send_head.
  exec. fold file. rewrite Hdir, Hparts, Hslash. cbn [negb]. exec. rewrite Hfile.
  reflexivity.
Qed.

Lemma send_head_listing W h parts encoded :
  let file := SimpleHTTPRequestHandler.translate_path W (directory h) (path h) in
  os_path_isdir W file = true ->
  urlsplit W (path h) = Some parts ->
  endswith (sp_path parts) "/" = true ->
  os_path_isfile W (posixpath.join file "index.html") = false ->
  os_path_isfile W (posixpath.join file "index.htm") = false ->
  listing W file (path h) = Listed encoded ->
  SimpleHTTPRequestHandler.send_head W CORSRequestHandler.end_headers h
  = (Ret (Some encoded),
     decorated
       (emit (status_line 200 "OK"
              :: map header_line
                   (standard_headers W
                    ++ [("Content-type", "text/html; charset=" ++ getfilesystemencoding W);
                        ("Content-Length", str (len encoded))]))
          (logged (request_log 200 h)
             (touched file
                (touched (posixpath.join file "index.htm")
                   (touched (posixpath.join file "index.html") (touched file h))))))).
Proof.
  intros file Hdir Hparts Hslash Hhtml Hhtm Hlist. unfold SimpleHTTPRequestHandler.send_head.
  exec. fold file. rewrite Hdir, Hparts, Hslash. cbn [negb]. exec. rewrite Hhtml. exec.
  rewrite Hhtm. unfold SimpleHTTPRequestHandler.list_directory. exec.
  cbn [path touched set_fs_log]. rewrite Hlist. exec. rewrite !emit_emit. reflexivity.
Qed.

(** What a well-formed GET or HEAD request is answered with, given what
    [send_head] does: its header block, then the body for GET alone. *)
Lemma reply_of_send_head W request cmd target version hs r h' :
  well_formed W request cmd target version hs ->
  cmd = "GET" \/ cmd = "HEAD" ->
  SimpleHTTPRequestHandler.send_head W CORSRequestHandler.end_headers
    (parsed W request cmd target version hs) = (Ret r, h') ->
  fst (served W request) = Ret tt /\
  reply W request = wfile h' ++ (if (cmd =? "HEAD")%string then "" else default "" r) /\
  fs_log (snd (served W request)) = fs_log h'.
Proof.
  intros Hwf Hcmd E. unfold reply.
  rewrite (served_dispatch W request cmd target version hs Hwf).
  destruct Hcmd as [-> | ->].
  - rewrite getattr_GET. cbv iota beta.
    unfold CORSRequestHandler.do_GET, SimpleHTTPRequestHandler.do_GET.
    rewrite (bind_run _ _ _ _ _ E).
    destruct r as [content|]; exec; cbn [fst snd default]; repeat split.
    now rewrite append_nil_r.
  - change (CORSRequestHandler.getattr_do W "HEAD") with (Some (CORSRequestHandler.do_HEAD W)).
    cbv iota beta.
    unfold CORSRequestHandler.do_HEAD, SimpleHTTPRequestHandler.do_HEAD.
    rewrite (bind_run _ _ _ _ _ E). exec. cbn [fst snd]. repeat split.
    now rewrite append_nil_r.
Qed.

Lemma decorated_reply code message hs h body :
  http09 h = false -> Quiet h ->
  wfile (decorated (emit (status_line code message :: map header_line hs) h)) ++ body
  = response code message (hs ++ cors_headers) body.
Proof.
  intros Hv Hq. rewrite wfile_decorated by assumption.
  rewrite !append_assoc. apply response_cat.
Qed.

Lemma http09_parsed W request cmd target version hs :
  version <> "HTTP/0.9" -> http09 (parsed W request cmd target version hs) = false.
Proof. intros Hv. now apply String.eqb_neq. Qed.

(** X10.  HEAD for an existing file whose modification time lies between
    the years 1 and 9999, and that is not a conditional request the file
    satisfies, is answered like GET, without the body: status 200 and the
    same header block, with the Content-Length of the file, then
    nothing. *)
Theorem head_file_reply (W : World) (request target version : string)
        (hs : list (string * string)) (content : string) (st_mtime : Z) :
  let file := SimpleHTTPRequestHandler.translate_path W (os_getcwd W) (stored_path target) in
  well_formed W request "HEAD" target version hs ->
  version <> "HTTP/0.9" ->
  os_path_isdir W file = false ->
  endswith file "/" = false ->
  open_rb W file = Opened content st_mtime ->
  fromtimestamp_raises W st_mtime = None ->
  SimpleHTTPRequestHandler.not_modified W hs st_mtime = Ret false ->
  fst (served W request) = Ret tt /\
  reply W request
  = response 200 "OK"
      (standard_headers W
       ++ [("Content-type", SimpleHTTPRequestHandler.guess_type W file);
           ("Content-Length", str (len content));
           ("Last-Modified", formatdate W st_mtime)]
       ++ cors_headers)
      "".
Proof.
  intros file Hwf Hv Hdir Hslash Hopen Hmtime Hcond.
  set (h := parsed W request "HEAD" target version hs).
  assert (E : SimpleHTTPRequestHandler.send_head W CORSRequestHandler.end_headers h
              = SimpleHTTPRequestHandler.send_head_file W CORSRequestHandler.end_headers
                  file (touched file h))
    by (apply send_head_not_dir; exact Hdir).
  rewrite (send_head_file_opened W file (touched file h) content st_mtime
             Hslash Hopen Hmtime Hcond) in E.
  destruct (reply_of_send_head W request "HEAD" target version hs _ _ Hwf
              (or_intror eq_refl) E) as (R & Y & _).
  split; [exact R|]. rewrite Y. cbn [String.eqb Ascii.eqb Bool.eqb].
  rewrite decorated_reply; [now rewrite <- app_assoc | now apply http09_parsed |
                            split; reflexivity].
Qed.

Lemma head_file_reply_witness :
  well_formed Example.world (Example.bare "HEAD /app.js HTTP/1.1")
              "HEAD" "/app.js" "HTTP/1.1" [] /\
  open_rb Example.world "/srv/site/app.js" = Opened Example.app_js 1600000000 /\
  fromtimestamp_raises Example.world 1600000000 = None /\
  SimpleHTTPRequestHandler.not_modified Example.world [] 1600000000 = Ret false /\
  reply Example.world (Example.bare "HEAD /app.js HTTP/1.1")
  = response 200 "OK"
      (standard_headers Example.world
       ++ [("Content-type", "text/javascript");
           ("Content-Length", "25");
           ("Last-Modified", "Sun, 13 Sep 2020 12:26:40 GMT")]
       ++ cors_headers)
      "".
Proof.
  assert (Hwf : well_formed Example.world (Example.bare "HEAD /app.js HTTP/1.1")
                            "HEAD" "/app.js" "HTTP/1.1" []).
  { repeat split; try (vm_compute; congruence).
    exists (1, 1), "1.1". split; reflexivity. }
  split; [exact Hwf|]. split; [reflexivity|]. split; [reflexivity|].
  split; [reflexivity|].
  exact (proj2
    (head_file_reply Example.world (Example.bare "HEAD /app.js HTTP/1.1")
       "/app.js" "HTTP/1.1" [] Example.app_js 1600000000
       Hwf ltac:(discriminate) ltac:(reflexivity) ltac:(reflexivity)
       ltac:(reflexivity) ltac:(reflexivity) ltac:(reflexivity))).
Defined.

(** X11.  HEAD for a path that does not exist is answered with status 404,
    the headers of the error page -- its Content-Type and its
    Content-Length -- and the five cross-origin headers, but without the
    page itself. *)
Theorem head_missing_reply (W : World) (request target version : string)
        (hs : list (string * string)) :
  let file := SimpleHTTPRequestHandler.translate_path W (os_getcwd W) (stored_path target) in
  well_formed W request "HEAD" target version hs ->
  version <> "HTTP/0.9" ->
  os_path_isdir W file = false ->
  endswith file "/" = false ->
  open_rb W file = OpenOSError ->
  fst (served W request) = Ret tt /\
  reply W request
  = response 404 "File not found"
      (standard_headers W
       ++ [("Connection", "close");
           ("Content-Type", "text/html;charset=utf-8");
           ("Content-Length",
            str (len (error_body W 404 (Some "File not found") None)))]
       ++ cors_headers)
      "".
Proof.
  intros file Hwf Hv Hdir Hslash Hopen.
  set (h := parsed W request "HEAD" target version hs).
  assert (E : SimpleHTTPRequestHandler.send_head W CORSRequestHandler.end_headers h
              = SimpleHTTPRequestHandler.send_head_file W CORSRequestHandler.end_headers
                  file (touched file h))
    by (apply send_head_not_dir; exact Hdir).
  rewrite (send_head_file_missing W file (touched file h) Hslash Hopen) in E.
  destruct (reply_of_send_head W request "HEAD" target version hs _ _ Hwf
              (or_intror eq_refl) E) as (R & Y & _).
  split; [exact R|]. rewrite Y. cbn [String.eqb Ascii.eqb Bool.eqb].
  rewrite append_nil_r, wfile_after_send_error;
    [reflexivity | now apply http09_parsed | split; reflexivity].
Qed.

Lemma head_missing_reply_witness :
  well_formed Example.world (Example.bare "HEAD /missing.txt HTTP/1.1")
              "HEAD" "/missing.txt" "HTTP/1.1" [] /\
  endswith (reply Example.world (Example.bare "HEAD /missing.txt HTTP/1.1"))
           ("Content-Length: 335" ++ CRLF
            ++ "Access-Control-Allow-Origin: *" ++ CRLF
            ++ "Access-Control-Allow-Methods: GET, POST, OPTIONS" ++ CRLF
            ++ "Access-Control-Allow-Headers: Content-Type" ++ CRLF
            ++ "Cross-Origin-Embedder-Policy: require-corp" ++ CRLF
            ++ "Cross-Origin-Opener-Policy: same-origin" ++ CRLF ++ CRLF) = true.
Proof.
  assert (Hwf : well_formed Example.world (Example.bare "HEAD /missing.txt HTTP/1.1")
                            "HEAD" "/missing.txt" "HTTP/1.1" []).
  { repeat split; try (vm_compute; congruence).
    exists (1, 1), "1.1". split; reflexivity. }
  split; [exact Hwf|].
  rewrite (proj2
    (head_missing_reply Example.world (Example.bare "HEAD /missing.txt HTTP/1.1")
       "/missing.txt" "HTTP/1.1" []
       Hwf ltac:(discriminate) ltac:(reflexivity) ltac:(reflexivity) ltac:(reflexivity))).
  vm_compute. reflexivity.
Defined.

(** X12.  A GET or HEAD whose path ends in a slash but is not a directory
    is answered with status 404 even when a file of that name exists: the
    handler asks whether the path is a directory and never opens it. *)
Theorem trailing_slash_on_file_is_404 (W : World) (request cmd target version : string)
        (hs : list (string * string)) :
  let file := SimpleHTTPRequestHandler.translate_path W (os_getcwd W) (stored_path target) in
  well_formed W request cmd target version hs ->
  cmd = "GET" \/ cmd = "HEAD" ->
  version <> "HTTP/0.9" ->
  os_path_isdir W file = false ->
  endswith file "/" = true ->
  fst (served W request) = Ret tt /\
  reply W request
  = response 404 "File not found"
      (standard_headers W
       ++ [("Connection", "close");
           ("Content-Type", "text/html;charset=utf-8");
           ("Content-Length",
            str (len (error_body W 404 (Some "File not found") None)))]
       ++ cors_headers)
      (if (cmd =? "HEAD")%string then ""
       else error_body W 404 (Some "File not found") None) /\
  fs_log (snd (served W request)) = [file].
Proof.
  intros file Hwf Hcmd Hv Hdir Hslash.
  set (h := parsed W request cmd target version hs).
  assert (E : SimpleHTTPRequestHandler.send_head W CORSRequestHandler.end_headers h
              = SimpleHTTPRequestHandler.send_head_file W CORSRequestHandler.end_headers
                  file (touched file h))
    by (apply send_head_not_dir; exact Hdir).
  rewrite (send_head_file_slash W file (touched file h) Hslash) in E.
  destruct (reply_of_send_head W request cmd target version hs _ _ Hwf Hcmd E)
    as (R & Y & F).
  split; [exact R|]. split.
  - rewrite Y. cbn [default].
    replace (if (cmd =? "HEAD")%string then "" else "") with "" by now destruct (cmd =? "HEAD")%string.
    rewrite append_nil_r, wfile_after_send_error;
      [reflexivity | now apply http09_parsed | split; reflexivity].
  - rewrite F. unfold after_send_error. cbv zeta.
    destruct (negb _ && negb _); reflexivity.
Qed.

Lemma trailing_slash_on_file_is_404_witness :
  well_formed Example.world (Example.bare "GET /app.js/ HTTP/1.1")
              "GET" "/app.js/" "HTTP/1.1" [] /\
  startswith (reply Example.world (Example.bare "GET /app.js/ HTTP/1.1"))
             ("HTTP/1.0 404 File not found" ++ CRLF) = true /\
  fs_log (snd (served Example.world (Example.bare "GET /app.js/ HTTP/1.1")))
  = ["/srv/site/app.js/"].
Proof.
  assert (Hwf : well_formed Example.world (Example.bare "GET /app.js/ HTTP/1.1")
                            "GET" "/app.js/" "HTTP/1.1" []).
  { repeat split; try (vm_compute; congruence).
    exists (1, 1), "1.1". split; reflexivity. }
  destruct (trailing_slash_on_file_is_404 Example.world
              (Example.bare "GET /app.js/ HTTP/1.1") "GET" "/app.js/" "HTTP/1.1" []
              Hwf (or_introl eq_refl) ltac:(discriminate) ltac:(reflexivity)
              ltac:(reflexivity)) as (_ & Y & F).
  split; [exact Hwf|]. split; [|exact F]. rewrite Y. reflexivity.
Defined.

(** X13.  A conditional GET or HEAD -- If-Modified-Since without
    If-None-Match, with a date the file has not changed since, the file's
    modification time being one [datetime] takes, between the years 1 and
    9999 -- is answered with status 304, the standard and the five
    cross-origin headers, no Content-Length and no body. *)
Theorem conditional_request_is_304 (W : World) (request cmd target version : string)
        (hs : list (string * string)) (content : string) (st_mtime : Z) :
  let file := SimpleHTTPRequestHandler.translate_path W (os_getcwd W) (stored_path target) in
  well_formed W request cmd target version hs ->
  cmd = "GET" \/ cmd = "HEAD" ->
  version <> "HTTP/0.9" ->
  os_path_isdir W file = false ->
  endswith file "/" = false ->
  open_rb W file = Opened content st_mtime ->
  fromtimestamp_raises W st_mtime = None ->
  SimpleHTTPRequestHandler.not_modified W hs st_mtime = Ret true ->
  fst (served W request) = Ret tt /\
  reply W request
  = response 304 "Not Modified" (standard_headers W ++ cors_headers) "".
Proof.
  intros file Hwf Hcmd Hv Hdir Hslash Hopen _ Hcond.
  set (h := parsed W request cmd target version hs).
  assert (E : SimpleHTTPRequestHandler.send_head W CORSRequestHandler.end_headers h
              = SimpleHTTPRequestHandler.send_head_file W CORSRequestHandler.end_headers
                  file (touched file h))
    by (apply send_head_not_dir; exact Hdir).
  rewrite (send_head_file_not_modified W file (touched file h) content st_mtime
             Hslash Hopen Hcond) in E.
  destruct (reply_of_send_head W request cmd target version hs _ _ Hwf Hcmd E)
    as (R & Y & _).
  split; [exact R|]. rewrite Y. cbn [default].
  replace (if (cmd =? "HEAD")%string then "" else "") with "" by now destruct (cmd =? "HEAD")%string.
  apply decorated_reply; [now apply http09_parsed | split; reflexivity].
Qed.

Lemma conditional_request_is_304_witness :
  well_formed Example.world
    ("HEAD /app.js HTTP/1.1" ++ CRLF
     ++ "If-Modified-Since: Sun, 13 Sep 2020 12:26:40 GMT" ++ CRLF ++ CRLF)
    "HEAD" "/app.js" "HTTP/1.1"
    [("If-Modified-Since", "Sun, 13 Sep 2020 12:26:40 GMT")] /\
  fromtimestamp_raises Example.world 1600000000 = None /\
  SimpleHTTPRequestHandler.not_modified Example.world
    [("If-Modified-Since", "Sun, 13 Sep 2020 12:26:40 GMT")] 1600000000 = Ret true /\
  reply Example.world
    ("HEAD /app.js HTTP/1.1" ++ CRLF
     ++ "If-Modified-Since: Sun, 13 Sep 2020 12:26:40 GMT" ++ CRLF ++ CRLF)
  = response 304 "Not Modified" (standard_headers Example.world ++ cors_headers) "".
Proof.
  assert (Hwf : well_formed Example.world
                  ("HEAD /app.js HTTP/1.1" ++ CRLF
                   ++ "If-Modified-Since: Sun, 13 Sep 2020 12:26:40 GMT" ++ CRLF ++ CRLF)
                  "HEAD" "/app.js" "HTTP/1.1"
                  [("If-Modified-Since", "Sun, 13 Sep 2020 12:26:40 GMT")]).
  { repeat split; try (vm_compute; congruence).
    exists (1, 1), "1.1". split; reflexivity. }
  split; [exact Hwf|]. split; [reflexivity|]. split; [reflexivity|].
  exact (proj2
    (conditional_request_is_304 Example.world _ "HEAD" "/app.js" "HTTP/1.1" _
       Example.app_js 1600000000
       Hwf (or_intror eq_refl) ltac:(discriminate) ltac:(reflexivity) ltac:(reflexivity)
       ltac:(reflexivity) ltac:(reflexivity) ltac:(reflexivity))).
Defined.

(** X14.  A GET or HEAD for a directory whose target [urlsplit] takes
    apart, and whose path lacks the final slash, is answered with status
    301, a Location that is the target with the slash added to its path,
    Content-Length 0, the five cross-origin headers and no body; the
    directory is not listed and no file is opened. *)
Theorem directory_without_slash_redirects (W : World)
        (request cmd target version : string) (hs : list (string * string))
        (parts : SplitResult) :
  let file := SimpleHTTPRequestHandler.translate_path W (os_getcwd W) (stored_path target) in
  well_formed W request cmd target version hs ->
  cmd = "GET" \/ cmd = "HEAD" ->
  version <> "HTTP/0.9" ->
  os_path_isdir W file = true ->
  urlsplit W (stored_path target) = Some parts ->
  endswith (sp_path parts) "/" = false ->
  fst (served W request) = Ret tt /\
  reply W request
  = response 301 "Moved Permanently"
      (standard_headers W
       ++ [("Location",
            urlunsplit W (mkSplit (scheme parts) (netloc parts) (sp_path parts ++ "/")
                                  (query parts) (fragment parts)));
           ("Content-Length", "0")]
       ++ cors_headers)
      "" /\
  fs_log (snd (served W request)) = [file].
Proof.
  intros file Hwf Hcmd Hv Hdir Hparts Hslash.
  set (h := parsed W request cmd target version hs).
  pose proof (send_head_redirect W h parts Hdir Hparts Hslash) as E.
  destruct (reply_of_send_head W request cmd target version hs _ _ Hwf Hcmd E)
    as (R & Y & F).
  split; [exact R|]. split; [|exact F]. rewrite Y. cbn [default].
  replace (if (cmd =? "HEAD")%string then "" else "") with "" by now destruct (cmd =? "HEAD")%string.
  rewrite decorated_reply; [now rewrite <- app_assoc | now apply http09_parsed |
                            split; reflexivity].
Qed.

Lemma directory_without_slash_redirects_witness :
  well_formed Example.world (Example.bare "GET /lib?x=1 HTTP/1.1")
              "GET" "/lib?x=1" "HTTP/1.1" [] /\
  urlsplit Example.world "/lib?x=1" = Some (mkSplit "" "" "/lib" "x=1" "") /\
  reply Example.world (Example.bare "GET /lib?x=1 HTTP/1.1")
  = response 301 "Moved Permanently"
      (standard_headers Example.world
       ++ [("Location", "/lib/?x=1"); ("Content-Length", "0")]
       ++ cors_headers)
      "".
Proof.
  assert (Hwf : well_formed Example.world (Example.bare "GET /lib?x=1 HTTP/1.1")
                            "GET" "/lib?x=1" "HTTP/1.1" []).
  { repeat split; try (vm_compute; congruence).
    exists (1, 1), "1.1". split; reflexivity. }
  split; [exact Hwf|]. split; [reflexivity|].
  exact (proj1 (proj2
    (directory_without_slash_redirects Example.world _ "GET" "/lib?x=1" "HTTP/1.1" []
       (mkSplit "" "" "/lib" "x=1" "")
       Hwf (or_introl eq_refl) ltac:(discriminate) ltac:(reflexivity)
       ltac:(reflexivity) ltac:(reflexivity)))).
Defined.

(** X15.  A GET or HEAD for a directory, with a target [urlsplit] takes
    apart and the final slash, is answered with the directory's
    index.html when that is a file whose modification time lies between
    the years 1 and 9999 and the request is not a conditional one the
    file satisfies: status 200, the type and length of index.html, and
    for GET its bytes.  The directory is not listed. *)
Theorem directory_serves_index_html (W : World) (request cmd target version : string)
        (hs : list (string * string)) (parts : SplitResult)
        (content : string) (st_mtime : Z) :
  let file := SimpleHTTPRequestHandler.translate_path W (os_getcwd W) (stored_path target) in
  let index := posixpath.join file "index.html" in
  well_formed W request cmd target version hs ->
  cmd = "GET" \/ cmd = "HEAD" ->
  version <> "HTTP/0.9" ->
  os_path_isdir W file = true ->
  urlsplit W (stored_path target) = Some parts ->
  endswith (sp_path parts) "/" = true ->
  os_path_isfile W index = true ->
  open_rb W index = Opened content st_mtime ->
  fromtimestamp_raises W st_mtime = None ->
  SimpleHTTPRequestHandler.not_modified W hs st_mtime = Ret false ->
  fst (served W request) = Ret tt /\
  reply W request
  = response 200 "OK"
      (standard_headers W
       ++ [("Content-type", SimpleHTTPRequestHandler.guess_type W index);
           ("Content-Length", str (len content));
           ("Last-Modified", formatdate W st_mtime)]
       ++ cors_headers)
      (if (cmd =? "HEAD")%string then "" else content) /\
  fs_log (snd (served W request)) = [file; index; index].
Proof.
  intros file index Hwf Hcmd Hv Hdir Hparts Hslash Hfile Hopen Hmtime Hcond.
  set (h := parsed W request cmd target version hs).
  assert (E : SimpleHTTPRequestHandler.send_head W CORSRequestHandler.end_headers h
              = SimpleHTTPRequestHandler.send_head_file W CORSRequestHandler.end_headers
                  index (touched index (touched file h)))
    by (apply (send_head_index_html W h parts); assumption).
  assert (Hi : endswith index "/" = false).
  { unfold index, posixpath.join. cbn [startswith String.prefix].
    assert (L : forall s, endswith (s ++ "index.html") "/" = false).
    { induction s as [|a s IH]; [reflexivity|].
      cbn [String.append endswith]. rewrite IH, orb_false_r.
      apply String.eqb_neq. intros Q. injection Q as _ Q. now destruct s. }
    destruct ((file =? "")%string || endswith file "/");
      [apply L | rewrite <- append_assoc; apply L]. }
  rewrite (send_head_file_opened W index (touched index (touched file h)) content st_mtime
             Hi Hopen Hmtime Hcond) in E.
  destruct (reply_of_send_head W request cmd target version hs _ _ Hwf Hcmd E)
    as (R & Y & F).
  split; [exact R|]. split; [|exact F]. rewrite Y. cbn [default].
  rewrite decorated_reply; [now rewrite <- app_assoc | now apply http09_parsed |
                            split; reflexivity].
Qed.

Lemma directory_serves_index_html_witness :
  well_formed Example.world (Example.bare "GET / HTTP/1.1") "GET" "/" "HTTP/1.1" [] /\
  urlsplit Example.world "/" = Some (mkSplit "" "" "/" "" "") /\
  open_rb Example.world "/srv/site/index.html" = Opened Example.index_html 1600000000 /\
  fromtimestamp_raises Example.world 1600000000 = None /\
  reply Example.world (Example.bare "GET / HTTP/1.1")
  = response 200 "OK"
      (standard_headers Example.world
       ++ [("Content-type", "text/html");
           ("Content-Length", "36");
           ("Last-Modified", "Sun, 13 Sep 2020 12:26:40 GMT")]
       ++ cors_headers)
      Example.index_html /\
  fs_log (snd (served Example.world (Example.bare "GET / HTTP/1.1")))
  = ["/srv/site/"; "/srv/site/index.html"; "/srv/site/index.html"].
Proof.
  assert (Hwf : well_formed Example.world (Example.bare "GET / HTTP/1.1")
                            "GET" "/" "HTTP/1.1" []).
  { repeat split; try (vm_compute; congruence).
    exists (1, 1), "1.1". split; reflexivity. }
  split; [exact Hwf|]. split; [reflexivity|]. split; [reflexivity|].
  split; [reflexivity|].
  exact (proj2
    (directory_serves_index_html Example.world _ "GET" "/" "HTTP/1.1" []
       (mkSplit "" "" "/" "" "") Example.index_html 1600000000
       Hwf (or_introl eq_refl) ltac:(discriminate) ltac:(reflexivity) ltac:(reflexivity)
       ltac:(reflexivity) ltac:(reflexivity) ltac:(reflexivity) ltac:(reflexivity)
       ltac:(reflexivity))).
Defined.

(** X16.  A GET or HEAD for a directory, with a target [urlsplit] takes
    apart and the final slash, that has neither index.html nor index.htm
    is answered with the listing of the directory, when the directory can
    be listed and the page encoded: status 200, Content-type text/html in
    the file system encoding, the length of the page, and for GET the
    page. *)
Theorem directory_without_index_is_listed (W : World)
        (request cmd target version : string) (hs : list (string * string))
        (parts : SplitResult) (encoded : string) :
  let file := SimpleHTTPRequestHandler.translate_path W (os_getcwd W) (stored_path target) in
  well_formed W request cmd target version hs ->
  cmd = "GET" \/ cmd = "HEAD" ->
  version <> "HTTP/0.9" ->
  os_path_isdir W file = true ->
  urlsplit W (stored_path target) = Some parts ->
  endswith (sp_path parts) "/" = true ->
  os_path_isfile W (posixpath.join file "index.html") = false ->
  os_path_isfile W (posixpath.join file "index.htm") = false ->
  listing W file (stored_path target) = Listed encoded ->
  fst (served W request) = Ret tt /\
  reply W request
  = response 200 "OK"
      (standard_headers W
       ++ [("Content-type", "text/html; charset=" ++ getfilesystemencoding W);
           ("Content-Length", str (len encoded))]
       ++ cors_headers)
      (if (cmd =? "HEAD")%string then "" else encoded).
Proof.
  intros file Hwf Hcmd Hv Hdir Hparts Hslash Hhtml Hhtm Hlist.
  set (h := parsed W request cmd target version hs).
  pose proof (send_head_listing W h parts encoded Hdir Hparts Hslash Hhtml Hhtm Hlist) as E.
  destruct (reply_of_send_head W request cmd target version hs _ _ Hwf Hcmd E)
    as (R & Y & _).
  split; [exact R|]. rewrite Y. cbn [default].
  rewrite decorated_reply; [now rewrite <- app_assoc | now apply http09_parsed |
                            split; reflexivity].
Qed.

Lemma directory_without_index_is_listed_witness :
  well_formed Example.world (Example.bare "GET /lib/ HTTP/1.1")
              "GET" "/lib/" "HTTP/1.1" [] /\
  urlsplit Example.world "/lib/" = Some (mkSplit "" "" "/lib/" "" "") /\
  listing Example.world "/srv/site/lib/" "/lib/"
  = Listed "<title>Directory listing for /lib/</title>" /\
  reply Example.world (Example.bare "GET /lib/ HTTP/1.1")
  = response 200 "OK"
      (standard_headers Example.world
       ++ [("Content-type", "text/html; charset=utf-8"); ("Content-Length", "42")]
       ++ cors_headers)
      "<title>Directory listing for /lib/</title>".
Proof.
  assert (Hwf : well_formed Example.world (Example.bare "GET /lib/ HTTP/1.1")
                            "GET" "/lib/" "HTTP/1.1" []).
  { repeat split; try (vm_compute; congruence).
    exists (1, 1), "1.1". split; reflexivity. }
  split; [exact Hwf|]. split; [reflexivity|]. split; [reflexivity|].
  exact (proj2
    (directory_without_index_is_listed Example.world _ "GET" "/lib/" "HTTP/1.1" []
       (mkSplit "" "" "/lib/" "" "") "<title>Directory listing for /lib/</title>"
       Hwf (or_introl eq_refl) ltac:(discriminate) ltac:(reflexivity) ltac:(reflexivity)
       ltac:(reflexivity) ltac:(reflexivity) ltac:(reflexivity) ltac:(reflexivity))).
Defined.

(** ** Requests that reach no [do_] method *)

(** X17.  A well-formed request with any method other than GET, HEAD and
    OPTIONS -- POST among them, which Access-Control-Allow-Methods
    names -- is answered with status 501 and the error page, with the five
    cross-origin headers; no file system call is made. *)
Theorem unsupported_method_is_501 (W : World) (request cmd target version : string)
        (hs : list (string * string)) :
  well_formed W request cmd target version hs ->
  version <> "HTTP/0.9" ->
  cmd <> "GET" -> cmd <> "HEAD" -> cmd <> "OPTIONS" ->
  fst (served W request) = Ret tt /\
  reply W request
  = response 501 ("Unsupported method (" ++ repr W cmd ++ ")")
      (standard_headers W
       ++ [("Connection", "close");
           ("Content-Type", "text/html;charset=utf-8");
           ("Content-Length",
            str (len (error_body W 501
                        (Some ("Unsupported method (" ++ repr W cmd ++ ")")) None)))]
       ++ cors_headers)
      (error_body W 501 (Some ("Unsupported method (" ++ repr W cmd ++ ")")) None) /\
  fs_log (snd (served W request)) = [].
Proof.
  intros Hwf Hv Hg Hh Ho. unfold reply.
  rewrite (served_dispatch W request cmd target version hs Hwf).
  unfold CORSRequestHandler.getattr_do.
  apply String.eqb_neq in Hg, Hh, Ho. rewrite Hg, Hh, Ho.
  rewrite send_error_run by reflexivity. cbn [fst snd].
  split; [reflexivity|]. split.
  - rewrite wfile_after_send_error; [|now apply http09_parsed|split; reflexivity].
    unfold is_head, parsed. proj. now rewrite Hh.
  - unfold after_send_error. cbv zeta. destruct (negb _ && negb _); reflexivity.
Qed.

Lemma unsupported_method_is_501_witness :
  well_formed Example.world
    ("POST /api HTTP/1.1" ++ CRLF ++ "Content-Type: application/json" ++ CRLF ++ CRLF)
    "POST" "/api" "HTTP/1.1" [("Content-Type", "application/json")] /\
  startswith
    (reply Example.world
       ("POST /api HTTP/1.1" ++ CRLF ++ "Content-Type: application/json" ++ CRLF ++ CRLF))
    ("HTTP/1.0 501 Unsupported method ('POST')" ++ CRLF) = true /\
  infix ("Access-Control-Allow-Methods: GET, POST, OPTIONS" ++ CRLF)
    (reply Example.world
       ("POST /api HTTP/1.1" ++ CRLF ++ "Content-Type: application/json" ++ CRLF ++ CRLF))
  = true.
Proof.
  assert (Hwf : well_formed Example.world
                  ("POST /api HTTP/1.1" ++ CRLF ++ "Content-Type: application/json"
                   ++ CRLF ++ CRLF)
                  "POST" "/api" "HTTP/1.1" [("Content-Type", "application/json")]).
  { repeat split; try (vm_compute; congruence).
    exists (1, 1), "1.1". split; reflexivity. }
  split; [exact Hwf|].
  destruct (unsupported_method_is_501 Example.world _ "POST" "/api" "HTTP/1.1" _
              Hwf ltac:(discriminate) ltac:(discriminate) ltac:(discriminate)
              ltac:(discriminate)) as (_ & Y & _).
  rewrite Y. split; vm_compute; reflexivity.
Defined.

(** X18.  A GET or HEAD whose path the operating system refuses -- [open]
    raises [ValueError], as for a name with a NUL byte -- makes the
    handler raise that exception: nothing at all is sent on the
    connection, neither an error page nor a header. *)
Theorem refused_path_raises (W : World) (request cmd target version : string)
        (hs : list (string * string)) :
  let file := SimpleHTTPRequestHandler.translate_path W (os_getcwd W) (stored_path target) in
  well_formed W request cmd target version hs ->
  cmd = "GET" \/ cmd = "HEAD" ->
  os_path_isdir W file = false ->
  endswith file "/" = false ->
  open_rb W file = OpenValueError ->
  fst (served W request) = Raise ValueError /\
  reply W request = "" /\
  fs_log (snd (served W request)) = [file; file].
Proof.
  intros file Hwf Hcmd Hdir Hslash Hopen.
  set (h := parsed W request cmd target version hs).
  assert (E : SimpleHTTPRequestHandler.send_head W CORSRequestHandler.end_headers h
              = (Raise ValueError, touched file (touched file h))).
  { rewrite <- (send_head_file_refused W file (touched file h) Hslash Hopen).
    apply send_head_not_dir. exact Hdir. }
  unfold reply. rewrite (served_dispatch W request cmd target version hs Hwf).
  destruct Hcmd as [-> | ->].
  - rewrite getattr_GET. cbv iota beta.
    unfold CORSRequestHandler.do_GET, SimpleHTTPRequestHandler.do_GET.
    rewrite (bind_raise _ _ _ _ _ E). repeat split.
  - change (CORSRequestHandler.getattr_do W "HEAD") with (Some (CORSRequestHandler.do_HEAD W)).
    cbv iota beta.
    unfold CORSRequestHandler.do_HEAD, SimpleHTTPRequestHandler.do_HEAD.
    rewrite (bind_raise _ _ _ _ _ E). repeat split.
Qed.

Lemma refused_path_raises_witness :
  well_formed Example.world (Example.bare ("GET /a" ++ String Example.NUL "b HTTP/1.1"))
              "GET" ("/a" ++ String Example.NUL "b") "HTTP/1.1" [] /\
  fst (served Example.world (Example.bare ("GET /a" ++ String Example.NUL "b HTTP/1.1")))
  = Raise ValueError.
Proof.
  assert (Hwf : well_formed Example.world
                  (Example.bare ("GET /a" ++ String Example.NUL "b HTTP/1.1"))
                  "GET" ("/a" ++ String Example.NUL "b") "HTTP/1.1" []).
  { repeat split; try (vm_compute; congruence).
    exists (1, 1), "1.1". split; reflexivity. }
  split; [exact Hwf|].
  exact (proj1
    (refused_path_raises Example.world _ "GET" ("/a" ++ String Example.NUL "b")
       "HTTP/1.1" [] Hwf (or_introl eq_refl) ltac:(reflexivity) ltac:(reflexivity)
       ltac:(reflexivity))).
Defined.

(** ** Request lines that [parse_request] does not accept *)

Lemma served_first_line W request :
  served W request
  = bind (modify (set_raw_requestline (fst (readline_from 65537 request))))
      (fun _ =>
         if 65536 <? len (fst (readline_from 65537 request)) then
           modify (set_requestline "") ;;
           modify (set_request_version "") ;;
           modify (set_command (Some "")) ;;
           CORSRequestHandler.send_error W REQUEST_URI_TOO_LONG None None
         else if (fst (readline_from 65537 request) =? "")%string
         then modify (set_close_connection true)
         else
           ok <- CORSRequestHandler.parse_request W ;;
           if negb ok then ret tt
           else
             c <- get command ;;
             match CORSRequestHandler.getattr_do W (default "" c) with
             | None =>
                 CORSRequestHandler.send_error W NOT_IMPLEMENTED
                   (Some ("Unsupported method (" ++ repr W (default "" c) ++ ")")) None
             | Some method => method
             end)
      (set_rfile (snd (readline_from 65537 request))
         (set_close_connection true (CORSRequestHandler.new W request))).
Proof.
  rewrite served_once.
  unfold CORSRequestHandler.handle_one_request, handle_one_request.
  fold (CORSRequestHandler.send_error W) (CORSRequestHandler.parse_request W).
  rewrite (bind_run _ _ _ (fst (readline_from 65537 request))
             (set_rfile (snd (readline_from 65537 request))
                (set_close_connection true (CORSRequestHandler.new W request)))).
  2:{ unfold readline. proj. now destruct (readline_from 65537 request). }
  reflexivity.
Qed.

(** X19.  A connection that delivers no request line -- nothing at all, or
    a first line of white space only -- gets no reply: the handler returns
    normally, sends nothing, logs nothing and makes no file system call. *)
Theorem blank_request_line_gets_no_reply (W : World) (request : string) :
  split_ws (rstrip is_crlf (fst (readline_from 65537 request))) = [] ->
  len (fst (readline_from 65537 request)) <= 65536 ->
  fst (served W request) = Ret tt /\
  reply W request = "" /\
  stderr (snd (served W request)) = [] /\
  fs_log (snd (served W request)) = [].
Proof.
  intros Hwords Hlen. unfold reply. rewrite served_first_line. exec.
  replace (65536 <? len (fst (readline_from 65537 request))) with false
    by (symmetry; apply Z.ltb_ge; exact Hlen).
  destruct (fst (readline_from 65537 request) =? "")%string.
  - exec. repeat split.
  - unfold CORSRequestHandler.parse_request, parse_request.
    fold (CORSRequestHandler.send_error W).
    exec. proj. rewrite Hwords. cbn [Datatypes.length Nat.eqb]. exec.
    cbn [negb]. exec. repeat split.
Qed.

Lemma blank_request_line_gets_no_reply_witness :
  split_ws (rstrip is_crlf (fst (readline_from 65537 (CRLF ++ "GET /app.js HTTP/1.1" ++ CRLF))))
  = [] /\
  reply Example.world (CRLF ++ "GET /app.js HTTP/1.1" ++ CRLF) = "" /\
  reply Example.world "" = "".
Proof.
  split; [reflexivity|]. split.
  - exact (proj1 (proj2 (blank_request_line_gets_no_reply Example.world
                           (CRLF ++ "GET /app.js HTTP/1.1" ++ CRLF)
                           eq_refl ltac:(vm_compute; discriminate)))).
  - exact (proj1 (proj2 (blank_request_line_gets_no_reply Example.world ""
                           eq_refl ltac:(vm_compute; discriminate)))).
Defined.

(** X20.  A request line of more than 65536 bytes is answered with status
    414 and the error page, with the five cross-origin headers: the
    handler gives up the line before it parses it, and makes no file
    system call. *)
Theorem long_request_line_is_414 (W : World) (request : string) :
  65536 < len (fst (readline_from 65537 request)) ->
  fst (served W request) = Ret tt /\
  reply W request
  = response 414 "Request-URI Too Long"
      (standard_headers W
       ++ [("Connection", "close");
           ("Content-Type", "text/html;charset=utf-8");
           ("Content-Length", str (len (error_body W 414 None None)))]
       ++ cors_headers)
      (error_body W 414 None None) /\
  fs_log (snd (served W request)) = [].
Proof.
  intros Hlen. unfold reply. rewrite served_first_line. exec.
  replace (65536 <? len (fst (readline_from 65537 request))) with true
    by (symmetry; apply Z.ltb_lt; exact Hlen).
  exec. cbn [fst snd]. split; [reflexivity|]. split.
  - rewrite wfile_after_send_error; [reflexivity | reflexivity | split; reflexivity].
  - unfold after_send_error. cbv zeta. destruct (negb _ && negb _); reflexivity.
Qed.

Lemma long_request_line_is_414_witness :
  65536 < len (fst (readline_from 65537 (string_of_list_ascii (repeat "a"%char (Z.to_nat 65537))))) /\
  startswith (reply Example.world (string_of_list_ascii (repeat "a"%char (Z.to_nat 65537))))
             ("HTTP/1.0 414 Request-URI Too Long" ++ CRLF) = true.
Proof.
  assert (H : 65536
              < len (fst (readline_from 65537
                            (string_of_list_ascii (repeat "a"%char (Z.to_nat 65537))))))
    by (vm_compute; reflexivity).
  split; [exact H|].
  rewrite (proj1 (proj2 (long_request_line_is_414 Example.world _ H))). reflexivity.
Defined.

Lemma wfile_after_send_error_bare W code message explain h :
  http09 h = true -> wfile h = "" -> is_head h = false ->
  wfile (after_send_error W code message explain h)
  = error_body W code message explain.
Proof.
  intros Hv Hw Hh.
  unfold after_send_error, decorated, emit, wrote, logged, is_head, http09 in *.
  cbn -[error_body] in *.
  repeat first [rewrite Hv | rewrite Hh | rewrite Hw | progress (cbn -[error_body])].
  destruct (error_body W code message explain =? "")%string eqn:E;
    repeat first [rewrite Hv | rewrite Hw | progress (cbn -[error_body])];
    [apply String.eqb_eq in E; now rewrite E | reflexivity].
Qed.

(** X21.  A request line of three or more words whose last word reads
    HTTP/x.y with (x, y) at or above (2, 0) is refused with the page of
    error 505, and the page is sent bare: the handler still holds the
    request version HTTP/0.9, so neither the status line nor any header,
    the five cross-origin ones included, goes out.  No file system call is
    made. *)
Theorem http2_request_line_is_refused (W : World) (request : string)
        (words : list string) (vn : Z * Z) (base : string) :
  len (fst (readline_from 65537 request)) <= 65536 ->
  split_ws (rstrip is_crlf (fst (readline_from 65537 request))) = words ->
  (3 <= length words)%nat ->
  parse_version W (last words "") = Some (vn, base) ->
  tuple_ge vn 2 0 = true ->
  fst (served W request) = Ret tt /\
  reply W request
  = error_body W 505 (Some ("Invalid HTTP version (" ++ base ++ ")")) None /\
  request_version (snd (served W request)) = "HTTP/0.9" /\
  fs_log (snd (served W request)) = [].
Proof.
  intros Hlen Hwords H3 Hv Hge. unfold reply. rewrite served_first_line. exec.
  replace (65536 <? len (fst (readline_from 65537 request))) with false
    by (symmetry; apply Z.ltb_ge; exact Hlen).
  destruct (fst (readline_from 65537 request) =? "")%string eqn:En.
  { apply String.eqb_eq in En. rewrite En in Hwords. subst words. cbn in H3. lia. }
  unfold CORSRequestHandler.parse_request, parse_request.
  fold (CORSRequestHandler.send_error W).
  rewrite !protocol_below_1_1.
  exec. proj. rewrite Hwords.
  destruct words as [|w1 [|w2 [|w3 ws]]]; cbn [Datatypes.length] in H3; try lia.
  cbn [Datatypes.length Nat.eqb Nat.leb]. rewrite Hv. rewrite andb_false_r. exec.
  rewrite Hge. exec. cbn [negb]. exec. cbn [fst snd].
  split; [reflexivity|]. split; [|split].
  - rewrite wfile_after_send_error_bare; reflexivity.
  - unfold after_send_error. cbv zeta. destruct (negb _ && negb _); reflexivity.
  - unfold after_send_error. cbv zeta. destruct (negb _ && negb _); reflexivity.
Qed.

Lemma http2_request_line_is_refused_witness :
  split_ws (rstrip is_crlf (fst (readline_from 65537 (Example.bare "GET /app.js HTTP/2.0"))))
  = ["GET"; "/app.js"; "HTTP/2.0"] /\
  startswith (reply Example.world (Example.bare "GET /app.js HTTP/2.0")) "<!DOCTYPE HTML>"
  = true /\
  infix "Error code: 505" (reply Example.world (Example.bare "GET /app.js HTTP/2.0")) = true.
Proof.
  split; [reflexivity|].
  rewrite (proj1 (proj2
    (http2_request_line_is_refused Example.world (Example.bare "GET /app.js HTTP/2.0")
       ["GET"; "/app.js"; "HTTP/2.0"] (2, 0) "2.0"
       ltac:(vm_compute; discriminate) eq_refl ltac:(cbn; lia) eq_refl eq_refl))).
  split; vm_compute; reflexivity.
Defined.

(** ** Requests without a version *)

Lemma parse_request_simple W request target hs :
  split_ws (rstrip is_crlf (fst (readline_from 65537 request))) = ["GET"; target] ->
  fst (parse_headers W (snd (readline_from 65537 request))) = Parsed hs ->
  CORSRequestHandler.parse_request W
    (set_raw_requestline (fst (readline_from 65537 request))
       (set_rfile (snd (readline_from 65537 request))
          (set_close_connection true (CORSRequestHandler.new W request))))
  = (Ret true, parsed W request "GET" target "HTTP/0.9" hs).
Proof.
  intros Hwords Hhs.
  unfold CORSRequestHandler.parse_request, parse_request.
  fold (CORSRequestHandler.send_error W).
  rewrite !protocol_below_1_1.
  exec. proj.
  rewrite Hwords. cbn [Datatypes.length Nat.eqb Nat.leb negb andb]. exec.
  cbn [negb String.eqb Ascii.eqb Bool.eqb andb]. exec.
  destruct (parse_headers W (snd (readline_from 65537 request))) as [section rest'] eqn:E.
  cbn [fst] in Hhs. subst section.
  unfold parsed, stored_path. rewrite E. cbn [snd].
  destruct (startswith target "//"); cbn [negb]; exec; proj; rewrite E; exec;
    rewrite !andb_false_r; cbn [negb andb];
    destruct (lower (headers_get hs "Connection" "") =? "close")%string; exec;
    reflexivity.
Qed.

Lemma wfile_decorated_bare lines h :
  http09 h = true -> wfile (decorated (emit lines h)) = wfile h.
Proof.
  intros Hv. unfold decorated, emit, http09 in *.
  repeat first [rewrite Hv | progress proj]. reflexivity.
Qed.

(** X22.  A request line of the two words GET and a target, without a
    version, is served as HTTP/0.9: when the target translates to a file
    that opens, whose modification time lies between the years 1 and 9999
    and that no condition of the request keeps back, the reply is the
    bytes of the file and nothing else -- no status line, no header, none
    of the five cross-origin headers. *)
Theorem simple_request_gets_the_file_alone (W : World) (request target : string)
        (hs : list (string * string)) (content : string) (st_mtime : Z) :
  let file := SimpleHTTPRequestHandler.translate_path W (os_getcwd W) (stored_path target) in
  len (fst (readline_from 65537 request)) <= 65536 ->
  split_ws (rstrip is_crlf (fst (readline_from 65537 request))) = ["GET"; target] ->
  fst (parse_headers W (snd (readline_from 65537 request))) = Parsed hs ->
  os_path_isdir W file = false ->
  endswith file "/" = false ->
  open_rb W file = Opened content st_mtime ->
  fromtimestamp_raises W st_mtime = None ->
  SimpleHTTPRequestHandler.not_modified W hs st_mtime = Ret false ->
  fst (served W request) = Ret tt /\
  reply W request = content.
Proof.
  intros file Hlen Hwords Hhs Hdir Hslash Hopen Hmtime Hcond.
  set (h := parsed W request "GET" target "HTTP/0.9" hs).
  assert (D : served W request = CORSRequestHandler.do_GET W h).
  { rewrite served_first_line. exec.
    replace (65536 <? len (fst (readline_from 65537 request))) with false
      by (symmetry; apply Z.ltb_ge; exact Hlen).
    destruct (fst (readline_from 65537 request) =? "")%string eqn:En.
    { apply String.eqb_eq in En. rewrite En in Hwords. discriminate Hwords. }
    rewrite (bind_run _ _ _ _ _ (parse_request_simple W request target hs Hwords Hhs)).
    reflexivity. }
  assert (E : SimpleHTTPRequestHandler.send_head W CORSRequestHandler.end_headers h
              = SimpleHTTPRequestHandler.send_head_file W CORSRequestHandler.end_headers
                  file (touched file h))
    by (apply send_head_not_dir; exact Hdir).
  rewrite (send_head_file_opened W file (touched file h) content st_mtime
             Hslash Hopen Hmtime Hcond) in E.
  unfold reply. rewrite D.
  unfold CORSRequestHandler.do_GET, SimpleHTTPRequestHandler.do_GET.
  rewrite (bind_run _ _ _ _ _ E). exec. cbn [fst snd].
  split; [reflexivity|]. unfold wrote. proj.
  rewrite wfile_decorated_bare by reflexivity. reflexivity.
Qed.

Lemma simple_request_gets_the_file_alone_witness :
  split_ws (rstrip is_crlf (fst (readline_from 65537 ("GET /index.html" ++ CRLF))))
  = ["GET"; "/index.html"] /\
  open_rb Example.world "/srv/site/index.html" = Opened Example.index_html 1600000000 /\
  fromtimestamp_raises Example.world 1600000000 = None /\
  reply Example.world ("GET /index.html" ++ CRLF) = Example.index_html.
Proof.
  split; [reflexivity|]. split; [reflexivity|]. split; [reflexivity|].
  exact (proj2
    (simple_request_gets_the_file_alone Example.world ("GET /index.html" ++ CRLF)
       "/index.html" [] Example.index_html 1600000000
       ltac:(vm_compute; discriminate) eq_refl eq_refl eq_refl eq_refl eq_refl eq_refl
       eq_refl)).
Defined.

(** ** HEAD and GET *)

Lemma response_body code message hs body :
  response code message hs body = response code message hs "" ++ body.
Proof. unfold response. now rewrite !append_assoc. Qed.

Lemma list_directory_listed W file h encoded :
  listing W file (path h) = Listed encoded ->
  SimpleHTTPRequestHandler.list_directory W CORSRequestHandler.end_headers file h
  = (Ret (Some encoded),
     decorated
       (emit (status_line 200 "OK"
              :: map header_line
                   (standard_headers W
                    ++ [("Content-type", "text/html; charset=" ++ getfilesystemencoding W);
                        ("Content-Length", str (len encoded))]))
          (logged (request_log 200 h) (touched file h)))).
Proof.
  intros Hlist. unfold SimpleHTTPRequestHandler.list_directory. exec.
  cbn [path touched set_fs_log]. rewrite Hlist. exec. rewrite !emit_emit. reflexivity.
Qed.

Lemma list_directory_denied W file h :
  listing W file (path h) = ListdirOSError ->
  SimpleHTTPRequestHandler.list_directory W CORSRequestHandler.end_headers file h
  = (Ret None,
     after_send_error W NOT_FOUND (Some "No permission to list directory") None
       (touched file h)).
Proof.
  intros Hlist. unfold SimpleHTTPRequestHandler.list_directory.
  fold (CORSRequestHandler.send_error W). exec.
  cbn [path touched set_fs_log]. rewrite Hlist. exec. reflexivity.
Qed.

Lemma list_directory_unencodable W file h :
  listing W file (path h) = EncodeError ->
  SimpleHTTPRequestHandler.list_directory W CORSRequestHandler.end_headers file h
  = (Raise ValueError, touched file h).
Proof.
  intros Hlist. unfold SimpleHTTPRequestHandler.list_directory. exec.
  cbn [path touched set_fs_log]. rewrite Hlist. reflexivity.
Qed.

Lemma send_head_unsplit W h :
  let file := SimpleHTTPRequestHandler.translate_path W (directory h) (path h) in
  os_path_isdir W file = true ->
  urlsplit W (path h) = None ->
  SimpleHTTPRequestHandler.send_head W CORSRequestHandler.end_headers h
  = (Raise ValueError, touched file h).
Proof.
  intros file Hdir Hparts. unfold SimpleHTTPRequestHandler.send_head.
  exec. fold file. rewrite Hdir, Hparts. reflexivity.
Qed.

(** When the file's modification time makes the comparison of the dates
    or the formatting of Last-Modified raise, [send_head_file] raises and
    nothing is sent. *)
Lemma send_head_file_cond_raises W file h content st_mtime e :
  endswith file "/" = false ->
  open_rb W file = Opened content st_mtime ->
  SimpleHTTPRequestHandler.not_modified W (headers h) st_mtime = Raise e ->
  SimpleHTTPRequestHandler.send_head_file W CORSRequestHandler.end_headers file h
  = (Raise e, touched file h).
Proof.
  intros Hslash Hopen Hcond.
  unfold SimpleHTTPRequestHandler.send_head_file. rewrite Hslash, Hopen.
  exec. cbn [headers touched set_fs_log]. rewrite Hcond. reflexivity.
Qed.

Lemma send_head_file_date_raises W file h content st_mtime e :
  endswith file "/" = false ->
  open_rb W file = Opened content st_mtime ->
  SimpleHTTPRequestHandler.not_modified W (headers h) st_mtime = Ret false ->
  fromtimestamp_raises W st_mtime = Some e ->
  fst (SimpleHTTPRequestHandler.send_head_file W CORSRequestHandler.end_headers file h)
  = Raise e /\
  wfile (snd (SimpleHTTPRequestHandler.send_head_file W CORSRequestHandler.end_headers
                file h))
  = wfile h.
Proof.
  intros Hslash Hopen Hcond Hmtime.
  unfold SimpleHTTPRequestHandler.send_head_file. rewrite Hslash, Hopen.
  exec. cbn [headers touched set_fs_log]. rewrite Hcond. exec.
  unfold date_time_string. rewrite Hmtime. rewrite bind_lift_raise.
  split; reflexivity.
Qed.

Lemma send_head_dir W h parts :
  let file := SimpleHTTPRequestHandler.translate_path W (directory h) (path h) in
  let index := posixpath.join file "index.html" in
  let index' := posixpath.join file "index.htm" in
  os_path_isdir W file = true ->
  urlsplit W (path h) = Some parts ->
  endswith (sp_path parts) "/" = true ->
  SimpleHTTPRequestHandler.send_head W CORSRequestHandler.end_headers h
  = if os_path_isfile W index then
      SimpleHTTPRequestHandler.send_head_file W CORSRequestHandler.end_headers index
        (touched index (touched file h))
    else if os_path_isfile W index' then
      SimpleHTTPRequestHandler.send_head_file W CORSRequestHandler.end_headers index'
        (touched index' (touched index (touched file h)))
    else
      SimpleHTTPRequestHandler.list_directory W CORSRequestHandler.end_headers file
        (touched index' (touched index (touched file h))).
Proof.
  intros file index index' Hdir Hparts Hslash. unfold SimpleHTTPRequestHandler.send_head.
  exec. fold file. rewrite Hdir, Hparts, Hslash. cbn [negb]. exec. fold index.
  destruct (os_path_isfile W index); [reflexivity|]. exec. fold index'.
  now destruct (os_path_isfile W index').
Qed.

Lemma Quiet_touched file h : Quiet h -> Quiet (touched file h).
Proof. intros [Hw Hb]. split; assumption. Qed.

(** What [send_head_file] sends depends on the handler through the request
    headers and through the method only: a header block [head], then
    [page] unless the request is HEAD. *)
Lemma send_head_file_shape W file hs :
  exists out head page,
    (forall content, out = Ret (Some content) -> page = "") /\
    forall h, Quiet h -> http09 h = false -> headers h = hs ->
      fst (SimpleHTTPRequestHandler.send_head_file W CORSRequestHandler.end_headers file h)
      = out /\
      wfile (snd (SimpleHTTPRequestHandler.send_head_file W CORSRequestHandler.end_headers
                    file h))
      = head ++ (if is_head h then "" else page).
Proof.
  destruct (endswith file "/") eqn:Hslash.
  { eexists (Ret None), _, _. split; [discriminate|]. intros h Hq Hv Hh.
    rewrite (send_head_file_slash W file h Hslash). cbn [fst snd].
    split; [reflexivity|].
    rewrite wfile_after_send_error by assumption. rewrite response_body.
    destruct (is_head h); [now rewrite !append_nil_r | reflexivity]. }
  destruct (open_rb W file) as [content st_mtime| |] eqn:Hopen.
  - destruct (SimpleHTTPRequestHandler.not_modified W hs st_mtime) as [[|]|e] eqn:Hcond.
    + eexists (Ret None), _, "". split; [reflexivity|]. intros h Hq Hv Hh.
      rewrite <- Hh in Hcond.
      rewrite (send_head_file_not_modified W file h content st_mtime Hslash Hopen Hcond).
      cbn [fst snd]. split; [reflexivity|].
      rewrite wfile_decorated; [|exact Hv|now apply Quiet_touched].
      destruct (is_head h); now rewrite append_nil_r.
    + destruct (fromtimestamp_raises W st_mtime) as [e|] eqn:Hmtime.
      * exists (Raise e), "", "". split; [discriminate|]. intros h Hq Hv Hh.
        rewrite <- Hh in Hcond.
        destruct (send_head_file_date_raises W file h content st_mtime e
                    Hslash Hopen Hcond Hmtime) as [F Y].
        split; [exact F|].
        rewrite Y. destruct Hq as [Hw _]. rewrite Hw. now destruct (is_head h).
      * eexists (Ret (Some content)), _, "". split; [reflexivity|]. intros h Hq Hv Hh.
        rewrite <- Hh in Hcond.
        rewrite (send_head_file_opened W file h content st_mtime Hslash Hopen Hmtime Hcond).
        cbn [fst snd]. split; [reflexivity|].
        rewrite wfile_decorated; [|exact Hv|now apply Quiet_touched].
        destruct (is_head h); now rewrite append_nil_r.
    + exists (Raise e), "", "". split; [discriminate|]. intros h Hq Hv Hh.
      rewrite <- Hh in Hcond.
      rewrite (send_head_file_cond_raises W file h content st_mtime e Hslash Hopen Hcond).
      cbn [fst snd]. split; [reflexivity|]. destruct Hq as [Hw _]. cbn. rewrite Hw.
      now destruct (is_head h).
  - eexists (Ret None), _, _. split; [discriminate|]. intros h Hq Hv Hh.
    rewrite (send_head_file_missing W file h Hslash Hopen). cbn [fst snd].
    split; [reflexivity|].
    rewrite wfile_after_send_error; [|exact Hv|now apply Quiet_touched].
    rewrite response_body.
    change (is_head (touched file h)) with (is_head h).
    destruct (is_head h); [now rewrite !append_nil_r | reflexivity].
  - eexists (Raise ValueError), "", "". split; [discriminate|]. intros h Hq Hv Hh.
    rewrite (send_head_file_refused W file h Hslash Hopen). cbn [fst snd].
    split; [reflexivity|]. destruct Hq as [Hw _]. cbn. rewrite Hw.
    now destruct (is_head h).
Qed.

Lemma list_directory_shape W file p :
  exists out head page,
    (forall content, out = Ret (Some content) -> page = "") /\
    forall h, Quiet h -> http09 h = false -> path h = p ->
      fst (SimpleHTTPRequestHandler.list_directory W CORSRequestHandler.end_headers file h)
      = out /\
      wfile (snd (SimpleHTTPRequestHandler.list_directory W CORSRequestHandler.end_headers
                    file h))
      = head ++ (if is_head h then "" else page).
Proof.
  destruct (listing W file p) as [encoded| |] eqn:Hlist.
  - eexists (Ret (Some encoded)), _, "". split; [reflexivity|]. intros h Hq Hv Hp.
    rewrite <- Hp in Hlist. rewrite (list_directory_listed W file h encoded Hlist).
    cbn [fst snd]. split; [reflexivity|].
    rewrite wfile_decorated; [|exact Hv|now apply Quiet_touched].
    destruct (is_head h); now rewrite append_nil_r.
  - eexists (Ret None), _, _. split; [discriminate|]. intros h Hq Hv Hp.
    rewrite <- Hp in Hlist. rewrite (list_directory_denied W file h Hlist).
    cbn [fst snd]. split; [reflexivity|].
    rewrite wfile_after_send_error; [|exact Hv|now apply Quiet_touched].
    rewrite response_body.
    change (is_head (touched file h)) with (is_head h).
    destruct (is_head h); [now rewrite !append_nil_r | reflexivity].
  - exists (Raise ValueError), "", "". split; [discriminate|]. intros h Hq Hv Hp.
    rewrite <- Hp in Hlist. rewrite (list_directory_unencodable W file h Hlist).
    cbn [fst snd]. split; [reflexivity|]. destruct Hq as [Hw _]. cbn. rewrite Hw.
    now destruct (is_head h).
Qed.

Lemma send_head_shape W d p hs :
  exists out head page,
    (forall content, out = Ret (Some content) -> page = "") /\
    forall h, Quiet h -> http09 h = false ->
      directory h = d -> path h = p -> headers h = hs ->
      fst (SimpleHTTPRequestHandler.send_head W CORSRequestHandler.end_headers h) = out /\
      wfile (snd (SimpleHTTPRequestHandler.send_head W CORSRequestHandler.end_headers h))
      = head ++ (if is_head h then "" else page).
Proof.
  set (file := SimpleHTTPRequestHandler.translate_path W d p).
  destruct (os_path_isdir W file) eqn:Hdir.
  - destruct (urlsplit W p) as [parts|] eqn:Hparts.
    2:{ exists (Raise ValueError), "", "". split; [discriminate|].
        intros h Hq Hv Hd Hpath Hh.
        assert (Hdir' : os_path_isdir W
                          (SimpleHTTPRequestHandler.translate_path W (directory h) (path h))
                        = true) by (rewrite Hd, Hpath; exact Hdir).
        assert (Hparts' : urlsplit W (path h) = None) by (rewrite Hpath; exact Hparts).
        rewrite (send_head_unsplit W h Hdir' Hparts'). cbn [fst snd].
        split; [reflexivity|]. destruct Hq as [Hw _]. cbn. rewrite Hw.
        now destruct (is_head h). }
    destruct (endswith (sp_path parts) "/") eqn:Hslash.
    + destruct (os_path_isfile W (posixpath.join file "index.html")) eqn:Hhtml;
        [|destruct (os_path_isfile W (posixpath.join file "index.htm")) eqn:Hhtm].
      * destruct (send_head_file_shape W (posixpath.join file "index.html") hs)
          as (out & head & page & Hp & S).
        exists out, head, page. split; [exact Hp|]. intros h Hq Hv Hd Hpath Hh.
        subst d p. rewrite (send_head_dir W h parts Hdir Hparts Hslash). fold file.
        rewrite Hhtml.
        apply (S (touched (posixpath.join file "index.html") (touched file h)));
          [now repeat apply Quiet_touched | exact Hv | exact Hh].
      * destruct (send_head_file_shape W (posixpath.join file "index.htm") hs)
          as (out & head & page & Hp & S).
        exists out, head, page. split; [exact Hp|]. intros h Hq Hv Hd Hpath Hh.
        subst d p. rewrite (send_head_dir W h parts Hdir Hparts Hslash). fold file.
        rewrite Hhtml, Hhtm.
        apply (S (touched (posixpath.join file "index.htm")
                    (touched (posixpath.join file "index.html") (touched file h))));
          [now repeat apply Quiet_touched | exact Hv | exact Hh].
      * destruct (list_directory_shape W file p) as (out & head & page & Hp & S).
        exists out, head, page. split; [exact Hp|]. intros h Hq Hv Hd Hpath Hh.
        subst d p. rewrite (send_head_dir W h parts Hdir Hparts Hslash). fold file.
        rewrite Hhtml, Hhtm.
        apply (S (touched (posixpath.join file "index.htm")
                    (touched (posixpath.join file "index.html") (touched file h))));
          [now repeat apply Quiet_touched | exact Hv | reflexivity].
    + eexists (Ret None), _, "". split; [reflexivity|]. intros h Hq Hv Hd Hpath Hh.
      assert (Hdir' : os_path_isdir W
                        (SimpleHTTPRequestHandler.translate_path W (directory h) (path h))
                      = true) by (rewrite Hd, Hpath; exact Hdir).
      assert (Hparts' : urlsplit W (path h) = Some parts) by (rewrite Hpath; exact Hparts).
      rewrite (send_head_redirect W h parts Hdir' Hparts' Hslash). cbn [fst snd].
      split; [reflexivity|].
      rewrite wfile_decorated; [|exact Hv|now apply Quiet_touched].
      destruct (is_head h); now rewrite append_nil_r.
  - destruct (send_head_file_shape W file hs) as (out & head & page & Hp & S).
    exists out, head, page. split; [exact Hp|]. intros h Hq Hv Hd Hpath Hh.
    subst d p. rewrite (send_head_not_dir W h Hdir). fold file.
    apply (S (touched file h)); [now apply Quiet_touched | exact Hv | exact Hh].
Qed.

Lemma served_of_send_head W request cmd target version hs :
  well_formed W request cmd target version hs ->
  cmd = "GET" \/ cmd = "HEAD" ->
  fst (served W request)
  = match fst (SimpleHTTPRequestHandler.send_head W CORSRequestHandler.end_headers
                 (parsed W request cmd target version hs)) with
    | Ret _ => Ret tt
    | Raise e => Raise e
    end /\
  reply W request
  = wfile (snd (SimpleHTTPRequestHandler.send_head W CORSRequestHandler.end_headers
                  (parsed W request cmd target version hs)))
    ++ match fst (SimpleHTTPRequestHandler.send_head W CORSRequestHandler.end_headers
                    (parsed W request cmd target version hs)) with
       | Ret (Some content) => if (cmd =? "HEAD")%string then "" else content
       | _ => ""
       end.
Proof.
  intros Hwf Hcmd. unfold reply.
  rewrite (served_dispatch W request cmd target version hs Hwf).
  destruct (SimpleHTTPRequestHandler.send_head W CORSRequestHandler.end_headers
              (parsed W request cmd target version hs)) as [[r|e] h'] eqn:E.
  - destruct Hcmd as [-> | ->].
    + rewrite getattr_GET. cbv iota beta.
      unfold CORSRequestHandler.do_GET, SimpleHTTPRequestHandler.do_GET.
      rewrite (bind_run _ _ _ _ _ E).
      destruct r as [content|]; exec; cbn [fst snd]; split; try reflexivity.
      now rewrite append_nil_r.
    + change (CORSRequestHandler.getattr_do W "HEAD")
        with (Some (CORSRequestHandler.do_HEAD W)).
      cbv iota beta.
      unfold CORSRequestHandler.do_HEAD, SimpleHTTPRequestHandler.do_HEAD.
      rewrite (bind_run _ _ _ _ _ E). exec. cbn [fst snd]. split; [reflexivity|].
      destruct r; now rewrite append_nil_r.
  - destruct Hcmd as [-> | ->].
    + rewrite getattr_GET. cbv iota beta.
      unfold CORSRequestHandler.do_GET, SimpleHTTPRequestHandler.do_GET.
      rewrite (bind_raise _ _ _ _ _ E). cbn [fst snd]. split; [reflexivity|].
      now rewrite append_nil_r.
    + change (CORSRequestHandler.getattr_do W "HEAD")
        with (Some (CORSRequestHandler.do_HEAD W)).
      cbv iota beta.
      unfold CORSRequestHandler.do_HEAD, SimpleHTTPRequestHandler.do_HEAD.
      rewrite (bind_raise _ _ _ _ _ E). cbn [fst snd]. split; [reflexivity|].
      now rewrite append_nil_r.
Qed.

(** X23.  HEAD is GET without the body, on every path: for a GET and a
    HEAD request with the same target, version and headers, the handler
    returns or raises alike, and the reply to GET is the reply to HEAD
    followed by a body -- whether the target is a file, a directory, a
    conditional hit or an error. *)
Theorem head_is_get_without_body (W : World) (request_get request_head : string)
        (target version : string) (hs : list (string * string)) :
  well_formed W request_get "GET" target version hs ->
  well_formed W request_head "HEAD" target version hs ->
  version <> "HTTP/0.9" ->
  fst (served W request_head) = fst (served W request_get) /\
  exists body, reply W request_get = reply W request_head ++ body.
Proof.
  intros Hg Hh Hv.
  destruct (send_head_shape W (os_getcwd W) (stored_path target) hs)
    as (out & head & page & Hp & S).
  destruct (S (parsed W request_get "GET" target version hs))
    as [Og Wg]; try reflexivity; [split; reflexivity | now apply http09_parsed |].
  destruct (S (parsed W request_head "HEAD" target version hs))
    as [Oh Wh]; try reflexivity; [split; reflexivity | now apply http09_parsed |].
  destruct (served_of_send_head W request_get "GET" target version hs Hg
              (or_introl eq_refl)) as [Fg Rg].
  destruct (served_of_send_head W request_head "HEAD" target version hs Hh
              (or_intror eq_refl)) as [Fh Rh].
  rewrite Fg, Fh, Rg, Rh, Og, Oh, Wg, Wh. split; [reflexivity|].
  change (is_head (parsed W request_get "GET" target version hs)) with false.
  change (is_head (parsed W request_head "HEAD" target version hs)) with true.
  change ("GET" =? "HEAD")%string with false.
  change ("HEAD" =? "HEAD")%string with true. cbv iota.
  destruct out as [[content|]|e].
  - exists (page ++ content). now rewrite !append_nil_r, append_assoc.
  - exists page. now rewrite !append_nil_r.
  - exists page. now rewrite !append_nil_r.
Qed.

Lemma head_is_get_without_body_witness :
  well_formed Example.world (Example.bare "GET /missing.txt HTTP/1.1")
              "GET" "/missing.txt" "HTTP/1.1" [] /\
  well_formed Example.world (Example.bare "HEAD /missing.txt HTTP/1.1")
              "HEAD" "/missing.txt" "HTTP/1.1" [] /\
  exists body,
    reply Example.world (Example.bare "GET /missing.txt HTTP/1.1")
    = reply Example.world (Example.bare "HEAD /missing.txt HTTP/1.1") ++ body.
Proof.
  assert (Hg : well_formed Example.world (Example.bare "GET /missing.txt HTTP/1.1")
                           "GET" "/missing.txt" "HTTP/1.1" []).
  { repeat split; try (vm_compute; congruence).
    exists (1, 1), "1.1". split; reflexivity. }
  assert (Hh : well_formed Example.world (Example.bare "HEAD /missing.txt HTTP/1.1")
                           "HEAD" "/missing.txt" "HTTP/1.1" []).
  { repeat split; try (vm_compute; congruence).
    exists (1, 1), "1.1". split; reflexivity. }
  split; [exact Hg|]. split; [exact Hh|].
  exact (proj2 (head_is_get_without_body Example.world _ _ "/missing.txt" "HTTP/1.1" []
                  Hg Hh ltac:(discriminate))).
Defined.

(** ** Query strings *)

Lemma lstrip_app p t c r :
  p c = false -> lstrip p (t ++ String c r) = lstrip p t ++ String c r.
Proof.
  intros Hc. induction t as [|a t IH]; cbn [String.append lstrip].
  - now rewrite Hc.
  - destruct (p a); [exact IH | reflexivity].
Qed.

Lemma prefix_empty s : String.prefix "" s = true.
Proof. now destruct s. Qed.

Lemma startswith_slashes_query t r :
  startswith (t ++ String "?" r) "//" = startswith t "//".
Proof.
  unfold startswith. destruct t as [|a [|b t]]; cbn [String.append String.prefix].
  - reflexivity.
  - destruct (Ascii.ascii_dec "/" a); reflexivity.
  - destruct (Ascii.ascii_dec "/" a); [|reflexivity].
    destruct (Ascii.ascii_dec "/" b); [|reflexivity].
    now rewrite !prefix_empty.
Qed.

Lemma stored_path_query t r :
  stored_path (t ++ "?" ++ r) = stored_path t ++ "?" ++ r.
Proof.
  unfold stored_path. cbn [String.append]. rewrite startswith_slashes_query.
  destruct (startswith t "//"); [|reflexivity].
  now rewrite lstrip_app by reflexivity.
Qed.

(** X24.  A query string does not change what a file request is answered
    with: a GET or HEAD whose target names something that is not a
    directory gets the same reply, byte for byte, when "?" and anything
    at all follow the target. *)
Theorem query_does_not_change_the_reply (W : World) (request request' : string)
        (cmd target rest version : string) (hs : list (string * string)) :
  well_formed W request cmd target version hs ->
  well_formed W request' cmd (target ++ "?" ++ rest) version hs ->
  cmd = "GET" \/ cmd = "HEAD" ->
  version <> "HTTP/0.9" ->
  os_path_isdir W (SimpleHTTPRequestHandler.translate_path W (os_getcwd W)
                     (stored_path target)) = false ->
  reply W request' = reply W request /\
  fst (served W request') = fst (served W request).
Proof.
  intros Hwf Hwf' Hcmd Hv Hdir.
  set (file := SimpleHTTPRequestHandler.translate_path W (os_getcwd W) (stored_path target))
    in *.
  set (h := parsed W request cmd target version hs).
  set (h' := parsed W request' cmd (target ++ "?" ++ rest) version hs).
  assert (E : SimpleHTTPRequestHandler.send_head W CORSRequestHandler.end_headers h
              = SimpleHTTPRequestHandler.send_head_file W CORSRequestHandler.end_headers
                  file (touched file h))
    by (apply send_head_not_dir; exact Hdir).
  assert (E' : SimpleHTTPRequestHandler.send_head W CORSRequestHandler.end_headers h'
               = SimpleHTTPRequestHandler.send_head_file W CORSRequestHandler.end_headers
                   file (touched file h')).
  { pose proof (send_head_not_dir W h') as P. cbv zeta in P.
    change (directory h') with (os_getcwd W) in P.
    change (path h') with (stored_path (target ++ "?" ++ rest)) in P.
    rewrite stored_path_query, translate_path_query in P. apply P. exact Hdir. }
  destruct (send_head_file_shape W file hs) as (out & head & page & _ & S).
  destruct (S (touched file h)) as [O Y];
    [split; reflexivity | now apply http09_parsed | reflexivity |].
  destruct (S (touched file h')) as [O' Y'];
    [split; reflexivity | now apply http09_parsed | reflexivity |].
  destruct (served_of_send_head W request cmd target version hs Hwf Hcmd) as [F R].
  destruct (served_of_send_head W request' cmd _ version hs Hwf' Hcmd) as [F' R'].
  fold h in F, R. fold h' in F', R'.
  rewrite E in F, R. rewrite E' in F', R'.
  rewrite F, F', R, R', O, O', Y, Y'. split; reflexivity.
Qed.

Lemma query_does_not_change_the_reply_witness :
  well_formed Example.world (Example.bare "GET /app.js HTTP/1.1")
              "GET" "/app.js" "HTTP/1.1" [] /\
  well_formed Example.world (Example.bare "GET /app.js?v=17 HTTP/1.1")
              "GET" ("/app.js" ++ "?" ++ "v=17") "HTTP/1.1" [] /\
  reply Example.world (Example.bare "GET /app.js?v=17 HTTP/1.1")
  = reply Example.world (Example.bare "GET /app.js HTTP/1.1").
Proof.
  assert (Hwf : well_formed Example.world (Example.bare "GET /app.js HTTP/1.1")
                            "GET" "/app.js" "HTTP/1.1" []).
  { repeat split; try (vm_compute; congruence).
    exists (1, 1), "1.1". split; reflexivity. }
  assert (Hwf' : well_formed Example.world (Example.bare "GET /app.js?v=17 HTTP/1.1")
                             "GET" ("/app.js" ++ "?" ++ "v=17") "HTTP/1.1" []).
  { repeat split; try (vm_compute; congruence).
    exists (1, 1), "1.1". split; reflexivity. }
  split; [exact Hwf|]. split; [exact Hwf'|].
  exact (proj1 (query_does_not_change_the_reply Example.world _ _ "GET" "/app.js" "v=17"
                  "HTTP/1.1" [] Hwf Hwf' (or_introl eq_refl) ltac:(discriminate)
                  ltac:(reflexivity))).
Defined.

(** ** Content types and error pages *)

(** X25.  [guess_type] always names a type: the value of the Content-type
    header is never empty, whatever the path and whatever the [mimetypes]
    table says; and the four compressed-file extensions of
    [extensions_map] are answered from that map, before the table is
    asked. *)
Theorem guess_type_names_a_type (W : World) (file : string) :
  SimpleHTTPRequestHandler.guess_type W file <> "" /\
  (forall t, SimpleHTTPRequestHandler.extensions_map (snd (posixpath.splitext file)) = Some t ->
             SimpleHTTPRequestHandler.guess_type W file = t).
Proof.
  unfold SimpleHTTPRequestHandler.guess_type.
  destruct (posixpath.splitext file) as [base ext]. cbn [snd].
  assert (N : forall e t, SimpleHTTPRequestHandler.extensions_map e = Some t -> t <> "").
  { intros e t. unfold SimpleHTTPRequestHandler.extensions_map.
    repeat match goal with |- context [if ?b then _ else _] => destruct b end;
      intros H; inversion H; discriminate. }
  split.
  - destruct (SimpleHTTPRequestHandler.extensions_map ext) as [t|] eqn:E1;
      [exact (N _ _ E1)|].
    destruct (SimpleHTTPRequestHandler.extensions_map (lower ext)) as [t|] eqn:E2;
      [exact (N _ _ E2)|].
    destruct (mimetypes_guess_type W file) as [guess|]; [|discriminate].
    destruct (guess =? "")%string eqn:G; [discriminate|].
    now apply String.eqb_neq.
  - intros t E. now rewrite E.
Qed.

Lemma guess_type_names_a_type_witness :
  SimpleHTTPRequestHandler.extensions_map (snd (posixpath.splitext "/srv/site/bundle.js.gz"))
  = Some "application/gzip" /\
  SimpleHTTPRequestHandler.guess_type Example.world "/srv/site/bundle.js.gz"
  = "application/gzip".
Proof.
  split; [reflexivity|].
  exact (proj2 (guess_type_names_a_type Example.world "/srv/site/bundle.js.gz")
           "application/gzip" eq_refl).
Defined.

(** X26.  The text of an error page cannot carry markup from the request:
    [html_escape], through which [send_error] passes the message and the
    explanation, leaves no "<" and no ">" in its result, and leaves a text
    without "&", "<" and ">" as it is. *)
Theorem html_escape_leaves_no_markup (s : string) :
  contains "<" (html_escape s) = false /\
  contains ">" (html_escape s) = false /\
  (contains "&" s = false -> contains "<" s = false -> contains ">" s = false ->
   html_escape s = s).
Proof.
  induction s as [|a s (IH1 & IH2 & IH3)]; [repeat split|].
  cbn [html_escape contains]. rewrite !contains_app, IH1, IH2, !orb_false_r.
  destruct (a =? "&")%char eqn:Ea;
    [split; [reflexivity | split; [reflexivity | discriminate]]|].
  destruct (a =? "<")%char eqn:El;
    [split; [reflexivity | split; [reflexivity | discriminate]]|].
  destruct (a =? ">")%char eqn:Eg;
    [split; [reflexivity | split; [reflexivity | discriminate]]|].
  cbn [contains orb]. rewrite El, Eg.
  split; [reflexivity | split; [reflexivity|]].
  intros H1 H2 H3. cbn [String.append]. now rewrite IH3.
Qed.

Lemma html_escape_leaves_no_markup_witness :
  contains "<" (html_escape "Unsupported method ('<b>')") = false /\
  html_escape "File not found" = "File not found".
Proof.
  split.
  - exact (proj1 (html_escape_leaves_no_markup "Unsupported method ('<b>')")).
  - exact (proj2 (proj2 (html_escape_leaves_no_markup "File not found"))
             eq_refl eq_refl eq_refl).
Defined.
